(** * SoS task records, the liveness probe and master tasks

    A shallow embedding of [src/sos/tasks.py]: the binary task record
    ([TaskFile]), the status probe ([check_task]) and the batching of
    sub-tasks ([MasterTaskParams.push]), followed by the properties the
    specification states about them.

    Conventions of the embedding.
    - A file is the list of its bytes; a file object is that list, a
      position and what was logged while it was open.
    - Python exceptions are values of [exn]; a call yields [Ok v] or
      [Raise e], and keeps the state it had reached when it raised.
    - [struct] fields are integers: a signed 32-bit field is a [Z] packed
      big-endian with the range check of [struct.pack]; a double is the
      [Z] of its 64 IEEE bits (the code stores, copies and compares
      timestamps with 0, it never computes inside the record).
    - [lzma], [pickle] and the helpers of [sos.utils] are not part of the
      sources: they are section variables.  So are the class
      [sos_targets] and the arithmetic of Python's floats, each a class
      of operations ([Master.sos_targets_ops], [Probe.float_ops]). *)

From Stdlib Require Import ZArith Lia Sorted.
From Stdlib.Strings Require Import Byte.
From stdpp Require Import base list strings pretty gmap.

Local Open Scope Z_scope.

(** ** Python exceptions and results *)

Module Py.

Inductive exn : Type :=
| StructError
| ValueError (msg : string)
| RuntimeError (msg : string)
| OSError
| FileNotFoundError
| PermissionError
| AttributeError (name : string)
| TypeError
| KeyError (key : string)
| IndexError
| LZMAError
| UnpicklingError
| UnicodeDecodeError
| UnicodeEncodeError
| RecursionError.

Inductive result (A : Type) : Type :=
| Ok (a : A)
| Raise (e : exn).
Arguments Ok {A} a.
Arguments Raise {A} e.

Definition is_ok {A} (r : result A) : bool :=
  match r with Ok _ => true | Raise _ => false end.

(** The Python values the record stores and returns; a [str] is the list
    of its code points. *)
#[local] Unset Elimination Schemes.
Inductive pyobj : Type :=
| PNone
| PInt (z : Z)
| PStr (s : list Z)
| PList (l : list pyobj)
| PDict (items : list (string * pyobj)).
#[local] Set Elimination Schemes.

(** The attributes of an instance: its [__dict__]. *)
Definition instance : Type := gmap string pyobj.

End Py.
Export Py.

(** ** Bytes and the fixed-width fields of [struct] *)

Module Struct.

Definition Z_of_byte (b : byte) : Z := Z.of_N (Byte.to_N b).

Definition byte_of_Z (z : Z) : byte :=
  match Byte.of_N (Z.to_N (z mod 256)) with
  | Some b => b
  | None => x00
  end.

(** [n] bytes of [z], most significant first (network order, `!`). *)
Fixpoint be_encode (n : nat) (z : Z) : list byte :=
  match n with
  | O => []
  | S n' => byte_of_Z (z / 256 ^ Z.of_nat n') :: be_encode n' z
  end.

Definition be_decode (l : list byte) : Z :=
  fold_left (fun acc b => acc * 256 + Z_of_byte b) l 0.

(** Least significant first. *)
Definition le_decode (l : list byte) : Z := be_decode (rev l).

Inductive byte_order : Type := BigEndian | LittleEndian.

Definition decode_unsigned (o : byte_order) (l : list byte) : Z :=
  match o with
  | BigEndian => be_decode l
  | LittleEndian => le_decode l
  end.

Definition int32_min : Z := - 2 ^ 31.
Definition int32_max : Z := 2 ^ 31 - 1.

Definition in_int32 (z : Z) : bool := (int32_min <=? z) && (z <=? int32_max).

Definition to_signed32 (u : Z) : Z := if u <? 2 ^ 31 then u else u - 2 ^ 32.

(** [struct.pack('!i', z)]: out of range is [struct.error]. *)
Definition pack_int (z : Z) : result (list byte) :=
  if in_int32 z then Ok (be_encode 4 (z mod 2 ^ 32)) else Raise StructError.

(** [struct.unpack] of one `i` field in byte order [o]; the caller hands
    over exactly the bytes it read. *)
Definition unpack_int (o : byte_order) (l : list byte) : result Z :=
  if (length l =? 4)%nat then Ok (to_signed32 (decode_unsigned o l))
  else Raise StructError.

(** A double, as the 64 bits [struct] writes for it. *)
Definition pack_double (d : Z) : list byte := be_encode 8 (d mod 2 ^ 64).
Definition unpack_double (l : list byte) : Z := be_decode l.

(** [struct.pack('128s', b)]: cut to the width, or padded with NUL. *)
Definition pack_bytes (w : nat) (b : list byte) : list byte := resize w x00 b.

End Struct.
Export Struct.

(** ** A state monad with exceptions

    [M S A] runs on a state [S] and returns a value or raises; the state
    that comes back is the one reached, also on [Raise].  [try_except]
    is Python's bare [try: ... except: ...]. *)

Module StateExn.

Definition M (S A : Type) : Type := S -> result A * S.

Definition ret {S A} (a : A) : M S A := fun s => (Ok a, s).

Definition raise {S A} (e : exn) : M S A := fun s => (Raise e, s).

Definition bind {S A B} (m : M S A) (k : A -> M S B) : M S B :=
  fun s =>
    match m s with
    | (Ok a, s') => k a s'
    | (Raise e, s') => (Raise e, s')
    end.

Definition try_except {S A} (m : M S A) (handler : exn -> M S A) : M S A :=
  fun s =>
    match m s with
    | (Ok a, s') => (Ok a, s')
    | (Raise e, s') => handler e s'
    end.

Definition lift {S A} (r : result A) : M S A := fun s => (r, s).

Definition get {S} : M S S := fun s => (Ok s, s).

Definition modify {S} (f : S -> S) : M S unit := fun s => (Ok tt, f s).

End StateExn.
Export StateExn.

Notation "'let*' x ':=' m 'in' k" := (bind m (fun x => k))
  (at level 10, x name, m at level 100, k at level 200,
   format "'[v' 'let*'  x  ':='  m  'in' '/' k ']'").
Notation "m ';;' k" := (bind m (fun _ => k))
  (at level 100, k at level 200, right associativity,
   format "'[v' m  ';;' '/' k ']'").

(** ** File objects *)

Module FileIO.

Inductive log_level : Type := LDebug | LWarning.

(** One call of [env.logger]: the level, the text before the exception
    and the exception formatted into it, when there is one. *)
Record log_record : Type := LogRecord {
  lr_level : log_level;
  lr_text : string;
  lr_exn : option exn
}.

(** An open binary file: its bytes, the position, and the log of the
    process while it is open. *)
Record fstate : Type := FState {
  f_data : list byte;
  f_pos : nat;
  f_dirty : bool;
  f_log : list log_record
}.

Definition fopen (data : list byte) : fstate :=
  {| f_data := data; f_pos := 0; f_dirty := false; f_log := [] |}.

(** [fh.seek(off, 0)]: a negative offset is EINVAL. *)
Definition seek (off : Z) : M fstate unit :=
  fun s =>
    if off <? 0 then (Raise OSError, s)
    else (Ok tt, {| f_data := f_data s; f_pos := Z.to_nat off;
                    f_dirty := f_dirty s; f_log := f_log s |}).

(** [fh.read(n)] on a buffered binary file: at most [n] bytes from the
    position, all of the rest when [n] is [-1]; a length below [-1] is
    refused with [ValueError] and nothing is read. *)
Definition read (n : Z) : M fstate (list byte) :=
  fun s =>
    if n <? -1 then
      (Raise (ValueError "read length must be non-negative or -1"), s)
    else
      let rest := drop (f_pos s) (f_data s) in
      let got := if n <? 0 then rest else take (Z.to_nat n) rest in
      (Ok got, {| f_data := f_data s; f_pos := f_pos s + length got;
                  f_dirty := f_dirty s; f_log := f_log s |}).

(** [fh.write(b)]: overwrites from the position and extends the file; a
    position past the end leaves a hole of NUL bytes.  Writing nothing
    changes nothing. *)
Definition write (b : list byte) : M fstate unit :=
  fun s =>
    match b with
    | [] => (Ok tt, s)
    | _ =>
      let d := f_data s in
      let p := f_pos s in
      (Ok tt, {| f_data := take p d ++ replicate (p - length d) x00
                           ++ b ++ drop (p + length b) d;
                 f_pos := p + length b;
                 f_dirty := true;
                 f_log := f_log s |})
    end.

(** [fh.truncate(n)]: cuts, or extends with NUL bytes; the position stays. *)
Definition truncate (n : Z) : M fstate unit :=
  fun s =>
    if n <? 0 then (Raise OSError, s)
    else
      let k := Z.to_nat n in
      let d := f_data s in
      (Ok tt, {| f_data := resize k x00 d;
                 f_pos := f_pos s;
                 f_dirty := true;
                 f_log := f_log s |}).

Definition warning (text : string) (e : exn) : M fstate unit :=
  modify (fun s =>
    {| f_data := f_data s; f_pos := f_pos s; f_dirty := f_dirty s;
       f_log := f_log s ++ [LogRecord LWarning text (Some e)] |}).

End FileIO.
Export FileIO.

(** ** Python strings: code points, UTF-8, [sorted], [join], [ljust], [strip] *)

Module Unicode.

(** A [str] is the list of its code points. *)
Definition pystr : Type := list Z.

Definition is_surrogate (c : Z) : bool := (55296 <=? c) && (c <=? 57343).

Definition encode_char (c : Z) : result (list byte) :=
  if (c <? 0) || (1114111 <? c) || is_surrogate c then Raise UnicodeEncodeError
  else if c <? 128 then Ok [byte_of_Z c]
  else if c <? 2048 then
    Ok [byte_of_Z (192 + c / 64); byte_of_Z (128 + c mod 64)]
  else if c <? 65536 then
    Ok [byte_of_Z (224 + c / 4096); byte_of_Z (128 + (c / 64) mod 64);
        byte_of_Z (128 + c mod 64)]
  else
    Ok [byte_of_Z (240 + c / 262144); byte_of_Z (128 + (c / 4096) mod 64);
        byte_of_Z (128 + (c / 64) mod 64); byte_of_Z (128 + c mod 64)].

(** [s.encode()], UTF-8. *)
Fixpoint encode (s : pystr) : result (list byte) :=
  match s with
  | [] => Ok []
  | c :: s' =>
    match encode_char c, encode s' with
    | Ok b, Ok bs => Ok (b ++ bs)
    | _, _ => Raise UnicodeEncodeError
    end
  end.

Definition is_cont (b : Z) : bool := (128 <=? b) && (b <=? 191).

(** [b.decode()], strict UTF-8: continuation bytes, shortest form, no
    surrogates, nothing above U+10FFFF. *)
Fixpoint decode (l : list byte) : result pystr :=
  match l with
  | [] => Ok []
  | b0 :: l1 =>
    let z0 := Z_of_byte b0 in
    if z0 <? 128 then
      match decode l1 with Ok s => Ok (z0 :: s) | Raise e => Raise e end
    else if (194 <=? z0) && (z0 <=? 223) then
      match l1 with
      | b1 :: l2 =>
        let z1 := Z_of_byte b1 in
        if is_cont z1 then
          match decode l2 with
          | Ok s => Ok (((z0 - 192) * 64 + (z1 - 128)) :: s)
          | Raise e => Raise e
          end
        else Raise UnicodeDecodeError
      | _ => Raise UnicodeDecodeError
      end
    else if (224 <=? z0) && (z0 <=? 239) then
      match l1 with
      | b1 :: b2 :: l3 =>
        let z1 := Z_of_byte b1 in
        let z2 := Z_of_byte b2 in
        let c := (z0 - 224) * 4096 + (z1 - 128) * 64 + (z2 - 128) in
        if is_cont z1 && is_cont z2 && (2048 <=? c) && negb (is_surrogate c) then
          match decode l3 with Ok s => Ok (c :: s) | Raise e => Raise e end
        else Raise UnicodeDecodeError
      | _ => Raise UnicodeDecodeError
      end
    else if (240 <=? z0) && (z0 <=? 244) then
      match l1 with
      | b1 :: b2 :: b3 :: l4 =>
        let z1 := Z_of_byte b1 in
        let z2 := Z_of_byte b2 in
        let z3 := Z_of_byte b3 in
        let c := (z0 - 240) * 262144 + (z1 - 128) * 4096
                 + (z2 - 128) * 64 + (z3 - 128) in
        if is_cont z1 && is_cont z2 && is_cont z3
           && (65536 <=? c) && (c <=? 1114111) then
          match decode l4 with Ok s => Ok (c :: s) | Raise e => Raise e end
        else Raise UnicodeDecodeError
      | _ => Raise UnicodeDecodeError
      end
    else Raise UnicodeDecodeError
  end.

(** [str.isspace] of one character: what [strip()] removes. *)
Definition is_space (c : Z) : bool :=
  ((9 <=? c) && (c <=? 13)) || ((28 <=? c) && (c <=? 32))
  || (c =? 133) || (c =? 160) || (c =? 5760)
  || ((8192 <=? c) && (c <=? 8202))
  || (c =? 8232) || (c =? 8233) || (c =? 8239) || (c =? 8287) || (c =? 12288).

Fixpoint lstrip (s : pystr) : pystr :=
  match s with
  | c :: s' => if is_space c then lstrip s' else s
  | [] => []
  end.

Definition rstrip (s : pystr) : pystr := rev (lstrip (rev s)).

Definition strip (s : pystr) : pystr := rstrip (lstrip s).

Definition space : Z := 32.

(** [s.ljust(w)]: padded with spaces up to [w] characters, never cut. *)
Definition ljust (w : nat) (s : pystr) : pystr :=
  s ++ replicate (w - length s) space.

(** [' '.join(l)]. *)
Fixpoint join (l : list pystr) : pystr :=
  match l with
  | [] => []
  | [s] => s
  | s :: l' => s ++ space :: join l'
  end.

(** [a <= b] on strings: by code points, a prefix first. *)
Fixpoint str_leb (a b : pystr) : bool :=
  match a, b with
  | [], _ => true
  | _ :: _, [] => false
  | x :: a', y :: b' => (x <? y) || ((x =? y) && str_leb a' b')
  end.

Fixpoint insert_sorted (s : pystr) (l : list pystr) : list pystr :=
  match l with
  | [] => [s]
  | t :: l' => if str_leb s t then s :: l else t :: insert_sorted s l'
  end.

(** [sorted(l)]: the order is total and equal strings are the same
    value, so any sorting algorithm returns this list. *)
Definition sorted (l : list pystr) : list pystr :=
  foldr insert_sorted [] l.

(** [s.split()]: the runs of characters between white space. *)
Fixpoint split_from (cur : pystr) (s : pystr) : list pystr :=
  match s with
  | [] => match cur with [] => [] | _ => [rev cur] end
  | c :: s' =>
    if is_space c then
      match cur with
      | [] => split_from [] s'
      | _ => rev cur :: split_from [] s'
      end
    else split_from (c :: cur) s'
  end.

Definition split (s : pystr) : list pystr := split_from [] s.

(** A literal, for the texts of the sources. *)
Definition of_string (s : string) : pystr :=
  map (fun a => Z.of_N (Ascii.N_of_ascii a)) (String.list_ascii_of_string s).

End Unicode.

(** ** The file system, the clock and the objects of the process

    One process, running alone: files change only by what the modelled
    code does.  A path names a regular file or nothing (directories are
    not modelled); times are integer nanoseconds, for [st_mtime] and
    [time.time()] alike, and 0 is the mtime the code reads as "absent".
    Where the code subtracts times it does so on the doubles Python hands
    out for them, see [Probe.float_ops]. *)

Module World.

Record file_entry : Type := FileEntry {
  e_data : list byte;
  e_mtime : Z;
  e_writable : bool
}.

(** What a call did to the outside, in order. *)
Inductive event : Type :=
| EvIsFile (path : string)
| EvStat (path : string)
| EvAccess (path : string)
| EvOpen (path : string) (mode : string)
| EvChmod (path : string)
| EvRemove (path : string)
| EvSleep (ns : Z).

Record world : Type := mkWorld {
  w_fs : gmap string file_entry;
  w_clock : Z;
  w_heap : gmap positive instance;
  w_log : list log_record;
  w_trace : list event
}.

Definition set_fs (fs : gmap string file_entry) (w : world) : world :=
  mkWorld fs (w_clock w) (w_heap w) (w_log w) (w_trace w).
Definition set_clock (t : Z) (w : world) : world :=
  mkWorld (w_fs w) t (w_heap w) (w_log w) (w_trace w).
Definition set_heap (hp : gmap positive instance) (w : world) : world :=
  mkWorld (w_fs w) (w_clock w) hp (w_log w) (w_trace w).
Definition add_log (l : list log_record) (w : world) : world :=
  mkWorld (w_fs w) (w_clock w) (w_heap w) (w_log w ++ l) (w_trace w).
Definition add_trace (evs : list event) (w : world) : world :=
  mkWorld (w_fs w) (w_clock w) (w_heap w) (w_log w) (w_trace w ++ evs).

Definition emit (ev : event) : M world unit := modify (add_trace [ev]).

Definition second : Z := 1000000000.

(** [os.path.isfile(path)] *)
Definition isfile (path : string) : M world bool :=
  emit (EvIsFile path) ;;
  let* w := get in
  ret (bool_decide (is_Some (w_fs w !! path))).

(** [os.stat(path).st_mtime] *)
Definition stat_mtime (path : string) : M world Z :=
  emit (EvStat path) ;;
  let* w := get in
  match w_fs w !! path with
  | Some e => ret (e_mtime e)
  | None => raise FileNotFoundError
  end.

(** [os.access(path, os.W_OK)] *)
Definition access_w (path : string) : M world bool :=
  emit (EvAccess path) ;;
  let* w := get in
  match w_fs w !! path with
  | Some e => ret (e_writable e)
  | None => ret false
  end.

(** [os.chmod(path, mode)], as far as the owner's write bit goes. *)
Definition chmod (path : string) (writable : bool) : M world unit :=
  emit (EvChmod path) ;;
  let* w := get in
  match w_fs w !! path with
  | Some e =>
    modify (set_fs (<[path := FileEntry (e_data e) (e_mtime e) writable]> (w_fs w)))
  | None => raise FileNotFoundError
  end.

(** [os.remove(path)] *)
Definition remove (path : string) : M world unit :=
  emit (EvRemove path) ;;
  let* w := get in
  match w_fs w !! path with
  | Some _ => modify (set_fs (delete path (w_fs w)))
  | None => raise FileNotFoundError
  end.

(** [time.time()] *)
Definition time : M world Z :=
  let* w := get in ret (w_clock w).

(** [time.sleep(d)] *)
Definition sleep (ns : Z) : M world unit :=
  emit (EvSleep ns) ;;
  modify (fun w => set_clock (w_clock w + ns) w).

Definition log (lvl : log_level) (text : string) : M world unit :=
  modify (add_log [LogRecord lvl text None]).

(** What closing the file leaves: the bytes, a new mtime when the file was
    written to, and the records logged meanwhile. *)
Definition close (path : string) (e : file_entry) (s : fstate) (w : world) : world :=
  add_log (f_log s)
    (set_fs (<[path := FileEntry (f_data s)
                         (if f_dirty s then w_clock w else e_mtime e)
                         (e_writable e)]> (w_fs w)) w).

(** [with open(path, 'rb') as fh: body].  The body is given the reading
    [time.time()] has while the file is open. *)
Definition with_open_rb {A} (path : string) (body : Z -> M fstate A) : M world A :=
  emit (EvOpen path "rb") ;;
  fun w =>
    match w_fs w !! path with
    | None => (Raise FileNotFoundError, w)
    | Some e =>
      let '(r, s) := body (w_clock w) (fopen (e_data e)) in
      (r, add_log (f_log s) w)
    end.

(** [with open(path, 'r+b') as fh: body] *)
Definition with_open_rw {A} (path : string) (body : Z -> M fstate A) : M world A :=
  emit (EvOpen path "r+b") ;;
  fun w =>
    match w_fs w !! path with
    | None => (Raise FileNotFoundError, w)
    | Some e =>
      if e_writable e then
        let '(r, s) := body (w_clock w) (fopen (e_data e)) in
        (r, close path e s w)
      else (Raise PermissionError, w)
    end.

(** [with open(path, 'wb+') as fh: body]: the file is created, or emptied. *)
Definition with_open_wb {A} (path : string) (body : Z -> M fstate A) : M world A :=
  emit (EvOpen path "wb+") ;;
  fun w =>
    match w_fs w !! path with
    | Some e =>
      if e_writable e then
        let '(r, s) := body (w_clock w) (fopen []) in
        (r, close path (FileEntry [] (w_clock w) true) s w)
      else (Raise PermissionError, w)
    | None =>
      let '(r, s) := body (w_clock w) (fopen []) in
      (r, close path (FileEntry [] (w_clock w) true) s w)
    end.

(** The instance a reference points to. *)
Definition deref (ref : positive) : M world instance :=
  let* w := get in
  match w_heap w !! ref with
  | Some obj => ret obj
  | None => raise (AttributeError "")
  end.

(** [getattr(obj, name)] and [del obj.name] on the instance at [ref]. *)
Definition getattr (ref : positive) (attr : string) : M world pyobj :=
  let* w := get in
  match w_heap w !! ref with
  | Some obj =>
    match obj !! attr with
    | Some v => ret v
    | None => raise (AttributeError attr)
    end
  | None => raise (AttributeError attr)
  end.

Definition delattr (ref : positive) (attr : string) : M world unit :=
  let* w := get in
  match w_heap w !! ref with
  | Some obj =>
    match obj !! attr with
    | Some _ => modify (set_heap (<[ref := delete attr obj]> (w_heap w)))
    | None => raise (AttributeError attr)
    end
  | None => raise (AttributeError attr)
  end.

End World.
Export World.

(** ** The task record: [class TaskFile] *)

Module TaskFile.

(** [class TaskStatus(Enum)] *)
Inductive TaskStatus : Type :=
| new | pending | submitted | running | aborted | failed | completed.

Definition value (s : TaskStatus) : Z :=
  match s with
  | new => 0 | pending => 1 | submitted => 2 | running => 3
  | aborted => 4 | failed => 5 | completed => 6
  end.

Definition name (s : TaskStatus) : string :=
  match s with
  | new => "new" | pending => "pending" | submitted => "submitted"
  | running => "running" | aborted => "aborted" | failed => "failed"
  | completed => "completed"
  end.

(** [TaskStatus(v)]: a value outside the enumeration is [ValueError]. *)
Definition of_value (v : Z) : result TaskStatus :=
  if v =? 0 then Ok new
  else if v =? 1 then Ok pending
  else if v =? 2 then Ok submitted
  else if v =? 3 then Ok running
  else if v =? 4 then Ok aborted
  else if v =? 5 then Ok failed
  else if v =? 6 then Ok completed
  else Raise (ValueError (pretty v +:+ " is not a valid TaskStatus")).

(** [TaskHeader = namedtuple(...)], the fields in the order of the tuple.
    Timestamps are doubles, everything else but [tags] a Python int. *)
Record TaskHeader : Type := mkTaskHeader {
  version : Z;
  status : Z;
  tags : list byte;
  new_time : Z;
  pending_time : Z;
  submitted_time : Z;
  running_time : Z;
  aborted_time : Z;
  failed_time : Z;
  completed_time : Z;
  last_modified : Z;
  params_size : Z;
  pulse_size : Z;
  stdout_size : Z;
  stderr_size : Z;
  result_size : Z;
  signature_size : Z
}.

(** [header_fmt = '!2i 128s 8d 6i']; [header_size = struct.calcsize(header_fmt)],
    no padding in network order. *)
Definition tags_width : nat := 128.
Definition header_size : Z := 2 * 4 + 128 + 8 * 8 + 6 * 4.

(** The pieces of [header._replace(field=v)]. *)
Definition set_status (v : Z) (h : TaskHeader) : TaskHeader :=
  mkTaskHeader (version h) v (tags h) (new_time h) (pending_time h)
    (submitted_time h) (running_time h) (aborted_time h) (failed_time h)
    (completed_time h) (last_modified h) (params_size h) (pulse_size h)
    (stdout_size h) (stderr_size h) (result_size h) (signature_size h).
Definition set_new_time (v : Z) (h : TaskHeader) : TaskHeader :=
  mkTaskHeader (version h) (status h) (tags h) v (pending_time h)
    (submitted_time h) (running_time h) (aborted_time h) (failed_time h)
    (completed_time h) (last_modified h) (params_size h) (pulse_size h)
    (stdout_size h) (stderr_size h) (result_size h) (signature_size h).
Definition set_pending_time (v : Z) (h : TaskHeader) : TaskHeader :=
  mkTaskHeader (version h) (status h) (tags h) (new_time h) v
    (submitted_time h) (running_time h) (aborted_time h) (failed_time h)
    (completed_time h) (last_modified h) (params_size h) (pulse_size h)
    (stdout_size h) (stderr_size h) (result_size h) (signature_size h).
Definition set_submitted_time (v : Z) (h : TaskHeader) : TaskHeader :=
  mkTaskHeader (version h) (status h) (tags h) (new_time h) (pending_time h)
    v (running_time h) (aborted_time h) (failed_time h)
    (completed_time h) (last_modified h) (params_size h) (pulse_size h)
    (stdout_size h) (stderr_size h) (result_size h) (signature_size h).
Definition set_running_time (v : Z) (h : TaskHeader) : TaskHeader :=
  mkTaskHeader (version h) (status h) (tags h) (new_time h) (pending_time h)
    (submitted_time h) v (aborted_time h) (failed_time h)
    (completed_time h) (last_modified h) (params_size h) (pulse_size h)
    (stdout_size h) (stderr_size h) (result_size h) (signature_size h).
Definition set_aborted_time (v : Z) (h : TaskHeader) : TaskHeader :=
  mkTaskHeader (version h) (status h) (tags h) (new_time h) (pending_time h)
    (submitted_time h) (running_time h) v (failed_time h)
    (completed_time h) (last_modified h) (params_size h) (pulse_size h)
    (stdout_size h) (stderr_size h) (result_size h) (signature_size h).
Definition set_failed_time (v : Z) (h : TaskHeader) : TaskHeader :=
  mkTaskHeader (version h) (status h) (tags h) (new_time h) (pending_time h)
    (submitted_time h) (running_time h) (aborted_time h) v
    (completed_time h) (last_modified h) (params_size h) (pulse_size h)
    (stdout_size h) (stderr_size h) (result_size h) (signature_size h).
Definition set_completed_time (v : Z) (h : TaskHeader) : TaskHeader :=
  mkTaskHeader (version h) (status h) (tags h) (new_time h) (pending_time h)
    (submitted_time h) (running_time h) (aborted_time h) (failed_time h)
    v (last_modified h) (params_size h) (pulse_size h)
    (stdout_size h) (stderr_size h) (result_size h) (signature_size h).
Definition set_last_modified (v : Z) (h : TaskHeader) : TaskHeader :=
  mkTaskHeader (version h) (status h) (tags h) (new_time h) (pending_time h)
    (submitted_time h) (running_time h) (aborted_time h) (failed_time h)
    (completed_time h) v (params_size h) (pulse_size h)
    (stdout_size h) (stderr_size h) (result_size h) (signature_size h).
Definition set_params_size (v : Z) (h : TaskHeader) : TaskHeader :=
  mkTaskHeader (version h) (status h) (tags h) (new_time h) (pending_time h)
    (submitted_time h) (running_time h) (aborted_time h) (failed_time h)
    (completed_time h) (last_modified h) v (pulse_size h)
    (stdout_size h) (stderr_size h) (result_size h) (signature_size h).
Definition set_pulse_size (v : Z) (h : TaskHeader) : TaskHeader :=
  mkTaskHeader (version h) (status h) (tags h) (new_time h) (pending_time h)
    (submitted_time h) (running_time h) (aborted_time h) (failed_time h)
    (completed_time h) (last_modified h) (params_size h) v
    (stdout_size h) (stderr_size h) (result_size h) (signature_size h).
Definition set_stdout_size (v : Z) (h : TaskHeader) : TaskHeader :=
  mkTaskHeader (version h) (status h) (tags h) (new_time h) (pending_time h)
    (submitted_time h) (running_time h) (aborted_time h) (failed_time h)
    (completed_time h) (last_modified h) (params_size h) (pulse_size h)
    v (stderr_size h) (result_size h) (signature_size h).
Definition set_stderr_size (v : Z) (h : TaskHeader) : TaskHeader :=
  mkTaskHeader (version h) (status h) (tags h) (new_time h) (pending_time h)
    (submitted_time h) (running_time h) (aborted_time h) (failed_time h)
    (completed_time h) (last_modified h) (params_size h) (pulse_size h)
    (stdout_size h) v (result_size h) (signature_size h).
Definition set_result_size (v : Z) (h : TaskHeader) : TaskHeader :=
  mkTaskHeader (version h) (status h) (tags h) (new_time h) (pending_time h)
    (submitted_time h) (running_time h) (aborted_time h) (failed_time h)
    (completed_time h) (last_modified h) (params_size h) (pulse_size h)
    (stdout_size h) (stderr_size h) v (signature_size h).
Definition set_signature_size (v : Z) (h : TaskHeader) : TaskHeader :=
  mkTaskHeader (version h) (status h) (tags h) (new_time h) (pending_time h)
    (submitted_time h) (running_time h) (aborted_time h) (failed_time h)
    (completed_time h) (last_modified h) (params_size h) (pulse_size h)
    (stdout_size h) (stderr_size h) (result_size h) v.

(** The timestamps and the section sizes, in the order of the format. *)
Definition times (h : TaskHeader) : list Z :=
  [new_time h; pending_time h; submitted_time h; running_time h;
   aborted_time h; failed_time h; completed_time h; last_modified h].

Definition sizes (h : TaskHeader) : list Z :=
  [params_size h; pulse_size h; stdout_size h; stderr_size h;
   result_size h; signature_size h].

Fixpoint pack_ints (l : list Z) : result (list byte) :=
  match l with
  | [] => Ok []
  | z :: l' =>
    match pack_int z, pack_ints l' with
    | Ok b, Ok bs => Ok (b ++ bs)
    | _, _ => Raise StructError
    end
  end.

(** [struct.pack(header_fmt, *header)] *)
Definition pack_header (h : TaskHeader) : result (list byte) :=
  match pack_ints [version h; status h], pack_ints (sizes h) with
  | Ok a, Ok c =>
    Ok (a ++ pack_bytes tags_width (tags h)
          ++ concat (map pack_double (times h)) ++ c)
  | _, _ => Raise StructError
  end.

Definition slice (off len : nat) (l : list byte) : list byte :=
  take len (drop off l).

Definition int_at (off : nat) (l : list byte) : Z :=
  to_signed32 (be_decode (slice off 4 l)).

Definition double_at (off : nat) (l : list byte) : Z :=
  unpack_double (slice off 8 l).

(** [TaskHeader._make(struct.unpack(header_fmt, data))]: [struct.error]
    unless [data] has exactly the size of the format. *)
Definition unpack_header (l : list byte) : result TaskHeader :=
  if (Z.of_nat (length l) =? header_size) then
    Ok {| version := int_at 0 l;
          status := int_at 4 l;
          tags := slice 8 tags_width l;
          new_time := double_at 136 l;
          pending_time := double_at 144 l;
          submitted_time := double_at 152 l;
          running_time := double_at 160 l;
          aborted_time := double_at 168 l;
          failed_time := double_at 176 l;
          completed_time := double_at 184 l;
          last_modified := double_at 192 l;
          params_size := int_at 200 l;
          pulse_size := int_at 204 l;
          stdout_size := int_at 208 l;
          stderr_size := int_at 212 l;
          result_size := int_at 216 l;
          signature_size := int_at 220 l |}
  else Raise StructError.

(** The header a record of these bytes has. *)
Definition header_of (data : list byte) : result TaskHeader :=
  unpack_header (take (Z.to_nat header_size) data).

Definition _read_header : M fstate TaskHeader :=
  seek 0 ;;
  let* data := read header_size in
  lift (unpack_header data).

Definition _write_header (header : TaskHeader) : M fstate unit :=
  seek 0 ;;
  let* data := lift (pack_header header) in
  write data.

Section Methods.

(** [os.path.expanduser('~')] *)
Variable home : string.
(** The byte order of the machine: what a [struct] format without a
    prefix uses. *)
Variable native : byte_order.
(** The double a reading of the clock is. *)
Variable float_bits : Z -> Z.
Variable lzma_compress : list byte -> list byte.
Variable lzma_decompress : list byte -> result (list byte).
(** [pickle.dumps] of a parameter object and of a dictionary. *)
Variable pickle_dumps : instance -> list byte.
Variable pickle_dumps_dict : pyobj -> list byte.
Variable pickle_loads : list byte -> result pyobj.

Definition task_path (task ext : string) : string :=
  home +:+ "/.sos/tasks/" +:+ task +:+ ext.

(** [self.task_file] *)
Definition task_file (task : string) : string := task_path task ".task".

Definition len (b : list byte) : Z := Z.of_nat (length b).

Fixpoint as_str_list (l : list pyobj) : result (list Unicode.pystr) :=
  match l with
  | [] => Ok []
  | PStr s :: l' =>
    match as_str_list l' with Ok r => Ok (s :: r) | Raise e => Raise e end
  | _ => Raise TypeError
  end.

(** [' '.join(sorted(tags)).ljust(128).encode()] *)
Definition tags_field (tags : list Unicode.pystr) : result (list byte) :=
  Unicode.encode (Unicode.ljust tags_width (Unicode.join (Unicode.sorted tags))).

Definition tags_of_attr (tags : pyobj) : result (list byte) :=
  match tags with
  | PList l =>
    match as_str_list l with
    | Ok t => tags_field t
    | Raise e => Raise e
    end
  | _ => Raise TypeError
  end.

Definition save (task : string) (params : positive) : M world unit :=
  let* there := isfile (task_file task) in
  if (there : bool) then log LDebug "Do not override existing task file"
  else
    let* now := time in
    let* tags := getattr params "tags" in
    delattr params "tags" ;;
    let* obj := deref params in
    let params_block := lzma_compress (pickle_dumps obj) in
    let* tag_bytes := lift (tags_of_attr tags) in
    let header :=
      {| version := 1;
         status := value new;
         tags := tag_bytes;
         new_time := float_bits now;
         pending_time := 0;
         running_time := 0;
         submitted_time := 0;
         aborted_time := 0;
         failed_time := 0;
         completed_time := 0;
         last_modified := float_bits now;
         params_size := len params_block;
         pulse_size := 0;
         stdout_size := 0;
         stderr_size := 0;
         result_size := 0;
         signature_size := 0 |} in
    with_open_wb (task_file task) (fun _ =>
      _write_header header ;;
      write params_block).

(** The reset common to [update] and [_reset]: every transition time 0,
    [new_time] and [last_modified] now, the five trailing sizes 0. *)
Definition clear_header (st : TaskStatus) (now : Z) (h : TaskHeader) : TaskHeader :=
  set_signature_size 0 (set_result_size 0 (set_stderr_size 0
    (set_stdout_size 0 (set_pulse_size 0
      (set_last_modified now (set_completed_time 0 (set_failed_time 0
        (set_aborted_time 0 (set_running_time 0 (set_submitted_time 0
          (set_pending_time 0 (set_new_time now
            (set_status (value st) h))))))))))))).

Definition update (task : string) (params : instance) : M world unit :=
  let params_block := lzma_compress (pickle_dumps params) in
  with_open_rw (task_file task) (fun clock =>
    let* header := _read_header in
    let now := float_bits clock in
    let header := set_params_size (len params_block) (clear_header pending now header) in
    _write_header header ;;
    write params_block ;;
    truncate (header_size + params_size header)).

Definition _reset (clock : Z) : M fstate TaskHeader :=
  let* header := _read_header in
  let now := float_bits clock in
  let header := clear_header new now header in
  _write_header header ;;
  truncate (header_size + params_size header) ;;
  ret header.

Definition reset (task : string) : M world unit :=
  with_open_rw (task_file task) (fun clock =>
    _reset clock ;;
    ret tt).

Definition _get_content (task ext : string) : M world (list byte) :=
  let filename := task_path task ext in
  let* there := isfile filename in
  if (there : bool) then
    let* content := with_open_rb filename (fun _ => read (-1)) in
    ret (lzma_compress content)
  else ret [].

(** [if data: fh.write(data)] *)
Definition write_if (data : list byte) : M fstate unit :=
  match data with
  | [] => ret tt
  | _ => write data
  end.

Definition add_outputs (task : string) : M world unit :=
  let* pulse := _get_content task ".pulse" in
  let* stdout := _get_content task ".out" in
  let* stderr := _get_content task ".err" in
  with_open_rw (task_file task) (fun clock =>
    let* header := _read_header in
    (if result_size header =? 0 then ret tt
     else (_reset clock ;; ret tt)) ;;
    let header := set_stderr_size (len stderr)
                    (set_stdout_size (len stdout)
                      (set_pulse_size (len pulse) header)) in
    _write_header header ;;
    seek (header_size + params_size header) ;;
    write_if pulse ;;
    write_if stdout ;;
    write_if stderr).

Definition add_result (task : string) (result : pyobj) : M world unit :=
  let result_block := lzma_compress (pickle_dumps_dict result) in
  with_open_rw (task_file task) (fun _ =>
    let* header := _read_header in
    let header := set_result_size (len result_block) header in
    _write_header header ;;
    seek (header_size + params_size header + pulse_size header
          + stdout_size header + stderr_size header) ;;
    write result_block).

Definition add_signature (task : string) (signature : pyobj) : M world unit :=
  let signature_block := lzma_compress (pickle_dumps_dict signature) in
  with_open_rw (task_file task) (fun _ =>
    let* header := _read_header in
    let header := set_signature_size (len signature_block) header in
    _write_header header ;;
    seek (header_size + params_size header + pulse_size header
          + stdout_size header + stderr_size header + result_size header) ;;
    write signature_block).

Definition _get_info (task : string) : M world TaskHeader :=
  with_open_rb (task_file task) (fun _ => _read_header).

Definition has_result (task : string) : M world bool :=
  let* info := _get_info task in ret (0 <? result_size info).
Definition has_stdout (task : string) : M world bool :=
  let* info := _get_info task in ret (0 <? stdout_size info).
Definition has_stderr (task : string) : M world bool :=
  let* info := _get_info task in ret (0 <? stderr_size info).
Definition has_signature (task : string) : M world bool :=
  let* info := _get_info task in ret (0 <? signature_size info).

(** [pickle.loads(lzma.decompress(data))] *)
Definition loads_block (data : list byte) : result pyobj :=
  match lzma_decompress data with
  | Ok raw => pickle_loads raw
  | Raise e => Raise e
  end.

(** [lzma.decompress(data).decode()] *)
Definition decode_block (data : list byte) : result Unicode.pystr :=
  match lzma_decompress data with
  | Ok raw => Unicode.decode raw
  | Raise e => Raise e
  end.

Definition _get_params (task : string) : M world pyobj :=
  with_open_rb (task_file task) (fun _ =>
    let* header := _read_header in
    if params_size header =? 0 then ret (PDict [])
    else
      seek header_size ;;
      let* data := read (params_size header) in
      lift (loads_block data)).

Definition _get_status (task : string) : M world string :=
  with_open_rb (task_file task) (fun _ =>
    seek 4 ;;
    let* data := read 4 in
    let* v := lift (unpack_int native data) in
    let* st := lift (of_value v) in
    ret (name st)).

Definition _set_status (task : string) (status : string) : M world unit :=
  with_open_rw (task_file task) (fun clock =>
    let* header := _read_header in
    let now := float_bits clock in
    let* header :=
      if String.eqb status "pending" then
        ret (set_last_modified now (set_pending_time now
               (set_status (value pending) header)))
      else if String.eqb status "submitted" then
        ret (set_last_modified now (set_submitted_time now
               (set_status (value submitted) header)))
      else if String.eqb status "running" then
        ret (set_last_modified now (set_running_time now
               (set_status (value running) header)))
      else if String.eqb status "failed" then
        ret (set_last_modified now (set_failed_time now
               (set_status (value failed) header)))
      else if String.eqb status "aborted" then
        ret (set_last_modified now (set_aborted_time now
               (set_status (value aborted) header)))
      else if String.eqb status "completed" then
        ret (set_last_modified now (set_completed_time now
               (set_status (value completed) header)))
      else raise (RuntimeError ("Unrecognized task status: " +:+ status)) in
    _write_header header).

Definition _get_tags (task : string) : M world Unicode.pystr :=
  with_open_rb (task_file task) (fun _ =>
    seek 8 ;;
    let* data := read 128 in
    let* text := lift (Unicode.decode data) in
    ret (Unicode.strip text)).

Definition _set_tags (task : string) (tags : list Unicode.pystr) : M world unit :=
  with_open_rw (task_file task) (fun _ =>
    seek 8 ;;
    let* data := lift (tags_field tags) in
    write data).

Definition add_tags (task : string) (tags : list Unicode.pystr) : M world unit :=
  with_open_rw (task_file task) (fun _ =>
    seek 8 ;;
    let* data := read 128 in
    let* text := lift (Unicode.decode data) in
    let existing_tags := Unicode.strip text in
    seek 8 ;;
    let* data := lift (tags_field (tags ++ Unicode.split existing_tags)) in
    write data).

(** The common shape of [_get_pulse], [_get_stdout], [_get_stderr]: a
    section of [size] bytes at [off], decompressed and decoded; any
    exception of that is logged and [''] returned. *)
Definition get_text (what : string) (size off : TaskHeader -> Z)
    (task : string) : M world Unicode.pystr :=
  with_open_rb (task_file task) (fun _ =>
    let* header := _read_header in
    if size header =? 0 then ret []
    else
      seek (off header) ;;
      try_except
        (let* data := read (size header) in
         lift (decode_block data))
        (fun e =>
           warning ("Failed to decode " +:+ what +:+ ": ") e ;;
           ret [])).

Definition pulse_offset (h : TaskHeader) : Z := header_size + params_size h.
Definition stdout_offset (h : TaskHeader) : Z := pulse_offset h + pulse_size h.
Definition stderr_offset (h : TaskHeader) : Z := stdout_offset h + stdout_size h.
Definition result_offset (h : TaskHeader) : Z := stderr_offset h + stderr_size h.
Definition signature_offset (h : TaskHeader) : Z := result_offset h + result_size h.

Definition _get_pulse : string -> M world Unicode.pystr :=
  get_text "pulse" pulse_size pulse_offset.
Definition _get_stdout : string -> M world Unicode.pystr :=
  get_text "stdout" stdout_size stdout_offset.
Definition _get_stderr : string -> M world Unicode.pystr :=
  get_text "stderr" stderr_size stderr_offset.

(** [{'ret_code': 1}] *)
Definition ret_code_1 : pyobj := PDict [("ret_code", PInt 1)].

(** The common shape of [_get_result] and [_get_signature]: an unpickled
    section; any exception is logged and [{'ret_code': 1}] returned. *)
Definition get_pickled (what : string) (size off : TaskHeader -> Z)
    (task : string) : M world pyobj :=
  with_open_rb (task_file task) (fun _ =>
    let* header := _read_header in
    if size header =? 0 then ret (PDict [])
    else
      seek (off header) ;;
      try_except
        (let* data := read (size header) in
         lift (loads_block data))
        (fun e =>
           warning ("Failed to decode " +:+ what +:+ ": ") e ;;
           ret ret_code_1)).

Definition _get_result : string -> M world pyobj :=
  get_pickled "result" result_size result_offset.
Definition _get_signature : string -> M world pyobj :=
  get_pickled "signature" signature_size signature_offset.

End Methods.

End TaskFile.

(** ** The liveness probe: [check_task] *)

Module Probe.

Import TaskFile.

(** What [check_task] returns, and what it is given back as a hint:
    [dict(status=..., files={path: mtime, ...})], the files in the order
    the dictionary lists them.  The empty dictionary is [None]. *)
Record report : Type := Report {
  r_status : string;
  r_files : list (string * Z)
}.

Definition monitor_interval : Z := 5.

(** The doubles [check_task] computes with.  The world keeps its times as
    clock readings in nanoseconds; [os.stat(f).st_mtime] and
    [time.time()] hand them to the program as doubles of seconds, and the
    program subtracts and compares these.  The arithmetic of doubles is
    the interpreter's, not the repository's: it is taken as given, as the
    compressor and the pickler are.  An [int] operand ([1],
    [monitor_interval], [2 * monitor_interval]) enters as the double of
    its value. *)
Class float_ops : Type := FloatOps {
  double : Type;
  (** the double [st_mtime] gives for a file modified at a clock reading *)
  of_mtime : Z -> double;
  (** the double [time.time()] gives at a clock reading *)
  of_clock : Z -> double;
  (** the double of an [int] *)
  of_int : Z -> double;
  (** [x - y] *)
  fsub : double -> double -> double;
  (** [x < y] *)
  fltb : double -> double -> bool;
  (** [x <= y] *)
  fleb : double -> double -> bool
}.

Section CheckTask.

Variable home : string.
Variable native : byte_order.
Variable float_bits : Z -> Z.
Context {fl : float_ops}.

Definition str_in (s : string) (l : list string) : bool :=
  existsb (String.eqb s) l.

Definition unless (b : bool) (m : M world unit) : M world unit :=
  if b then ret tt else m.

Fixpoint remove_task_files (task : string) (exts : list string) : M world unit :=
  match exts with
  | [] => ret tt
  | ext :: exts' =>
    let filename := task_path home task ext in
    let* there := isfile filename in
    (if (there : bool) then
       (if String.eqb ext ".pulse" then
          let* writable := access_w filename in
          unless writable (chmod filename true)
        else ret tt) ;;
       (* a removal that fails is handed to [DelayedAction]; here the
          removal of a file that is there succeeds *)
       try_except (remove filename) (fun _ => ret tt)
     else ret tt) ;;
    remove_task_files task exts'
  end.

(** [all((isfile(f) and stat(f).st_mtime == v) if v else (not isfile(f))
         for f, v in hint['files'].items())] *)
Fixpoint evidence_unchanged (files : list (string * Z)) : M world bool :=
  match files with
  | [] => ret true
  | (f, v) :: files' =>
    let* same :=
      if v =? 0 then
        let* there := isfile f in ret (negb there)
      else
        let* there := isfile f in
        if (there : bool) then
          let* m := stat_mtime f in ret (m =? v)
        else ret false in
    if (same : bool) then evidence_unchanged files' else ret false
  end.

(** [hint['files'][path]] *)
Fixpoint files_get (files : list (string * Z)) (path : string) : result Z :=
  match files with
  | [] => Raise (KeyError path)
  | (f, v) :: files' => if String.eqb f path then Ok v else files_get files' path
  end.

(** [hint and hint['status'] == 'running'] *)
Definition hint_is_running (hint : option report) : bool :=
  match hint with
  | Some h => String.eqb (r_status h) "running"
  | None => false
  end.

Definition companions : list string := [".sh"; ".job_id"; ".out"; ".err"; ".pulse"].

(** [depth] is the room left on the call stack: a call that has none
    raises [RecursionError], as the interpreter does. *)
Fixpoint check_task (depth : nat) (task : string) (hint : option report)
    : M world (option report) :=
  match depth with
  | O => raise RecursionError
  | S depth' =>
    let* reuse :=
      match hint with
      | Some h =>
        if negb (str_in (r_status h) ["pending"; "running"])
        then evidence_unchanged (r_files h)
        else ret false
      | None => ret false
      end in
    if (reuse : bool) then ret None
    else
    let task_file := task_file home task in
    let* there := isfile task_file in
    if negb there then ret (Some (Report "missing" [(task_file, 0)]))
    else
    let* mtime := stat_mtime task_file in
    let task_changed : M world bool :=
      let* m := stat_mtime task_file in ret (negb (m =? mtime)) in
    let retry (e : exn) : M world (option report) :=
      let* changed := task_changed in
      if (changed : bool) then check_task depth' task None else raise e in
    let* status := _get_status home native task in
    if str_in status ["failed"; "completed"; "aborted"] then
      let* m := stat_mtime task_file in
      ret (Some (Report status [(task_file, m)]))
    else
    let pulse_file := task_path home task ".pulse" in
    let* alive :=
      let* there := isfile pulse_file in
      if (there : bool) then
        let* pm := stat_mtime pulse_file in
        let* tm := stat_mtime task_file in
        ret (fleb (fsub (of_mtime tm) (of_int 1)) (of_mtime pm))
      else ret false in
    if (alive : bool) then
      try_except
        (let* tm := stat_mtime task_file in
         let* pm := stat_mtime pulse_file in
         let status_files := [(task_file, tm); (pulse_file, pm)] in
         let* writable := access_w pulse_file in
         if negb writable then
           unless (String.eqb status "aborted")
             (_set_status home float_bits task "aborted") ;;
           remove_task_files task companions ;;
           let* tm := stat_mtime task_file in
           ret (Some (Report "aborted" [(task_file, tm); (pulse_file, 0)]))
         else
         let* start_stamp := stat_mtime pulse_file in
         let* now := time in
         let elapsed := fsub (of_clock now) (of_mtime start_stamp) in
         (if fltb elapsed (of_int 0) then
            log LDebug (pulse_file +:+
              " is created in the future. Your system time might be problematic")
          else ret tt) ;;
         if fltb elapsed (of_int monitor_interval) then
           unless (String.eqb status "running")
             (_set_status home float_bits task "running") ;;
           if hint_is_running hint then ret None
           else ret (Some (Report "running" status_files))
         else if fltb (of_int (2 * monitor_interval)) elapsed then
           let* changed := task_changed in
           if (changed : bool) then check_task depth' task None
           else
             remove_task_files task companions ;;
             unless (String.eqb status "aborted")
               (_set_status home float_bits task "aborted") ;;
             ret (Some (Report "aborted" status_files))
         else
         sleep (2 * monitor_interval * second) ;;
         let* end_stamp := stat_mtime pulse_file in
         let* changed := task_changed in
         if (changed : bool) then check_task depth' task None
         else if negb (start_stamp =? end_stamp) then
           if hint_is_running hint then ret None
           else
             unless (String.eqb status "running")
               (_set_status home float_bits task "running") ;;
             ret (Some (Report "running" status_files))
         else
           remove_task_files task companions ;;
           unless (String.eqb status "aborted")
             (_set_status home float_bits task "aborted") ;;
           ret (Some (Report "aborted" status_files)))
        retry
    else
    let job_file := task_path home task ".sh" in
    let has_job : M world bool :=
      let job_id_file := task_path home task ".job_id" in
      let* there := isfile job_file in
      if (there : bool) then
        let* jm := stat_mtime job_file in
        let* tm := stat_mtime task_file in
        if tm <=? jm then
          let* there := isfile job_id_file in
          if (there : bool) then
            let* im := stat_mtime job_id_file in
            let* jm := stat_mtime job_file in
            ret (jm <=? im)
          else ret false
        else ret false
      else ret false in
    let* queued := has_job in
    if (queued : bool) then
      try_except
        (unless (String.eqb status "submitted")
           (_set_status home float_bits task "submitted") ;;
         let* tm := stat_mtime task_file in
         let* jm := stat_mtime job_file in
         ret (Some (Report "submitted"
                      [(task_file, tm); (job_file, jm); (pulse_file, 0)])))
        retry
    else
      try_except
        (let* same :=
           match hint with
           | Some h =>
             if str_in (r_status h) ["new"; "pending"] then
               let* v := lift (files_get (r_files h) task_file) in
               let* tm := stat_mtime task_file in
               ret (v =? tm)
             else ret false
           | None => ret false
           end in
         if (same : bool) then ret None
         else
           let* tm := stat_mtime task_file in
           ret (Some (Report status [(task_file, tm); (job_file, 0)])))
        retry
  end.

End CheckTask.

End Probe.

(** ** Batches of sub-tasks: [class MasterTaskParams] *)

Module Master.

(** A value of the [_runtime] dictionary. *)
Inductive rtval : Type :=
| VNone
| VInt (n : Z)
| VStr (s : string).

Definition rtval_eqb (a b : rtval) : bool :=
  match a, b with
  | VNone, VNone => true
  | VInt x, VInt y => x =? y
  | VStr x, VStr y => String.eqb x y
  | _, _ => false
  end.

(** [f'{v}'] *)
Definition format (v : rtval) : string :=
  match v with
  | VNone => "None"
  | VInt n => pretty n
  | VStr s => s
  end.

(** A value under [_input], [_output] or [_depends]: a plain [list], or
    [sos_targets], which is not one. *)
Inductive targets : Type :=
| PlainList (l : list string)
| SosTargets (l : list string).

(** The entries of [sos_dict] that [push] reads or writes. *)
Record sos_dict_t : Type := mkDict {
  _runtime : gmap string rtval;
  step_name : string;
  _input : option targets;
  _output : option targets;
  _depends : option targets
}.

(** [class TaskParams]; the attribute [tags] can be deleted ([save] does). *)
Record TaskParams : Type := mkTaskParams {
  tp_name : string;
  tp_global_def : string;
  tp_task : string;
  tp_sos_dict : sos_dict_t;
  tp_tags : option (list string)
}.

Record MasterTaskParams : Type := mkMaster {
  ID : string;
  name : string;
  global_def : string;
  task : string;
  raw_dict : sos_dict_t;
  sos_dict : sos_dict_t;
  num_workers : Z;
  tags : list string;
  task_stack : list (string * TaskParams)
}.

(** [MasterTaskParams.__init__] *)
Definition init (num_workers : Z) : MasterTaskParams :=
  let d := {| _runtime := ∅; step_name := "";
              _input := Some (SosTargets []);
              _output := Some (SosTargets []);
              _depends := Some (SosTargets []) |} in
  {| ID := "M_0"; name := "M_0"; global_def := ""; task := "";
     raw_dict := d; sos_dict := d; num_workers := num_workers;
     tags := []; task_stack := [] |}.

Definition num_tasks (self : MasterTaskParams) : nat := length (task_stack self).

Definition set_sos_dict (d : sos_dict_t) (m : MasterTaskParams) : MasterTaskParams :=
  mkMaster (ID m) (name m) (global_def m) (task m) (raw_dict m) d
    (num_workers m) (tags m) (task_stack m).
Definition set_tags (t : list string) (m : MasterTaskParams) : MasterTaskParams :=
  mkMaster (ID m) (name m) (global_def m) (task m) (raw_dict m) (sos_dict m)
    (num_workers m) t (task_stack m).
Definition set_runtime (k : string) (v : rtval) (m : MasterTaskParams) : MasterTaskParams :=
  let d := sos_dict m in
  set_sos_dict (mkDict (<[k := v]> (_runtime d)) (step_name d)
                  (_input d) (_output d) (_depends d)) m.
Definition set_step_name (s : string) (m : MasterTaskParams) : MasterTaskParams :=
  let d := sos_dict m in
  set_sos_dict (mkDict (_runtime d) s (_input d) (_output d) (_depends d)) m.

(** [d['_runtime'].get(key, None)] *)
Definition runtime_get (d : sos_dict_t) (key : string) : rtval :=
  default VNone (_runtime d !! key).

Definition first_keys : list string :=
  ["walltime"; "max_walltime"; "cores"; "max_cores"; "mem"; "max_mem"; "map_vars";
   "name"; "cur_dir"; "home_dir"; "verbosity"; "sig_mode"; "run_mode"].

Definition identity_keys : list string :=
  ["walltime"; "max_walltime"; "cores"; "max_cores"; "mem"; "max_mem";
   "name"; "cur_dir"; "home_dir"].

Definition elements (t : targets) : list string :=
  match t with PlainList l | SosTargets l => l end.

(** [list(set(new) - set(old))]: the new elements, each once.  Python
    lists them in the order of their hashes; here in the order of [new]. *)
Definition new_elements (new old : list string) : list string :=
  remove_dups (filter (fun x => x ∉ old) new).

Definition str_insert (s : string) (l : list string) : list string :=
  (fix ins l := match l with
                | [] => [s]
                | t :: l' => if String.leb s t then s :: l else t :: ins l'
                end) l.

(** [sorted(list(set(l)))] *)
Definition sorted_set (l : list string) : list string :=
  foldr str_insert [] (remove_dups l).

(** [sos.targets] is not among these sources.  What [push] does to a
    [sos_targets] object [t], [t.extend(list(set(new) - set(t)))], rests
    on how that class iterates, compares and hashes its elements and on
    its [extend]; it is taken as given: [extend_sos old new] are the
    elements of [t] afterwards, where [old] are its elements before and
    [new] is the list of the sub-task. *)
Class sos_targets_ops : Type := SosTargetsOps {
  extend_sos : list string -> list string -> list string
}.

Section Push.

(** [sos.utils]: seconds of a time, bytes of a size, and [H:M:S]. *)
Variable expand_time : rtval -> Z.
Variable expand_size : rtval -> Z.
Variable format_HHMMSS : Z -> string.
Context {targets_ops : sos_targets_ops}.

(** [self.sos_dict[key].extend(list(set(params.sos_dict[key]) -
    set(self.sos_dict[key])))], done where the value of the sub-task is a
    [list]: on a plain list with the sets and the [extend] of Python, on
    [sos_targets] with those of its class. *)
Definition extend_targets (mine : option targets) (theirs : option targets)
    : option targets :=
  match theirs with
  | Some (PlainList l) =>
    match mine with
    | Some (SosTargets old) => Some (SosTargets (extend_sos old l))
    | Some (PlainList old) => Some (PlainList (old ++ new_elements l old))
    | None => None
    end
  | _ => mine
  end.

(** The first push: the keys the sub-task defines are copied. *)
Fixpoint copy_keys (params : TaskParams) (keys : list string) : M MasterTaskParams unit :=
  match keys with
  | [] => ret tt
  | key :: keys' =>
    (match _runtime (tp_sos_dict params) !! key with
     | Some VNone | None => ret tt
     | Some v => modify (set_runtime key v)
     end) ;;
    copy_keys params keys'
  end.

(** One turn of the loop over the identity keys of a later push. *)
Definition merge_key (params : TaskParams) (key : string) : M MasterTaskParams unit :=
  let* self := get in
  match task_stack self with
  | [] => raise IndexError
  | (_, first) :: _ =>
    let val0 := runtime_get (tp_sos_dict first) key in
    let val := runtime_get (tp_sos_dict params) key in
    if negb (rtval_eqb val0 val) then
      raise (ValueError ("All tasks should have the same resource " +:+ key))
    else
      let n := Z.of_nat (length (task_stack self)) in
      let workers := num_workers self in
      let nrow :=
        if workers <=? 1 then n
        else (n + 1) / workers + (if (n + 1) mod workers =? 0 then 0 else 1) in
      let ncol :=
        if workers =? 0 then 1
        else if 1 <? nrow then workers
        else n + 1 in
      match val0 with
      | VNone => ret tt
      | _ =>
        if String.eqb key "walltime" then
          modify (set_runtime "walltime"
                    (VStr (format_HHMMSS (nrow * expand_time val0))))
        else if String.eqb key "mem" then
          modify (set_runtime "mem"
                    (VInt (ncol * expand_size val0
                           + (if 0 <? workers then expand_size (VStr "100M") else 0))))
        else if String.eqb key "cores" then
          match val0 with
          | VInt c =>
            modify (set_runtime "cores"
                      (VInt (ncol * c + (if 0 <? workers then 1 else 0))))
          | _ => raise TypeError
          end
        else if String.eqb key "name" then
          modify (set_runtime "name" (VStr (format val0 +:+ "_" +:+ pretty (n + 1))))
        else ret tt
      end
  end.

Fixpoint merge_keys (params : TaskParams) (keys : list string) : M MasterTaskParams unit :=
  match keys with
  | [] => ret tt
  | key :: keys' => merge_key params key ;; merge_keys params keys'
  end.

(** [params.tags] *)
Definition tags_of (params : TaskParams) : M MasterTaskParams (list string) :=
  match tp_tags params with
  | Some t => ret t
  | None => raise (AttributeError "tags")
  end.

Definition push (task_id : string) (params : TaskParams) : M MasterTaskParams unit :=
  let* self := get in
  (match task_stack self with
   | [] =>
     copy_keys params first_keys ;;
     modify (set_step_name (step_name (tp_sos_dict params))) ;;
     let* t := tags_of params in
     modify (set_tags t)
   | _ =>
     merge_keys params identity_keys ;;
     let* t := tags_of params in
     modify (fun m => set_tags (tags m ++ t) m)
   end) ;;
  modify (fun m =>
    let d := sos_dict m in
    let p := tp_sos_dict params in
    set_sos_dict (mkDict (_runtime d) (step_name d)
                    (extend_targets (_input d) (_input p))
                    (extend_targets (_output d) (_output p))
                    (extend_targets (_depends d) (_depends p))) m) ;;
  modify (fun m =>
    let stack := task_stack m ++ [(task_id, params)] in
    let id := "M" +:+ pretty (length stack) +:+ "_"
              +:+ match stack with (first_id, _) :: _ => first_id | [] => "" end in
    mkMaster id id (global_def m) (task m) (sos_dict m) (sos_dict m)
      (num_workers m) (sorted_set (tags m)) stack).

End Push.

End Master.

(** ** Killing a task: [kill_task] *)

Module Kill.

Import TaskFile Probe.

Section KillTask.

Variable home : string.
Variable native : byte_order.
Variable float_bits : Z -> Z.

(** The files [kill_task] removes; the pulse file is kept, read-only. *)
Definition job_files : list string := [".sh"; ".job_id"; ".out"; ".err"].

(** [kill_task(task)]: [stat.S_IREAD | stat.S_IRGRP | stat.S_IROTH] takes
    the write bit off the pulse file. *)
Definition kill_task (task : string) : M world string :=
  let* status := _get_status home native task in
  if String.eqb status "completed" then ret "completed"
  else
    remove_task_files home task job_files ;;
    let pulse_file := task_path home task ".pulse" in
    let* there := isfile pulse_file in
    (if (there : bool) then chmod pulse_file false else ret tt) ;;
    _set_status home float_bits task "aborted" ;;
    ret "aborted".

End KillTask.

End Kill.

(** ** A small concrete installation

    Stand-ins for what the sources import, and one record, to run the
    model on. *)

Module Sample.

Import TaskFile.

Definition home : string := "/home/sos".

(** The bits of a clock reading: any injection into 64 bits will do. *)
Definition float_bits (t : Z) : Z := t mod 2 ^ 64.

(** The six bytes every xz stream starts with. *)
Definition xz_magic : list byte := [xfd; x37; x7a; x58; x5a; x00].

(** A compressor that stores: the magic, then the bytes. *)
Definition lzma_compress (b : list byte) : list byte := xz_magic ++ b.

Fixpoint bytes_eqb (a b : list byte) : bool :=
  match a, b with
  | [], [] => true
  | x :: a', y :: b' => Byte.eqb x y && bytes_eqb a' b'
  | _, _ => false
  end.

Definition lzma_decompress (b : list byte) : result (list byte) :=
  if bytes_eqb (take 6 b) xz_magic then Ok (drop 6 b) else Raise LZMAError.

(** A pickler that keeps the size of what it is given, and whether it was
    a dictionary. *)
Definition pickle_dumps (obj : instance) : list byte :=
  x80 :: replicate (size obj) x2e.

Definition pickle_dumps_dict (o : pyobj) : list byte :=
  match o with
  | PDict items => x80 :: x7d :: replicate (length items) x2e
  | _ => [x80; x4e]
  end.

Definition pickle_loads (b : list byte) : result pyobj :=
  match b with
  | x80 :: x7d :: rest => Ok (PDict (replicate (length rest) ("k", PNone)))
  | x80 :: _ => Ok PNone
  | _ => Raise UnpicklingError
  end.

Definition task : string := "t1".

Definition blank_tags : list byte := replicate 128 x20.

(** A record as [save] leaves it at time 100, with a parameter block. *)
Definition params_block : list byte := lzma_compress [x80; x2e; x2e].

Definition header0 : TaskHeader :=
  {| version := 1; status := value new; tags := blank_tags;
     new_time := 100; pending_time := 0; submitted_time := 0; running_time := 0;
     aborted_time := 0; failed_time := 0; completed_time := 0; last_modified := 100;
     params_size := len params_block; pulse_size := 0; stdout_size := 0;
     stderr_size := 0; result_size := 0; signature_size := 0 |}.

Definition bytes_of (h : TaskHeader) : list byte :=
  match pack_header h with Ok b => b | Raise _ => [] end.

Definition record0 : list byte := bytes_of header0 ++ params_block.

Definition entry0 : file_entry := FileEntry record0 100 true.

Definition world_of (e : file_entry) : world :=
  {| w_fs := {[ task_file home task := e ]};
     w_clock := 200; w_heap := ∅; w_log := []; w_trace := [] |}.

Definition world0 : world := world_of entry0.

(** The same task after it has run: completed at time 150, with a
    result of ten bytes. *)
Definition result_block : list byte :=
  lzma_compress (pickle_dumps_dict (PDict [("ret_code", PInt 0); ("output", PNone)])).

Definition header1 : TaskHeader :=
  {| version := 1; status := value completed; tags := blank_tags;
     new_time := 100; pending_time := 110; submitted_time := 120; running_time := 130;
     aborted_time := 0; failed_time := 0; completed_time := 150; last_modified := 150;
     params_size := len params_block; pulse_size := 0; stdout_size := 0;
     stderr_size := 0; result_size := len result_block; signature_size := 0 |}.

Definition record1 : list byte := bytes_of header1 ++ params_block ++ result_block.

Definition entry1 : file_entry := FileEntry record1 150 true.

Definition world1 : world := world_of entry1.

(** A record whose parameter block is not an xz stream. *)
Definition corrupt_record : list byte := bytes_of header0 ++ replicate 9 x00.

Definition corrupt_entry : file_entry := FileEntry corrupt_record 100 true.

Definition corrupt_world : world := world_of corrupt_entry.

(** The record of the task in a world, and its header. *)
Definition record_in (w : world) : list byte :=
  match w_fs w !! task_file home task with
  | Some e => e_data e
  | None => []
  end.

(** A machine that reads an unprefixed [struct] format most significant
    byte first. *)
Definition native : byte_order := BigEndian.

(** Stand-in doubles: exact arithmetic on nanoseconds.  The doubles of
    the interpreter decide as these do wherever no rounding comes between
    the operands of a comparison, as at the times of this installation. *)
Definition exact_floats : Probe.float_ops :=
  {| Probe.double := Z;
     Probe.of_mtime := fun t => t;
     Probe.of_clock := fun t => t;
     Probe.of_int := fun n => n * second;
     Probe.fsub := Z.sub;
     Probe.fltb := Z.ltb;
     Probe.fleb := Z.leb |}.

(** Stand-in [sos_targets]: no element of the object equals a [str], so
    every distinct name of the list is added. *)
Definition plain_targets : Master.sos_targets_ops :=
  {| Master.extend_sos := fun old new => old ++ remove_dups new |}.

(** The hint a probe of the completed task has left. *)
Definition hint1 : Probe.report :=
  Probe.Report "completed" [(task_file home task, 150)].

(** A parameter object with two tags, before any record exists. *)
Definition params_ref : positive := 1%positive.

Definition params_obj : instance :=
  <["tags" := PList [PStr (Unicode.of_string "b"); PStr (Unicode.of_string "a")]]>
    {["name" := PStr (Unicode.of_string "t1")]}.

Definition fresh_world : world :=
  {| w_fs := ∅; w_clock := 100; w_heap := {[ params_ref := params_obj ]};
     w_log := []; w_trace := [] |}.

(** The tag list [['\u00e9']]: one character, two bytes in UTF-8. *)
Definition accented_tags : list Unicode.pystr := [[233]].

(** Stand-ins for [expand_time], [expand_size] and [format_HHMMSS] of
    [sos.utils]: numbers are taken as they are, ['1h'] is an hour,
    ['100M'] a hundred megabytes. *)
Definition expand_time (v : Master.rtval) : Z :=
  match v with
  | Master.VInt n => n
  | Master.VStr s => if String.eqb s "1h" then 3600 else 0
  | Master.VNone => 0
  end.

Definition expand_size (v : Master.rtval) : Z :=
  match v with
  | Master.VInt n => n
  | Master.VStr s => if String.eqb s "100M" then 100000000 else 0
  | Master.VNone => 0
  end.

Definition two_digits (n : Z) : string :=
  if n <? 10 then "0" +:+ pretty n else pretty n.

Definition format_HHMMSS (v : Z) : string :=
  two_digits (v / 3600) +:+ ":" +:+ two_digits (v / 60 mod 60)
  +:+ ":" +:+ two_digits (v mod 60).

Definition header_in (w : world) : result TaskHeader := header_of (record_in w).

Definition status_in (w : world) : result Z :=
  match header_in w with
  | Ok h => Ok (status h)
  | Raise e => Raise e
  end.

Definition sizes_in (w : world) : result (list Z) :=
  match header_in w with
  | Ok h => Ok (sizes h)
  | Raise e => Raise e
  end.

Definition new_time_in (w : world) : result Z :=
  match header_in w with
  | Ok h => Ok (new_time h)
  | Raise e => Raise e
  end.

End Sample.

(** ** Further scenes on the sample installation *)

Module Scene.

Import TaskFile.

(** The sample record cut off inside its header. *)
Definition cut_world : world :=
  Sample.world_of (FileEntry (take 100 Sample.record0) 100 true).

Definition record_file : string := task_file Sample.home Sample.task.
Definition pulse_file : string := task_path Sample.home Sample.task ".pulse".

(** The new sample task with a pulse file last written at time 198, seen
    at time [clock]. *)
Definition pulse_entry : file_entry := FileEntry [x31; x0a] 198 true.

Definition beating (clock : Z) : world :=
  {| w_fs := <[pulse_file := pulse_entry]> {[ record_file := Sample.entry0 ]};
     w_clock := clock; w_heap := ∅; w_log := []; w_trace := [] |}.

(** Two nanoseconds after the pulse, and eleven seconds after it. *)
Definition fresh_pulse_world : world := beating 200.
Definition stopped_pulse_world : world := beating (198 + 11 * second).

(** The new sample task whose job has written [ok] and a newline to its
    standard output, and nothing to its standard error. *)
Definition out_file : string := task_path Sample.home Sample.task ".out".
Definition out_entry : file_entry := FileEntry [x6f; x6b; x0a] 120 true.

Definition finished_job_world : world :=
  {| w_fs := <[out_file := out_entry]> {[ record_file := Sample.entry0 ]};
     w_clock := 200; w_heap := ∅; w_log := []; w_trace := [] |}.

(** The new sample task handed over to a queue: a job script written at
    time 110 and the job id the queue gave back at time 120. *)
Definition script_file : string := task_path Sample.home Sample.task ".sh".
Definition job_id_file : string := task_path Sample.home Sample.task ".job_id".
Definition script_entry : file_entry := FileEntry [x23; x21; x0a] 110 true.
Definition job_id_entry : file_entry := FileEntry [x34; x32; x0a] 120 true.

Definition queued_world : world :=
  {| w_fs := <[job_id_file := job_id_entry]>
               (<[script_file := script_entry]> {[ record_file := Sample.entry0 ]});
     w_clock := 200; w_heap := ∅; w_log := []; w_trace := [] |}.

(** The sample task after [kill_task] has taken the write permission of
    its pulse file away. *)
Definition killed_pulse_entry : file_entry := FileEntry [x31; x0a] 198 false.

Definition killed_world : world :=
  {| w_fs := <[pulse_file := killed_pulse_entry]> {[ record_file := Sample.entry0 ]};
     w_clock := 200; w_heap := ∅; w_log := []; w_trace := [] |}.

(** The hint a probe of the waiting task has left. *)
Definition pending_hint : Probe.report := Probe.Report "pending" [(record_file, 100)].

(** A second sub-task that asks for four cores. *)
Definition four_core_task : Master.TaskParams :=
  {| Master.tp_name := ""; Master.tp_global_def := ""; Master.tp_task := "";
     Master.tp_sos_dict :=
       {| Master._runtime := <["cores" := Master.VInt 4]> {["walltime" := Master.VStr "1h"]};
          Master.step_name := ""; Master._input := None; Master._output := None;
          Master._depends := None |};
     Master.tp_tags := Some ["b"] |}.

End Scene.

(** * Properties *)

(** ** Fixed-width fields *)

Section StructFacts.

Lemma Z_of_byte_range (b : byte) : 0 <= Z_of_byte b < 256.
Proof.
  unfold Z_of_byte. pose proof (Byte.to_N_bounded b). lia.
Qed.

Lemma Z_of_byte_of_Z (z : Z) : Z_of_byte (byte_of_Z z) = z mod 256.
Proof.
  unfold Z_of_byte, byte_of_Z.
  pose proof (Z.mod_pos_bound z 256 ltac:(lia)) as Hr.
  destruct (Byte.of_N (Z.to_N (z mod 256))) as [b|] eqn:E.
  - apply Byte.to_of_N in E. rewrite E. lia.
  - apply Byte.of_N_None_iff in E. lia.
Qed.

Lemma byte_of_Z_of_byte (b : byte) : byte_of_Z (Z_of_byte b) = b.
Proof.
  unfold byte_of_Z, Z_of_byte.
  pose proof (Byte.to_N_bounded b).
  rewrite Z.mod_small by lia.
  rewrite N2Z.id, Byte.of_to_N. reflexivity.
Qed.

Lemma length_be_encode (n : nat) (z : Z) : length (be_encode n z) = n.
Proof. induction n; simpl; congruence. Qed.

Lemma be_decode_app (l : list byte) (b : byte) :
  be_decode (l ++ [b]) = be_decode l * 256 + Z_of_byte b.
Proof. unfold be_decode. rewrite fold_left_app. reflexivity. Qed.

Lemma be_decode_acc (l : list byte) (acc : Z) :
  fold_left (fun a b => a * 256 + Z_of_byte b) l acc
  = acc * 256 ^ Z.of_nat (length l) + be_decode l.
Proof.
  unfold be_decode. revert acc.
  induction l as [|b l IH]; intros acc.
  - simpl. lia.
  - cbn [fold_left length]. rewrite IH, (IH (0 * 256 + Z_of_byte b)).
    rewrite Nat2Z.inj_succ, Z.pow_succ_r by lia. ring.
Qed.

Lemma be_decode_cons (b : byte) (l : list byte) :
  be_decode (b :: l) = Z_of_byte b * 256 ^ Z.of_nat (length l) + be_decode l.
Proof.
  unfold be_decode at 1. cbn [fold_left]. rewrite be_decode_acc. ring.
Qed.

Lemma be_decode_range (l : list byte) :
  0 <= be_decode l < 256 ^ Z.of_nat (length l).
Proof.
  induction l as [|b l IH].
  - cbn. lia.
  - rewrite be_decode_cons. cbn [length].
    rewrite Nat2Z.inj_succ, Z.pow_succ_r by lia.
    pose proof (Z_of_byte_range b). nia.
Qed.

Lemma be_decode_encode (n : nat) (z : Z) :
  be_decode (be_encode n z) = z mod 256 ^ Z.of_nat n.
Proof.
  induction n as [|n IH].
  - cbn. rewrite Z.mod_1_r. reflexivity.
  - cbn [be_encode]. rewrite be_decode_cons, length_be_encode, IH, Z_of_byte_of_Z.
    rewrite Nat2Z.inj_succ, Z.pow_succ_r by lia.
    set (p := 256 ^ Z.of_nat n).
    assert (0 < p) by (apply Z.pow_pos_nonneg; lia).
    rewrite (Z.mul_comm 256 p), Z.rem_mul_r by lia. ring.
Qed.

Lemma to_signed32_mod (z : Z) :
  in_int32 z = true -> to_signed32 (z mod 2 ^ 32) = z.
Proof.
  unfold in_int32, int32_min, int32_max, to_signed32. intros H.
  apply andb_true_iff in H as [H1 H2].
  apply Z.leb_le in H1, H2.
  destruct (Z_lt_le_dec z 0).
  - replace (z mod 2 ^ 32) with (z + 2 ^ 32)
      by (apply (Z.mod_unique _ _ (-1)); lia).
    destruct (Z.ltb_spec (z + 2 ^ 32) (2 ^ 31)); lia.
  - rewrite Z.mod_small by lia.
    destruct (Z.ltb_spec z (2 ^ 31)); lia.
Qed.

Lemma to_signed32_range (u : Z) :
  0 <= u < 2 ^ 32 -> in_int32 (to_signed32 u) = true.
Proof.
  unfold in_int32, int32_min, int32_max, to_signed32. intros H.
  apply andb_true_iff.
  destruct (Z.ltb_spec u (2 ^ 31)); split; apply Z.leb_le; lia.
Qed.

End StructFacts.

(** ** The header and its bytes *)

(** Projections of a header that is written out. *)
Ltac header_fields :=
  cbn [TaskFile.version TaskFile.status TaskFile.tags TaskFile.new_time
       TaskFile.pending_time TaskFile.submitted_time TaskFile.running_time
       TaskFile.aborted_time TaskFile.failed_time TaskFile.completed_time
       TaskFile.last_modified TaskFile.params_size TaskFile.pulse_size
       TaskFile.stdout_size TaskFile.stderr_size TaskFile.result_size
       TaskFile.signature_size
       TaskFile.set_status TaskFile.set_new_time TaskFile.set_pending_time
       TaskFile.set_submitted_time TaskFile.set_running_time
       TaskFile.set_aborted_time TaskFile.set_failed_time
       TaskFile.set_completed_time TaskFile.set_last_modified
       TaskFile.set_params_size TaskFile.set_pulse_size TaskFile.set_stdout_size
       TaskFile.set_stderr_size TaskFile.set_result_size
       TaskFile.set_signature_size TaskFile.clear_header] in *.

Section HeaderFacts.

Import TaskFile.

(** A header [struct] writes and reads back as it is: its integers fit 32
    bits, its tag field has the width of the format, its doubles are 64
    bits. *)
Definition wf_header (h : TaskHeader) : Prop :=
  Forall (fun z => in_int32 z = true) (version h :: status h :: sizes h)
  /\ length (tags h) = tags_width
  /\ Forall (fun t => 0 <= t < 2 ^ 64) (times h).

Definition is_double (t : Z) : Prop := 0 <= t < 2 ^ 64.

Lemma slice_here (a r : list byte) (n : nat) :
  length a = n -> slice 0 n (a ++ r) = a.
Proof. intros <-. unfold slice. rewrite drop_0. apply take_app_length. Qed.

Lemma slice_skip (a r : list byte) (off n k : nat) :
  length a = k -> (k <= off)%nat -> slice off n (a ++ r) = slice (off - k) n r.
Proof.
  intros <- Hle. unfold slice. rewrite drop_app_ge by exact Hle. reflexivity.
Qed.

Lemma length_pack_double (d : Z) : length (pack_double d) = 8%nat.
Proof. apply length_be_encode. Qed.

Lemma length_pack_bytes (w : nat) (b : list byte) : length (pack_bytes w b) = w.
Proof. apply length_resize. Qed.

Lemma pack_bytes_id (w : nat) (b : list byte) : length b = w -> pack_bytes w b = b.
Proof. intros <-. apply resize_all. Qed.

Lemma int_field (z : Z) :
  in_int32 z = true -> to_signed32 (be_decode (be_encode 4 (z mod 2 ^ 32))) = z.
Proof.
  intros H. rewrite be_decode_encode.
  change (256 ^ Z.of_nat 4) with (2 ^ 32).
  rewrite Z.mod_mod by lia. apply to_signed32_mod, H.
Qed.

Lemma double_field (t : Z) :
  is_double t -> unpack_double (pack_double t) = t.
Proof.
  intros H. unfold unpack_double, pack_double. rewrite be_decode_encode.
  change (256 ^ Z.of_nat 8) with (2 ^ 64).
  rewrite Z.mod_mod by lia. apply Z.mod_small, H.
Qed.

(** The bytes of a header whose integers are in range. *)
Definition header_bytes (h : TaskHeader) : list byte :=
  be_encode 4 (version h mod 2 ^ 32) ++ be_encode 4 (status h mod 2 ^ 32)
  ++ pack_bytes tags_width (tags h)
  ++ pack_double (new_time h) ++ pack_double (pending_time h)
  ++ pack_double (submitted_time h) ++ pack_double (running_time h)
  ++ pack_double (aborted_time h) ++ pack_double (failed_time h)
  ++ pack_double (completed_time h) ++ pack_double (last_modified h)
  ++ be_encode 4 (params_size h mod 2 ^ 32) ++ be_encode 4 (pulse_size h mod 2 ^ 32)
  ++ be_encode 4 (stdout_size h mod 2 ^ 32) ++ be_encode 4 (stderr_size h mod 2 ^ 32)
  ++ be_encode 4 (result_size h mod 2 ^ 32) ++ be_encode 4 (signature_size h mod 2 ^ 32).

Definition ints_fit (h : TaskHeader) : Prop :=
  Forall (fun z => in_int32 z = true) (version h :: status h :: sizes h).

Lemma pack_header_fit (h : TaskHeader) :
  ints_fit h -> pack_header h = Ok (header_bytes h).
Proof.
  unfold ints_fit, sizes. intros H.
  repeat (apply Forall_cons in H as [? H]).
  unfold pack_header, sizes, times, pack_ints, pack_int, header_bytes.
  repeat match goal with E : in_int32 _ = true |- _ => rewrite E; clear E end.
  cbn [map concat]. rewrite !app_nil_r, <- !app_assoc. reflexivity.
Qed.

Lemma pack_header_overflow (h : TaskHeader) :
  ~ ints_fit h -> pack_header h = Raise StructError.
Proof.
  intros H. unfold pack_header, sizes, pack_ints, pack_int.
  repeat match goal with
         | |- context [in_int32 ?z] =>
           destruct (in_int32 z) eqn:?; [|reflexivity || (repeat case_match; reflexivity)]
         end.
  exfalso. apply H. unfold ints_fit, sizes. repeat constructor; assumption.
Qed.

Lemma length_header_bytes (h : TaskHeader) :
  length (header_bytes h) = Z.to_nat header_size.
Proof.
  unfold header_bytes.
  rewrite !length_app, !length_be_encode, !length_pack_double, length_pack_bytes.
  reflexivity.
Qed.

Ltac slice_field :=
  repeat first
    [ rewrite slice_here by
        first [apply length_be_encode | apply length_pack_double | apply length_pack_bytes]
    | erewrite slice_skip by
        first [apply length_be_encode | apply length_pack_double
              | apply length_pack_bytes | cbv; lia ];
      cbn [Nat.sub tags_width] ].

Lemma unpack_header_bytes (h : TaskHeader) :
  wf_header h -> unpack_header (header_bytes h) = Ok h.
Proof.
  intros (Hi & Ht & Hd).
  unfold unpack_header. rewrite length_header_bytes.
  rewrite Z2Nat.id by (cbv; discriminate). rewrite Z.eqb_refl.
  unfold sizes in Hi. unfold times in Hd.
  repeat (apply Forall_cons in Hi as [? Hi]).
  repeat (apply Forall_cons in Hd as [? Hd]).
  destruct h; header_fields.
  unfold int_at, double_at, header_bytes. header_fields.
  f_equal. f_equal.
  all: rewrite <- (app_nil_r (be_encode 4 (signature_size0 mod 2 ^ 32))).
  all: slice_field.
  all: try (apply int_field; assumption).
  all: try (apply double_field; assumption).
  apply pack_bytes_id; assumption.
Qed.

End HeaderFacts.

(** ** File objects and the header methods *)

Section FileFacts.

Import TaskFile.

Lemma bind_ok {S A B} (m : M S A) (k : A -> M S B) (s s' : S) (a : A) :
  m s = (Ok a, s') -> bind m k s = k a s'.
Proof. intros H. unfold bind. rewrite H. reflexivity. Qed.

Lemma bind_raise {S A B} (m : M S A) (k : A -> M S B) (s s' : S) (e : exn) :
  m s = (Raise e, s') -> bind m k s = (Raise e, s').
Proof. intros H. unfold bind. rewrite H. reflexivity. Qed.

Lemma read_header_run (s : fstate) :
  _read_header s
  = (header_of (f_data s),
     FState (f_data s) (length (take (Z.to_nat header_size) (f_data s)))
       (f_dirty s) (f_log s)).
Proof.
  unfold _read_header, header_of, bind, seek, read, lift.
  change (header_size <? -1) with false. cbn.
  rewrite drop_0. destruct (unpack_header _); reflexivity.
Qed.

Lemma header_bytes_cons (h : TaskHeader) :
  exists b bs, header_bytes h = b :: bs.
Proof.
  pose proof (length_header_bytes h) as H.
  destruct (header_bytes h) as [|b bs]; [discriminate H|eauto].
Qed.

Lemma write_header_run (h : TaskHeader) (s : fstate) :
  ints_fit h ->
  _write_header h s
  = (Ok tt, FState (header_bytes h ++ drop (Z.to_nat header_size) (f_data s))
              (Z.to_nat header_size) true (f_log s)).
Proof.
  intros Hfit. unfold _write_header, bind, seek, lift.
  change (0 <? 0) with false. cbv iota beta.
  rewrite (pack_header_fit h Hfit). unfold write.
  destruct (header_bytes_cons h) as (b & bs & E).
  pose proof (length_header_bytes h) as L.
  rewrite E in *. cbn [f_data f_pos f_log Z.to_nat]. rewrite take_0.
  cbn [replicate Nat.sub Nat.add app]. now rewrite L.
Qed.

Lemma write_header_overflow (h : TaskHeader) (s : fstate) :
  ~ ints_fit h ->
  _write_header h s = (Raise StructError, FState (f_data s) 0 (f_dirty s) (f_log s)).
Proof.
  intros Hfit. unfold _write_header, bind, seek, lift.
  change (0 <? 0) with false. cbv iota beta.
  rewrite (pack_header_overflow h Hfit). reflexivity.
Qed.

(** The header read back from a record whose first bytes are those of [h]. *)
Lemma header_of_bytes (h : TaskHeader) (rest : list byte) :
  wf_header h -> header_of (header_bytes h ++ rest) = Ok h.
Proof.
  intros H. unfold header_of.
  rewrite take_app_length' by (symmetry; apply length_header_bytes).
  apply unpack_header_bytes, H.
Qed.

Lemma drop_header_bytes (h : TaskHeader) (rest : list byte) :
  drop (Z.to_nat header_size) (header_bytes h ++ rest) = rest.
Proof. apply drop_app_length'. symmetry. apply length_header_bytes. Qed.

Lemma slice_length (off n : nat) (l : list byte) :
  (off + n <= length l)%nat -> length (slice off n l) = n.
Proof. intros H. unfold slice. rewrite length_take, length_drop. lia. Qed.

Lemma int_at_fits (off : nat) (l : list byte) :
  (off + 4 <= length l)%nat -> in_int32 (int_at off l) = true.
Proof.
  intros H. unfold int_at. apply to_signed32_range.
  pose proof (be_decode_range (slice off 4 l)) as R.
  rewrite slice_length in R by exact H. exact R.
Qed.

Lemma double_at_range (off : nat) (l : list byte) :
  (off + 8 <= length l)%nat -> is_double (double_at off l).
Proof.
  intros H. unfold double_at, unpack_double, is_double.
  pose proof (be_decode_range (slice off 8 l)) as R.
  rewrite slice_length in R by exact H. exact R.
Qed.

(** Every header [struct] unpacks is well formed. *)
Lemma unpack_header_wf (l : list byte) (h : TaskHeader) :
  unpack_header l = Ok h -> wf_header h.
Proof.
  unfold unpack_header.
  destruct (Z.eqb_spec (Z.of_nat (length l)) header_size) as [L|]; [|discriminate].
  intros [= <-].
  assert (length l = 224%nat) as L' by (change header_size with 224 in L; lia).
  unfold wf_header, sizes, times. header_fields.
  repeat split.
  - repeat constructor; apply int_at_fits; lia.
  - apply slice_length. unfold tags_width. lia.
  - repeat constructor; apply double_at_range; lia.
Qed.

Lemma header_of_wf (data : list byte) (h : TaskHeader) :
  header_of data = Ok h -> wf_header h.
Proof. apply unpack_header_wf. Qed.

Lemma header_of_length (data : list byte) (h : TaskHeader) :
  header_of data = Ok h -> header_size <= len data.
Proof.
  unfold header_of, unpack_header, len.
  destruct (Z.eqb_spec (Z.of_nat (length (take (Z.to_nat header_size) data))) header_size)
    as [L|]; [|discriminate].
  intros _. rewrite length_take in L. lia.
Qed.

End FileFacts.

(** ** Opening the record *)

Section OpenFacts.

Lemma with_open_rw_run {A} (path : string) (body : Z -> M fstate A)
    (w : world) (e : file_entry) :
  w_fs w !! path = Some e -> e_writable e = true ->
  with_open_rw path body w
  = (fst (body (w_clock w) (fopen (e_data e))),
     close path e (snd (body (w_clock w) (fopen (e_data e))))
       (add_trace [EvOpen path "r+b"] w)).
Proof.
  intros Hf Hw. unfold with_open_rw, bind, emit, modify. cbn.
  rewrite Hf, Hw. destruct (body _ _). reflexivity.
Qed.

Lemma with_open_rb_run {A} (path : string) (body : Z -> M fstate A)
    (w : world) (e : file_entry) :
  w_fs w !! path = Some e ->
  with_open_rb path body w
  = (fst (body (w_clock w) (fopen (e_data e))),
     add_log (f_log (snd (body (w_clock w) (fopen (e_data e)))))
       (add_trace [EvOpen path "rb"] w)).
Proof.
  intros Hf. unfold with_open_rb, bind, emit, modify. cbn.
  rewrite Hf. destruct (body _ _). reflexivity.
Qed.

(** Closing a file that was not written to leaves the file system as it was. *)
Lemma close_clean (path : string) (e : file_entry) (s : fstate) (w : world) :
  w_fs w !! path = Some e -> f_dirty s = false -> f_data s = e_data e ->
  w_fs (close path e s w) = w_fs w.
Proof.
  intros Hf Hd He. unfold close. cbn. rewrite Hd, He.
  destruct e; cbn. apply insert_id, Hf.
Qed.

Lemma close_lookup (path : string) (e : file_entry) (s : fstate) (w : world) :
  w_fs (close path e s w) !! path
  = Some (FileEntry (f_data s) (if f_dirty s then w_clock w else e_mtime e)
            (e_writable e)).
Proof. unfold close. cbn. apply lookup_insert_eq. Qed.

Lemma close_lookup_ne (path other : string) (e : file_entry) (s : fstate) (w : world) :
  path <> other -> w_fs (close path e s w) !! other = w_fs w !! other.
Proof. intros H. unfold close. cbn. apply lookup_insert_ne, H. Qed.

End OpenFacts.

(** ** The status setter *)

Section StatusFacts.

Import TaskFile.

Variable home : string.
Variable float_bits : Z -> Z.

(** The states [_set_status] has a branch for. *)
Definition settable : list TaskStatus :=
  [pending; submitted; running; failed; aborted; completed].

(** The timestamp field that belongs to a state. *)
Definition time_of (st : TaskStatus) (h : TaskHeader) : Z :=
  match st with
  | new => new_time h
  | pending => pending_time h
  | submitted => submitted_time h
  | running => running_time h
  | aborted => aborted_time h
  | failed => failed_time h
  | completed => completed_time h
  end.

(** The record of a task, when it is there. *)
Definition record_of (w : world) (task : string) : option (list byte) :=
  e_data <$> (w_fs w !! task_file home task).

Lemma ints_fit_set_status (h : TaskHeader) (st : TaskStatus) :
  wf_header h -> ints_fit (set_status (value st) h).
Proof.
  intros (Hi & _ & _). unfold ints_fit, sizes in *. header_fields.
  apply Forall_cons in Hi as [Hv Hi]. apply Forall_cons in Hi as [_ Hi].
  constructor; [exact Hv|]. constructor; [destruct st; reflexivity|exact Hi].
Qed.

Lemma set_status_accepted (w : world) (task : string) (e : file_entry)
    (h : TaskHeader) (st : TaskStatus) :
  w_fs w !! task_file home task = Some e ->
  e_writable e = true ->
  header_of (e_data e) = Ok h ->
  is_double (float_bits (w_clock w)) ->
  st ∈ settable ->
  exists h',
    let now := float_bits (w_clock w) in
    let r := _set_status home float_bits task (name st) w in
    fst r = Ok tt
    /\ w_fs (snd r) = <[task_file home task :=
                          FileEntry (header_bytes h' ++ drop (Z.to_nat header_size) (e_data e))
                            (w_clock w) true]> (w_fs w)
    /\ wf_header h'
    /\ status h' = value st /\ time_of st h' = now /\ last_modified h' = now
    /\ (forall st', st' <> st -> time_of st' h' = time_of st' h)
    /\ version h' = version h /\ tags h' = tags h /\ sizes h' = sizes h.
Proof.
  intros Hf Hw Hh Hd Hst.
  pose proof (header_of_wf _ _ Hh) as Hwf.
  assert (pending = st \/ submitted = st \/ running = st \/ failed = st
          \/ aborted = st \/ completed = st) as Hcases.
  { apply list_elem_of_In in Hst. cbn in Hst. tauto. }
  unfold _set_status.
  rewrite (with_open_rw_run _ _ w e Hf Hw).
  set (body := bind _ _).
  assert (forall h', ints_fit h' ->
            (if String.eqb (name st) "pending" then
               ret (set_last_modified (float_bits (w_clock w))
                      (set_pending_time (float_bits (w_clock w))
                         (set_status (value pending) h)))
             else if String.eqb (name st) "submitted" then
               ret (set_last_modified (float_bits (w_clock w))
                      (set_submitted_time (float_bits (w_clock w))
                         (set_status (value submitted) h)))
             else if String.eqb (name st) "running" then
               ret (set_last_modified (float_bits (w_clock w))
                      (set_running_time (float_bits (w_clock w))
                         (set_status (value running) h)))
             else if String.eqb (name st) "failed" then
               ret (set_last_modified (float_bits (w_clock w))
                      (set_failed_time (float_bits (w_clock w))
                         (set_status (value failed) h)))
             else if String.eqb (name st) "aborted" then
               ret (set_last_modified (float_bits (w_clock w))
                      (set_aborted_time (float_bits (w_clock w))
                         (set_status (value aborted) h)))
             else if String.eqb (name st) "completed" then
               ret (set_last_modified (float_bits (w_clock w))
                      (set_completed_time (float_bits (w_clock w))
                         (set_status (value completed) h)))
             else raise (RuntimeError ("Unrecognized task status: " +:+ name st)))
            = (ret h' : M fstate TaskHeader) ->
            body (fopen (e_data e))
            = (Ok tt, FState (header_bytes h' ++ drop (Z.to_nat header_size) (e_data e))
                        (Z.to_nat header_size) true [])) as Hrun.
  { intros h' Hfit Hsel. subst body. unfold bind at 1.
    rewrite read_header_run. cbn [fopen f_data f_dirty f_log]. rewrite Hh.
    unfold bind. rewrite Hsel. unfold ret.
    rewrite (write_header_run h' _ Hfit). reflexivity. }
  destruct Hwf as (Hi & Ht & Htm).
  unfold times in Htm. repeat (apply Forall_cons in Htm as [? Htm]).
  assert (wf_header h) as Hwf by (apply (header_of_wf _ _ Hh)).
  pose proof (ints_fit_set_status h st Hwf) as Hfit.
  destruct Hcases as [<- | [<- | [<- | [<- | [<- | <-]]]]].
  all: eexists; cbv zeta.
  all: unshelve erewrite (Hrun _ _ eq_refl); [exact Hfit|]; cbn [fst snd].
  all: split; [reflexivity|].
  all: split;
    [unfold close; cbn [w_fs set_fs add_log add_trace f_data f_dirty w_clock];
     rewrite Hw; reflexivity|].
  all: split;
    [ split; [exact Hfit|]; split; [exact Ht|];
      unfold times; header_fields;
      repeat (apply List.Forall_cons; [assumption|]); apply List.Forall_nil |].
  all: repeat split; try reflexivity.
  all: intros st' Hne; destruct st'; try reflexivity; congruence.
Qed.

Lemma set_status_rejected (w : world) (task : string) (e : file_entry)
    (h : TaskHeader) (status : string) :
  w_fs w !! task_file home task = Some e ->
  e_writable e = true ->
  header_of (e_data e) = Ok h ->
  (forall st, st ∈ settable -> status <> name st) ->
  let r := _set_status home float_bits task status w in
  fst r = Raise (RuntimeError ("Unrecognized task status: " +:+ status))
  /\ w_fs (snd r) = w_fs w.
Proof.
  intros Hf Hw Hh Hno. cbv zeta.
  unfold _set_status.
  rewrite (with_open_rw_run _ _ w e Hf Hw).
  set (body := bind _ _).
  assert (forall st, st ∈ settable -> String.eqb status (name st) = false) as Hneq.
  { intros st Hst. apply String.eqb_neq, Hno, Hst. }
  pose proof (Hneq pending) as E1. pose proof (Hneq submitted) as E2.
  pose proof (Hneq running) as E3. pose proof (Hneq failed) as E4.
  pose proof (Hneq aborted) as E5. pose proof (Hneq completed) as E6.
  cbn [name] in E1, E2, E3, E4, E5, E6.
  assert (body (fopen (e_data e))
          = (Raise (RuntimeError ("Unrecognized task status: " +:+ status)),
             FState (e_data e) (length (take (Z.to_nat header_size) (e_data e)))
               false [])) as Hrun.
  { subst body. unfold bind. rewrite read_header_run.
    cbn [fopen f_data f_dirty f_log]. rewrite Hh.
    rewrite E1, E2, E3, E4, E5, E6 by (apply list_elem_of_In; cbn; tauto).
    reflexivity. }
  rewrite Hrun. cbn [fst snd]. split; [reflexivity|].
  apply (close_clean _ e _ (add_trace [EvOpen (task_file home task) "r+b"] w));
    [exact Hf|reflexivity|reflexivity].
Qed.

End StatusFacts.

(** ** Writing into a record *)

Section WriteFacts.

Import TaskFile.

(** [b] written over [d] from position [p], inside the file or at its end. *)
Definition overwrite (p : nat) (b d : list byte) : list byte :=
  take p d ++ b ++ drop (p + length b) d.

Lemma overwrite_nil (p : nat) (d : list byte) : overwrite p [] d = d.
Proof.
  unfold overwrite. cbn. rewrite Nat.add_0_r. apply take_drop.
Qed.

Lemma overwrite_app (x b t : list byte) (p : nat) :
  p = length x -> overwrite p b (x ++ t) = x ++ b ++ drop (length b) t.
Proof.
  intros ->. unfold overwrite.
  rewrite take_app_length, drop_app_ge by lia.
  repeat f_equal. lia.
Qed.

Lemma seek_run (off : Z) (s : fstate) :
  0 <= off ->
  seek off s = (Ok tt, FState (f_data s) (Z.to_nat off) (f_dirty s) (f_log s)).
Proof.
  intros H. unfold seek. destruct (Z.ltb_spec off 0); [lia|reflexivity].
Qed.

Lemma write_run (b d : list byte) (p : nat) (lg : list log_record) :
  (p <= length d)%nat ->
  write b (FState d p true lg) = (Ok tt, FState (overwrite p b d) (p + length b) true lg).
Proof.
  intros H. unfold write. destruct b as [|x b].
  - rewrite overwrite_nil. cbn [length]. rewrite Nat.add_0_r. reflexivity.
  - cbn [f_data f_pos f_log]. unfold overwrite.
    replace (p - length d)%nat with 0%nat by lia. reflexivity.
Qed.

Lemma write_if_run (b d : list byte) (p : nat) (lg : list log_record) :
  (p <= length d)%nat ->
  write_if b (FState d p true lg)
  = (Ok tt, FState (overwrite p b d) (p + length b) true lg).
Proof.
  intros H. destruct b as [|x b].
  - cbn [write_if]. unfold ret. rewrite overwrite_nil. cbn [length].
    rewrite Nat.add_0_r. reflexivity.
  - cbn [write_if]. apply write_run, H.
Qed.

Lemma truncate_run (n : Z) (s : fstate) :
  0 <= n ->
  truncate n s = (Ok tt, FState (resize (Z.to_nat n) x00 (f_data s)) (f_pos s) true (f_log s)).
Proof.
  intros H. unfold truncate. destruct (Z.ltb_spec n 0); [lia|reflexivity].
Qed.

(** What [fh.seek(off); fh.read(size)] returns. *)
Definition section_bytes (off size : Z) (data : list byte) : list byte :=
  if size <? 0 then drop (Z.to_nat off) data
  else take (Z.to_nat size) (drop (Z.to_nat off) data).

Lemma read_run (n : Z) (s : fstate) :
  -1 <= n ->
  fst (read n s) = Ok (section_bytes (Z.of_nat (f_pos s)) n (f_data s))
  /\ f_data (snd (read n s)) = f_data s
  /\ f_dirty (snd (read n s)) = f_dirty s
  /\ f_log (snd (read n s)) = f_log s.
Proof.
  intros Hn. unfold read, section_bytes.
  destruct (Z.ltb_spec n (-1)); [lia|]. cbn. rewrite Nat2Z.id. auto.
Qed.

(** A length below [-1] is refused, and the file object is as it was. *)
Lemma read_refused (n : Z) (s : fstate) :
  n < -1 ->
  read n s = (Raise (ValueError "read length must be non-negative or -1"), s).
Proof.
  intros Hn. unfold read. destruct (Z.ltb_spec n (-1)); [reflexivity|lia].
Qed.

(** The sum of the six sizes of a header. *)
Definition total_size (h : TaskHeader) : Z :=
  params_size h + pulse_size h + stdout_size h + stderr_size h
  + result_size h + signature_size h.

(** The header/offset invariant of a record: the header can be read, no
    size is negative, and the header and the six sections make up the
    whole file. *)
Definition consistent (data : list byte) (h : TaskHeader) : Prop :=
  header_of data = Ok h
  /\ Forall (fun z => 0 <= z) (sizes h)
  /\ header_size + total_size h = len data.

End WriteFacts.

(** ** The writers of the record *)

Section WriterFacts.

Import TaskFile.

Variable home : string.
Variable float_bits : Z -> Z.
Variable lzma_compress : list byte -> list byte.
Variable pickle_dumps : instance -> list byte.
Variable pickle_dumps_dict : pyobj -> list byte.

Abbreviation hsize := (Z.to_nat header_size).

Lemma len_nonneg (b : list byte) : 0 <= len b.
Proof. unfold len. lia. Qed.

Lemma in_int32_len (b : list byte) : len b <= int32_max -> in_int32 (len b) = true.
Proof.
  intros H. unfold in_int32, int32_min. pose proof (len_nonneg b).
  apply andb_true_iff. split; apply Z.leb_le; lia.
Qed.

Lemma wf_clear_header (st : TaskStatus) (now : Z) (h : TaskHeader) :
  wf_header h -> is_double now -> wf_header (clear_header st now h).
Proof.
  intros (Hi & Ht & Hd) Hnow. unfold wf_header, sizes, times in *. header_fields.
  repeat (apply Forall_cons in Hi as [? Hi]).
  repeat (apply Forall_cons in Hd as [? Hd]).
  assert (is_double 0) by (unfold is_double; lia).
  repeat split.
  - repeat (apply List.Forall_cons; [first [assumption|reflexivity|destruct st; reflexivity]|]).
    apply List.Forall_nil.
  - exact Ht.
  - repeat (apply List.Forall_cons; [assumption|]). apply List.Forall_nil.
Qed.

(** Changing sizes to values that fit keeps a header well formed. *)
Lemma wf_set_sizes (h h' : TaskHeader) :
  wf_header h ->
  version h' = version h -> status h' = status h -> tags h' = tags h ->
  times h' = times h ->
  Forall (fun z => in_int32 z = true) (sizes h') ->
  wf_header h'.
Proof.
  intros (Hi & Ht & Hd) Hv Hs Htg Htm Hsz. unfold wf_header.
  rewrite Hv, Hs, Htg, Htm.
  apply Forall_cons in Hi as [? Hi]. apply Forall_cons in Hi as [? Hi].
  repeat split; try assumption.
  apply List.Forall_cons; [assumption|]. apply List.Forall_cons; assumption.
Qed.

Lemma wf_ints_fit (h : TaskHeader) : wf_header h -> ints_fit h.
Proof. intros (Hi & _). exact Hi. Qed.

Lemma update_run (w : world) (task : string) (params : instance)
    (e : file_entry) (h : TaskHeader) :
  w_fs w !! task_file home task = Some e ->
  e_writable e = true ->
  header_of (e_data e) = Ok h ->
  is_double (float_bits (w_clock w)) ->
  len (lzma_compress (pickle_dumps params)) <= int32_max ->
  let block := lzma_compress (pickle_dumps params) in
  let hu := set_params_size (len block)
              (clear_header pending (float_bits (w_clock w)) h) in
  let r := update home float_bits lzma_compress pickle_dumps task params w in
  wf_header hu
  /\ fst r = Ok tt
  /\ w_fs (snd r) = <[task_file home task :=
                        FileEntry (header_bytes hu ++ block) (w_clock w) true]> (w_fs w).
Proof.
  intros Hf Hw Hh Hnow Hlen. cbv zeta.
  set (block := lzma_compress (pickle_dumps params)) in *.
  set (now := float_bits (w_clock w)) in *.
  set (hu := set_params_size (len block) (clear_header pending now h)).
  pose proof (header_of_wf _ _ Hh) as Hwf.
  assert (wf_header hu) as Hwfu.
  { apply (wf_set_sizes (clear_header pending now h));
      [apply wf_clear_header; assumption|subst hu; unfold times; header_fields; reflexivity..|].
    subst hu. unfold sizes. header_fields.
      repeat (apply List.Forall_cons; [first [apply in_int32_len; assumption|reflexivity]|]).
      apply List.Forall_nil. }
  split; [exact Hwfu|].
  unfold update. fold block.
  rewrite (with_open_rw_run _ _ w e Hf Hw). fold now. fold hu.
  set (body := bind _ _).
  assert (body (fopen (e_data e))
          = (Ok tt, FState (header_bytes hu ++ block)
                      (hsize + length block) true [])) as Hrun.
  { subst body. unfold bind at 1. rewrite read_header_run.
    cbn [fopen f_data f_dirty f_log]. rewrite Hh.
    unfold bind at 1. rewrite (write_header_run hu _ (wf_ints_fit _ Hwfu)).
    cbn [f_data f_log].
    unfold bind. rewrite write_run
      by (rewrite length_app, length_header_bytes; lia).
    rewrite overwrite_app by (symmetry; apply length_header_bytes).
    rewrite truncate_run by (subst hu; header_fields; pose proof (len_nonneg block);
                             change header_size with 224; lia).
    cbn [f_data f_pos f_log]. f_equal. f_equal.
    subst hu. header_fields.
    rewrite app_assoc. apply resize_app.
    rewrite length_app, length_header_bytes. unfold len.
    change header_size with 224. lia. }
  rewrite Hrun. cbn [fst snd]. split; [reflexivity|].
  unfold close. cbn [w_fs set_fs add_log add_trace f_data f_dirty w_clock].
  rewrite Hw. reflexivity.
Qed.

Lemma reset_fh_run (clock : Z) (data : list byte) (h : TaskHeader) :
  header_of data = Ok h ->
  is_double (float_bits clock) ->
  0 <= params_size h ->
  let h' := clear_header new (float_bits clock) h in
  _reset float_bits clock (fopen data)
  = (Ok h', FState (header_bytes h'
                     ++ resize (Z.to_nat (params_size h)) x00 (drop hsize data))
              hsize true []).
Proof.
  intros Hh Hnow Hp. cbv zeta.
  set (h' := clear_header new (float_bits clock) h).
  pose proof (header_of_wf _ _ Hh) as Hwf.
  assert (wf_header h') as Hwf' by (apply wf_clear_header; assumption).
  unfold _reset. fold h'.
  unfold bind at 1. rewrite read_header_run.
  cbn [fopen f_data f_dirty f_log]. rewrite Hh.
  unfold bind at 1. rewrite (write_header_run h' _ (wf_ints_fit _ Hwf')).
  cbn [f_data f_log].
  unfold bind. rewrite truncate_run
    by (subst h'; header_fields; change header_size with 224; lia).
  cbn [f_data f_pos f_log]. unfold ret. f_equal. f_equal.
  subst h'. header_fields.
  rewrite resize_app_ge by (rewrite length_header_bytes; change header_size with 224; lia).
  rewrite length_header_bytes. repeat f_equal.
  change header_size with 224. lia.
Qed.


Lemma reset_run (w : world) (task : string) (e : file_entry) (h : TaskHeader) :
  w_fs w !! task_file home task = Some e ->
  e_writable e = true ->
  header_of (e_data e) = Ok h ->
  is_double (float_bits (w_clock w)) ->
  0 <= params_size h ->
  let h' := clear_header new (float_bits (w_clock w)) h in
  let r := reset home float_bits task w in
  wf_header h'
  /\ fst r = Ok tt
  /\ w_fs (snd r)
     = <[task_file home task :=
           FileEntry (header_bytes h'
                      ++ resize (Z.to_nat (params_size h)) x00 (drop hsize (e_data e)))
             (w_clock w) true]> (w_fs w).
Proof.
  intros Hf Hw Hh Hnow Hp. cbv zeta.
  split; [apply wf_clear_header; [apply (header_of_wf _ _ Hh)|exact Hnow]|].
  unfold reset. rewrite (with_open_rw_run _ _ w e Hf Hw).
  unfold bind. rewrite (reset_fh_run _ _ h Hh Hnow Hp).
  unfold ret. cbn [fst snd]. split; [reflexivity|].
  unfold close. cbn [w_fs set_fs add_log add_trace f_data f_dirty w_clock].
  rewrite Hw. reflexivity.
Qed.

(** What [_get_content] finds for a companion file. *)
Definition companion (w : world) (task ext : string) : list byte :=
  match w_fs w !! task_path home task ext with
  | Some e => lzma_compress (e_data e)
  | None => []
  end.

Lemma get_content_run (w : world) (task ext : string) :
  exists evs,
    _get_content home lzma_compress task ext w
    = (Ok (companion w task ext), add_trace evs w).
Proof.
  unfold _get_content, companion, isfile, bind, emit, modify, get, ret.
  cbn [w_fs add_trace].
  destruct (w_fs w !! task_path home task ext) as [e|] eqn:E.
  - rewrite bool_decide_true by eauto.
    unfold with_open_rb, bind, emit, modify. cbn [w_fs add_trace]. rewrite E.
    unfold read. cbn. rewrite drop_0.
    eexists. unfold add_log, add_trace. cbn. rewrite app_nil_r, <- app_assoc.
    reflexivity.
  - rewrite bool_decide_false by (intros [? ?]; discriminate).
    eexists. reflexivity.
Qed.

Lemma companion_add_trace (w : world) (evs : list event) (task ext : string) :
  companion (add_trace evs w) task ext = companion w task ext.
Proof. reflexivity. Qed.

(** A record whose bytes are a header followed by the six sections. *)
Definition laid_out (data : list byte) (h : TaskHeader)
    (s1 s2 s3 s4 s5 s6 : list byte) : Prop :=
  header_of data = Ok h
  /\ data = take hsize data ++ s1 ++ s2 ++ s3 ++ s4 ++ s5 ++ s6
  /\ sizes h = [len s1; len s2; len s3; len s4; len s5; len s6].

Lemma laid_out_sizes data h s1 s2 s3 s4 s5 s6 :
  laid_out data h s1 s2 s3 s4 s5 s6 ->
  params_size h = len s1 /\ pulse_size h = len s2 /\ stdout_size h = len s3
  /\ stderr_size h = len s4 /\ result_size h = len s5 /\ signature_size h = len s6.
Proof.
  intros (_ & _ & Hs). unfold sizes in Hs.
  injection Hs as -> -> -> -> -> ->. repeat split.
Qed.

Lemma laid_out_drop data h s1 s2 s3 s4 s5 s6 :
  laid_out data h s1 s2 s3 s4 s5 s6 ->
  drop hsize data = s1 ++ s2 ++ s3 ++ s4 ++ s5 ++ s6.
Proof.
  intros (Hh & Hd & _).
  pose proof (header_of_length _ _ Hh) as L.
  rewrite Hd at 1. apply drop_app_length'.
  rewrite length_take. unfold len in L. change header_size with 224 in *. lia.
Qed.

Lemma add_outputs_run (w : world) (task : string) (e : file_entry)
    (h : TaskHeader) (s1 s2 s3 s4 : list byte) :
  w_fs w !! task_file home task = Some e ->
  e_writable e = true ->
  laid_out (e_data e) h s1 s2 s3 s4 [] [] ->
  let pulse := companion w task ".pulse" in
  let stdout := companion w task ".out" in
  let stderr := companion w task ".err" in
  len pulse <= int32_max -> len stdout <= int32_max -> len stderr <= int32_max ->
  len s2 + len s3 + len s4 <= len pulse + len stdout + len stderr ->
  let h' := set_stderr_size (len stderr)
              (set_stdout_size (len stdout) (set_pulse_size (len pulse) h)) in
  let r := add_outputs home float_bits lzma_compress task w in
  wf_header h'
  /\ fst r = Ok tt
  /\ w_fs (snd r)
     = <[task_file home task :=
           FileEntry (header_bytes h' ++ s1 ++ pulse ++ stdout ++ stderr)
             (w_clock w) true]> (w_fs w).
Proof.
  intros Hf Hw Hl. cbv zeta. intros Lp Lo Le Lgrow.
  set (pulse := companion w task ".pulse") in *.
  set (stdout := companion w task ".out") in *.
  set (stderr := companion w task ".err") in *.
  set (h' := set_stderr_size _ _).
  pose proof Hl as (Hh & Hd & Hs).
  pose proof (laid_out_sizes _ _ _ _ _ _ _ _ Hl) as (P1 & P2 & P3 & P4 & P5 & P6).
  pose proof (laid_out_drop _ _ _ _ _ _ _ _ Hl) as Hdrop.
  pose proof (header_of_wf _ _ Hh) as Hwf.
  assert (wf_header h') as Hwf'.
  { apply (wf_set_sizes h);
      [exact Hwf|subst h'; unfold times; header_fields; reflexivity..|].
    destruct Hwf as (Hi & _). unfold sizes in *. subst h'. header_fields.
    repeat (apply Forall_cons in Hi as [? Hi]).
    repeat (apply List.Forall_cons; [first [apply in_int32_len; assumption|assumption]|]).
    apply List.Forall_nil. }
  split; [exact Hwf'|].
  unfold add_outputs.
  destruct (get_content_run w task ".pulse") as (ev1 & E1).
  rewrite (bind_ok _ _ _ _ _ E1). fold pulse.
  destruct (get_content_run (add_trace ev1 w) task ".out") as (ev2 & E2).
  rewrite (bind_ok _ _ _ _ _ E2). rewrite companion_add_trace. fold stdout.
  destruct (get_content_run (add_trace ev2 (add_trace ev1 w)) task ".err") as (ev3 & E3).
  rewrite (bind_ok _ _ _ _ _ E3). rewrite !companion_add_trace. fold stderr.
  set (w3 := add_trace ev3 _).
  rewrite (with_open_rw_run _ _ w3 e Hf Hw).
  set (body := bind _ _).
  assert (body (fopen (e_data e))
          = (Ok tt, FState (header_bytes h' ++ s1 ++ pulse ++ stdout ++ stderr)
                      (hsize + length s1 + length pulse + length stdout + length stderr)
                      true [])) as Hrun.
  { subst body. unfold bind at 1. rewrite read_header_run.
    cbn [fopen f_data f_dirty f_log]. rewrite Hh.
    unfold bind at 1. rewrite P5. change (len [] =? 0) with true.
    unfold ret at 1. cbv beta iota.
    fold h'.
    unfold bind at 1. rewrite (write_header_run h' _ (wf_ints_fit _ Hwf')).
    cbn [f_data f_log]. rewrite Hdrop.
    unfold bind at 1.
    rewrite seek_run by (subst h'; header_fields; rewrite P1;
                         pose proof (len_nonneg s1); change header_size with 224; lia).
    cbn [f_data f_dirty f_log].
    replace (Z.to_nat (header_size + params_size h'))
      with (length (header_bytes h' ++ s1))
      by (rewrite length_app, length_header_bytes; subst h'; header_fields;
          rewrite P1; unfold len; change header_size with 224; lia).
    rewrite (app_assoc (header_bytes h') s1).
    repeat rewrite app_nil_r.
    unfold bind at 1.
    rewrite write_if_run by (rewrite !length_app; lia).
    rewrite overwrite_app by reflexivity.
    unfold bind at 1.
    rewrite write_if_run by (rewrite !length_app; lia).
    rewrite (app_assoc _ pulse).
    rewrite overwrite_app by (rewrite !length_app; lia).
    rewrite write_if_run by (rewrite !length_app; lia).
    rewrite (app_assoc _ stdout).
    rewrite overwrite_app by (rewrite !length_app; lia).
    f_equal. f_equal.
    - rewrite !drop_drop.
      rewrite drop_ge
        by (rewrite !length_app; unfold len in Lgrow; lia).
      rewrite app_nil_r, <- !app_assoc. reflexivity.
    - rewrite !length_app, length_header_bytes. lia. }
  rewrite Hrun. cbn [fst snd]. split; [reflexivity|].
  unfold close. cbn [w_fs set_fs add_log add_trace f_data f_dirty w_clock].
  rewrite Hw. reflexivity.
Qed.


Lemma add_result_run (w : world) (task : string) (result : pyobj)
    (e : file_entry) (h : TaskHeader) (s1 s2 s3 s4 s5 : list byte) :
  w_fs w !! task_file home task = Some e ->
  e_writable e = true ->
  laid_out (e_data e) h s1 s2 s3 s4 s5 [] ->
  let block := lzma_compress (pickle_dumps_dict result) in
  len s5 <= len block -> len block <= int32_max ->
  let h' := set_result_size (len block) h in
  let r := add_result home lzma_compress pickle_dumps_dict task result w in
  wf_header h'
  /\ fst r = Ok tt
  /\ w_fs (snd r)
     = <[task_file home task :=
           FileEntry (header_bytes h' ++ s1 ++ s2 ++ s3 ++ s4 ++ block)
             (w_clock w) true]> (w_fs w).
Proof.
  intros Hf Hw Hl. cbv zeta. intros Lgrow Lb.
  set (block := lzma_compress (pickle_dumps_dict result)) in *.
  set (h' := set_result_size _ _).
  pose proof Hl as (Hh & Hd & Hs).
  pose proof (laid_out_sizes _ _ _ _ _ _ _ _ Hl) as (P1 & P2 & P3 & P4 & P5 & P6).
  pose proof (laid_out_drop _ _ _ _ _ _ _ _ Hl) as Hdrop.
  pose proof (header_of_wf _ _ Hh) as Hwf.
  assert (wf_header h') as Hwf'.
  { apply (wf_set_sizes h);
      [exact Hwf|subst h'; unfold times; header_fields; reflexivity..|].
    destruct Hwf as (Hi & _). unfold sizes in *. subst h'. header_fields.
    repeat (apply Forall_cons in Hi as [? Hi]).
    repeat (apply List.Forall_cons; [first [apply in_int32_len; assumption|assumption]|]).
    apply List.Forall_nil. }
  split; [exact Hwf'|].
  unfold add_result. fold block.
  rewrite (with_open_rw_run _ _ w e Hf Hw). fold h'.
  set (body := bind _ _).
  assert (body (fopen (e_data e))
          = (Ok tt, FState (header_bytes h' ++ s1 ++ s2 ++ s3 ++ s4 ++ block)
                      (length (header_bytes h' ++ s1 ++ s2 ++ s3 ++ s4) + length block)
                      true [])) as Hrun.
  { subst body. unfold bind at 1. rewrite read_header_run.
    cbn [fopen f_data f_dirty f_log]. rewrite Hh. fold h'.
    unfold bind at 1. rewrite (write_header_run h' _ (wf_ints_fit _ Hwf')).
    cbn [f_data f_log]. rewrite Hdrop.
    unfold bind.
    assert (Z.to_nat (header_size + params_size h' + pulse_size h'
                      + stdout_size h' + stderr_size h')
            = length (header_bytes h' ++ s1 ++ s2 ++ s3 ++ s4)) as Hoff.
    { rewrite !length_app, length_header_bytes. subst h'. header_fields.
      rewrite P1, P2, P3, P4. unfold len. change header_size with 224. lia. }
    rewrite seek_run by (subst h'; header_fields; rewrite P1, P2, P3, P4;
                         unfold len; change header_size with 224; lia).
    cbn [f_data f_dirty f_log]. rewrite Hoff.
    rewrite write_run by (rewrite !length_app; lia).
    replace (header_bytes h' ++ s1 ++ s2 ++ s3 ++ s4 ++ s5 ++ [])
      with ((header_bytes h' ++ s1 ++ s2 ++ s3 ++ s4) ++ s5)
      by (rewrite app_nil_r, <- !app_assoc; reflexivity).
    rewrite overwrite_app by reflexivity.
    rewrite drop_ge by (unfold len in Lgrow; lia).
    rewrite app_nil_r, <- !app_assoc. reflexivity. }
  rewrite Hrun. cbn [fst snd]. split; [reflexivity|].
  unfold close. cbn [w_fs set_fs add_log add_trace f_data f_dirty w_clock].
  rewrite Hw. reflexivity.
Qed.

Lemma add_signature_run (w : world) (task : string) (signature : pyobj)
    (e : file_entry) (h : TaskHeader) (s1 s2 s3 s4 s5 s6 : list byte) :
  w_fs w !! task_file home task = Some e ->
  e_writable e = true ->
  laid_out (e_data e) h s1 s2 s3 s4 s5 s6 ->
  let block := lzma_compress (pickle_dumps_dict signature) in
  len s6 <= len block -> len block <= int32_max ->
  let h' := set_signature_size (len block) h in
  let r := add_signature home lzma_compress pickle_dumps_dict task signature w in
  wf_header h'
  /\ fst r = Ok tt
  /\ w_fs (snd r)
     = <[task_file home task :=
           FileEntry (header_bytes h' ++ s1 ++ s2 ++ s3 ++ s4 ++ s5 ++ block)
             (w_clock w) true]> (w_fs w).
Proof.
  intros Hf Hw Hl. cbv zeta. intros Lgrow Lb.
  set (block := lzma_compress (pickle_dumps_dict signature)) in *.
  set (h' := set_signature_size _ _).
  pose proof Hl as (Hh & Hd & Hs).
  pose proof (laid_out_sizes _ _ _ _ _ _ _ _ Hl) as (P1 & P2 & P3 & P4 & P5 & P6).
  pose proof (laid_out_drop _ _ _ _ _ _ _ _ Hl) as Hdrop.
  pose proof (header_of_wf _ _ Hh) as Hwf.
  assert (wf_header h') as Hwf'.
  { apply (wf_set_sizes h);
      [exact Hwf|subst h'; unfold times; header_fields; reflexivity..|].
    destruct Hwf as (Hi & _). unfold sizes in *. subst h'. header_fields.
    repeat (apply Forall_cons in Hi as [? Hi]).
    repeat (apply List.Forall_cons; [first [apply in_int32_len; assumption|assumption]|]).
    apply List.Forall_nil. }
  split; [exact Hwf'|].
  unfold add_signature. fold block.
  rewrite (with_open_rw_run _ _ w e Hf Hw). fold h'.
  set (body := bind _ _).
  assert (body (fopen (e_data e))
          = (Ok tt, FState (header_bytes h' ++ s1 ++ s2 ++ s3 ++ s4 ++ s5 ++ block)
                      (length (header_bytes h' ++ s1 ++ s2 ++ s3 ++ s4 ++ s5) + length block)
                      true [])) as Hrun.
  { subst body. unfold bind at 1. rewrite read_header_run.
    cbn [fopen f_data f_dirty f_log]. rewrite Hh. fold h'.
    unfold bind at 1. rewrite (write_header_run h' _ (wf_ints_fit _ Hwf')).
    cbn [f_data f_log]. rewrite Hdrop.
    unfold bind.
    assert (Z.to_nat (header_size + params_size h' + pulse_size h'
                      + stdout_size h' + stderr_size h' + result_size h')
            = length (header_bytes h' ++ s1 ++ s2 ++ s3 ++ s4 ++ s5)) as Hoff.
    { rewrite !length_app, length_header_bytes. subst h'. header_fields.
      rewrite P1, P2, P3, P4, P5. unfold len. change header_size with 224. lia. }
    rewrite seek_run by (subst h'; header_fields; rewrite P1, P2, P3, P4, P5;
                         unfold len; change header_size with 224; lia).
    cbn [f_data f_dirty f_log]. rewrite Hoff.
    rewrite write_run by (rewrite !length_app; lia).
    replace (header_bytes h' ++ s1 ++ s2 ++ s3 ++ s4 ++ s5 ++ s6)
      with ((header_bytes h' ++ s1 ++ s2 ++ s3 ++ s4 ++ s5) ++ s6)
      by (rewrite <- !app_assoc; reflexivity).
    rewrite overwrite_app by reflexivity.
    rewrite drop_ge by (unfold len in Lgrow; lia).
    rewrite app_nil_r, <- !app_assoc. reflexivity. }
  rewrite Hrun. cbn [fst snd]. split; [reflexivity|].
  unfold close. cbn [w_fs set_fs add_log add_trace f_data f_dirty w_clock].
  rewrite Hw. reflexivity.
Qed.

(** A well-formed header followed by sections of the sizes it records is
    laid out. *)
Lemma laid_out_bytes (h : TaskHeader) (s1 s2 s3 s4 s5 s6 : list byte) :
  wf_header h ->
  sizes h = [len s1; len s2; len s3; len s4; len s5; len s6] ->
  laid_out (header_bytes h ++ s1 ++ s2 ++ s3 ++ s4 ++ s5 ++ s6) h s1 s2 s3 s4 s5 s6.
Proof.
  intros Hwf Hs. split; [apply header_of_bytes, Hwf|]. split; [|exact Hs].
  rewrite take_app_length' by (symmetry; apply length_header_bytes). reflexivity.
Qed.

Lemma laid_out_consistent data h s1 s2 s3 s4 s5 s6 :
  laid_out data h s1 s2 s3 s4 s5 s6 -> consistent data h.
Proof.
  intros Hl. pose proof Hl as (Hh & Hd & Hs).
  pose proof (laid_out_drop _ _ _ _ _ _ _ _ Hl) as Hdrop.
  pose proof (header_of_length _ _ Hh) as L.
  split; [exact Hh|]. split.
  - rewrite Hs. repeat (apply List.Forall_cons; [apply len_nonneg|]). apply List.Forall_nil.
  - unfold total_size. unfold sizes in Hs. injection Hs as -> -> -> -> -> ->.
    assert (length data = (hsize + length (drop hsize data))%nat) as E.
    { rewrite length_drop. unfold len in L. change header_size with 224 in *. lia. }
    rewrite Hdrop, !length_app in E. unfold len in *.
    change header_size with 224 in *. lia.
Qed.

(** The sections of a consistent record, cut where the header says. *)
Lemma consistent_laid_out (data : list byte) (h : TaskHeader) :
  consistent data h ->
  exists s1 s2 s3 s4 s5 s6, laid_out data h s1 s2 s3 s4 s5 s6.
Proof.
  intros (Hh & Hpos & Htot).
  unfold sizes in Hpos. repeat (apply Forall_cons in Hpos as [? Hpos]).
  unfold total_size in Htot.
  pose proof (header_of_length _ _ Hh) as L.
  set (rest := drop hsize data).
  set (n1 := Z.to_nat (params_size h)). set (n2 := Z.to_nat (pulse_size h)).
  set (n3 := Z.to_nat (stdout_size h)). set (n4 := Z.to_nat (stderr_size h)).
  set (n5 := Z.to_nat (result_size h)). set (n6 := Z.to_nat (signature_size h)).
  assert (length rest = (n1 + n2 + n3 + n4 + n5 + n6)%nat) as Lrest.
  { subst rest n1 n2 n3 n4 n5 n6. rewrite length_drop. unfold len in *.
    change header_size with 224 in *. lia. }
  exists (take n1 rest), (take n2 (drop n1 rest)), (take n3 (drop (n1 + n2) rest)),
    (take n4 (drop (n1 + n2 + n3) rest)), (take n5 (drop (n1 + n2 + n3 + n4) rest)),
    (take n6 (drop (n1 + n2 + n3 + n4 + n5) rest)).
  split; [exact Hh|]. split.
  - rewrite <- (take_drop hsize data) at 1. f_equal. fold rest.
    rewrite <- (take_drop n1 rest) at 1. f_equal.
    rewrite <- (take_drop n2 (drop n1 rest)) at 1. f_equal. rewrite drop_drop.
    rewrite <- (take_drop n3 (drop (n1 + n2) rest)) at 1. f_equal. rewrite drop_drop.
    rewrite <- (take_drop n4 (drop (n1 + n2 + n3) rest)) at 1. f_equal. rewrite drop_drop.
    rewrite <- (take_drop n5 (drop (n1 + n2 + n3 + n4) rest)) at 1. f_equal.
    rewrite drop_drop. symmetry. apply take_ge. rewrite length_drop. lia.
  - unfold sizes, len. rewrite !length_take, !length_drop.
    subst n1 n2 n3 n4 n5 n6. repeat f_equal; lia.
Qed.

End WriterFacts.

(** ** The accessors of the record *)

Section AccessorFacts.

Import TaskFile.

Variable home : string.
Variable lzma_decompress : list byte -> result (list byte).
Variable pickle_loads : list byte -> result pyobj.

Abbreviation hsize := (Z.to_nat header_size).
Abbreviation loads := (loads_block lzma_decompress pickle_loads).
Abbreviation decodes := (decode_block lzma_decompress).

(** What [_get_params] makes of the bytes of its section. *)
Definition params_view (b : list byte) : result pyobj :=
  if len b =? 0 then Ok (PDict []) else loads b.

(** What [_get_result] and [_get_signature] make of theirs. *)
Definition pickled_view (b : list byte) : pyobj :=
  if len b =? 0 then PDict []
  else match loads b with Ok v => v | Raise _ => ret_code_1 end.

(** What [_get_pulse], [_get_stdout] and [_get_stderr] make of theirs. *)
Definition text_view (b : list byte) : Unicode.pystr :=
  if len b =? 0 then []
  else match decodes b with Ok s => s | Raise _ => [] end.

Lemma seek_read_run (off n : Z) (s : fstate) :
  0 <= off -> -1 <= n ->
  exists s',
    bind (seek off) (fun _ => read n) s = (Ok (section_bytes off n (f_data s)), s')
    /\ f_log s' = f_log s.
Proof.
  intros H Hn. unfold bind. rewrite seek_run by exact H.
  unfold read, section_bytes. destruct (Z.ltb_spec n (-1)); [lia|].
  cbn [f_data f_pos f_log f_dirty].
  eexists. split; reflexivity.
Qed.

Lemma get_params_run (w : world) (task : string) (e : file_entry) (h : TaskHeader) :
  w_fs w !! task_file home task = Some e ->
  header_of (e_data e) = Ok h ->
  -1 <= params_size h ->
  fst (_get_params home lzma_decompress pickle_loads task w)
  = if params_size h =? 0 then Ok (PDict [])
    else loads (section_bytes header_size (params_size h) (e_data e)).
Proof.
  intros Hf Hh Hn. unfold _get_params.
  rewrite (with_open_rb_run _ _ w e Hf). cbn [fst].
  unfold bind at 1. rewrite read_header_run.
  cbn [fopen f_data f_dirty f_log]. rewrite Hh.
  destruct (params_size h =? 0); [reflexivity|].
  unfold bind. rewrite seek_run by (cbv; discriminate).
  unfold read, lift, section_bytes.
  destruct (Z.ltb_spec (params_size h) (-1)); [lia|].
  cbn [f_data f_pos f_log f_dirty fst].
  reflexivity.
Qed.

Lemma get_pickled_run (what : string) (size off : TaskHeader -> Z)
    (w : world) (task : string) (e : file_entry) (h : TaskHeader) :
  w_fs w !! task_file home task = Some e ->
  header_of (e_data e) = Ok h ->
  0 <= off h -> -1 <= size h ->
  let r := get_pickled home lzma_decompress pickle_loads what size off task w in
  fst r = Ok (if size h =? 0 then PDict []
              else match loads (section_bytes (off h) (size h) (e_data e)) with
                   | Ok v => v
                   | Raise _ => ret_code_1
                   end)
  /\ w_fs (snd r) = w_fs w.
Proof.
  intros Hf Hh Hoff Hn. cbv zeta. unfold get_pickled.
  rewrite (with_open_rb_run _ _ w e Hf). cbn [fst snd].
  unfold bind at 1 3. rewrite read_header_run.
  cbn [fopen f_data f_dirty f_log]. rewrite Hh.
  destruct (size h =? 0); [split; reflexivity|].
  unfold bind, try_except. rewrite seek_run by exact Hoff.
  unfold read, lift, section_bytes, warning, modify, ret.
  destruct (Z.ltb_spec (size h) (-1)); [lia|].
  cbn [f_data f_pos f_log f_dirty].
  destruct (loads _); split; reflexivity.
Qed.

Lemma get_text_run (what : string) (size off : TaskHeader -> Z)
    (w : world) (task : string) (e : file_entry) (h : TaskHeader) :
  w_fs w !! task_file home task = Some e ->
  header_of (e_data e) = Ok h ->
  0 <= off h -> -1 <= size h ->
  let r := get_text home lzma_decompress what size off task w in
  fst r = Ok (if size h =? 0 then []
              else match decodes (section_bytes (off h) (size h) (e_data e)) with
                   | Ok s => s
                   | Raise _ => []
                   end)
  /\ w_fs (snd r) = w_fs w.
Proof.
  intros Hf Hh Hoff Hn. cbv zeta. unfold get_text.
  rewrite (with_open_rb_run _ _ w e Hf). cbn [fst snd].
  unfold bind at 1 3. rewrite read_header_run.
  cbn [fopen f_data f_dirty f_log]. rewrite Hh.
  destruct (size h =? 0); [split; reflexivity|].
  unfold bind, try_except. rewrite seek_run by exact Hoff.
  unfold read, lift, section_bytes, warning, modify, ret.
  destruct (Z.ltb_spec (size h) (-1)); [lia|].
  cbn [f_data f_pos f_log f_dirty].
  destruct (decodes _); split; reflexivity.
Qed.

(** A failed decode of a trailing section is logged as a warning. *)
Lemma get_pickled_warns (what : string) (size off : TaskHeader -> Z)
    (w : world) (task : string) (e : file_entry) (h : TaskHeader) (err : exn) :
  w_fs w !! task_file home task = Some e ->
  header_of (e_data e) = Ok h ->
  0 <= off h -> 0 < size h ->
  loads (section_bytes (off h) (size h) (e_data e)) = Raise err ->
  w_log (snd (get_pickled home lzma_decompress pickle_loads what size off task w))
  = w_log w ++ [LogRecord LWarning ("Failed to decode " +:+ what +:+ ": ") (Some err)].
Proof.
  intros Hf Hh Hoff Hsz Herr. unfold get_pickled.
  rewrite (with_open_rb_run _ _ w e Hf). cbn [fst snd].
  unfold bind at 1. rewrite read_header_run.
  cbn [fopen f_data f_dirty f_log]. rewrite Hh.
  destruct (Z.eqb_spec (size h) 0) as [|_]; [lia|].
  unfold bind, try_except. rewrite seek_run by exact Hoff.
  unfold read, lift, section_bytes, warning, modify, ret.
  destruct (Z.ltb_spec (size h) (-1)); [lia|].
  cbn [f_data f_pos f_log f_dirty].
  unfold section_bytes in Herr. rewrite Herr. reflexivity.
Qed.

Lemma section_bytes_app (x rest : list byte) (off size : Z) (k : nat) :
  off = Z.of_nat (length x + k) -> 0 <= size ->
  section_bytes off size (x ++ rest) = take (Z.to_nat size) (drop k rest).
Proof.
  intros -> Hs. unfold section_bytes.
  destruct (Z.ltb_spec size 0); [lia|].
  rewrite Nat2Z.id, drop_app_ge by lia.
  repeat f_equal. lia.
Qed.

(** In a laid-out record each accessor reads exactly its section. *)
Lemma laid_out_sections data h s1 s2 s3 s4 s5 s6 :
  laid_out data h s1 s2 s3 s4 s5 s6 ->
  section_bytes header_size (params_size h) data = s1
  /\ section_bytes (pulse_offset h) (pulse_size h) data = s2
  /\ section_bytes (stdout_offset h) (stdout_size h) data = s3
  /\ section_bytes (stderr_offset h) (stderr_size h) data = s4
  /\ section_bytes (result_offset h) (result_size h) data = s5
  /\ section_bytes (signature_offset h) (signature_size h) data = s6.
Proof.
  intros Hl. pose proof Hl as (Hh & Hd & Hs).
  pose proof (laid_out_sizes _ _ _ _ _ _ _ _ Hl) as (P1 & P2 & P3 & P4 & P5 & P6).
  pose proof (header_of_length _ _ Hh) as L.
  assert (length (take hsize data) = hsize) as Lt
    by (rewrite length_take; unfold len in L; change header_size with 224 in *; lia).
  unfold signature_offset, result_offset, stderr_offset, stdout_offset, pulse_offset.
  rewrite P1, P2, P3, P4, P5, P6. rewrite Hd. unfold len.
  repeat split.
  - rewrite (section_bytes_app _ _ _ _ 0)
      by (rewrite ?Lt; change header_size with 224; lia).
    rewrite drop_0, Nat2Z.id. apply take_app_length.
  - rewrite (section_bytes_app _ _ _ _ (length s1))
      by (rewrite ?Lt; change header_size with 224; lia).
    rewrite drop_app_length, Nat2Z.id. apply take_app_length.
  - rewrite (section_bytes_app _ _ _ _ (length (s1 ++ s2)))
      by (rewrite ?Lt, ?length_app; change header_size with 224; lia).
    rewrite (app_assoc s1 s2), drop_app_length, Nat2Z.id. apply take_app_length.
  - rewrite (section_bytes_app _ _ _ _ (length (s1 ++ s2 ++ s3)))
      by (rewrite ?Lt, ?length_app; change header_size with 224; lia).
    replace (s1 ++ s2 ++ s3 ++ s4 ++ s5 ++ s6)
      with ((s1 ++ s2 ++ s3) ++ s4 ++ s5 ++ s6) by (rewrite <- !app_assoc; reflexivity).
    rewrite drop_app_length, Nat2Z.id. apply take_app_length.
  - rewrite (section_bytes_app _ _ _ _ (length (s1 ++ s2 ++ s3 ++ s4)))
      by (rewrite ?Lt, ?length_app; change header_size with 224; lia).
    replace (s1 ++ s2 ++ s3 ++ s4 ++ s5 ++ s6)
      with ((s1 ++ s2 ++ s3 ++ s4) ++ s5 ++ s6) by (rewrite <- !app_assoc; reflexivity).
    rewrite drop_app_length, Nat2Z.id. apply take_app_length.
  - rewrite (section_bytes_app _ _ _ _ (length (s1 ++ s2 ++ s3 ++ s4 ++ s5)))
      by (rewrite ?Lt, ?length_app; change header_size with 224; lia).
    replace (s1 ++ s2 ++ s3 ++ s4 ++ s5 ++ s6)
      with ((s1 ++ s2 ++ s3 ++ s4 ++ s5) ++ s6) by (rewrite <- !app_assoc; reflexivity).
    rewrite drop_app_length, Nat2Z.id. apply take_ge. lia.
Qed.

(** What the six accessors return on a laid-out record. *)
Lemma laid_out_accessors (w : world) (task : string) (e : file_entry)
    (h : TaskHeader) (s1 s2 s3 s4 s5 s6 : list byte) :
  w_fs w !! task_file home task = Some e ->
  laid_out (e_data e) h s1 s2 s3 s4 s5 s6 ->
  fst (_get_params home lzma_decompress pickle_loads task w) = params_view s1
  /\ fst (_get_pulse home lzma_decompress task w) = Ok (text_view s2)
  /\ fst (_get_stdout home lzma_decompress task w) = Ok (text_view s3)
  /\ fst (_get_stderr home lzma_decompress task w) = Ok (text_view s4)
  /\ fst (_get_result home lzma_decompress pickle_loads task w) = Ok (pickled_view s5)
  /\ fst (_get_signature home lzma_decompress pickle_loads task w) = Ok (pickled_view s6).
Proof.
  intros Hf Hl. pose proof Hl as (Hh & Hd & Hs).
  pose proof (laid_out_sizes _ _ _ _ _ _ _ _ Hl) as (P1 & P2 & P3 & P4 & P5 & P6).
  pose proof (laid_out_sections _ _ _ _ _ _ _ _ Hl) as (S1 & S2 & S3 & S4 & S5 & S6).
  assert (0 <= pulse_offset h /\ 0 <= stdout_offset h /\ 0 <= stderr_offset h
          /\ 0 <= result_offset h /\ 0 <= signature_offset h) as (O2 & O3 & O4 & O5 & O6).
  { unfold signature_offset, result_offset, stderr_offset, stdout_offset, pulse_offset.
    rewrite P1, P2, P3, P4, P5. unfold len. change header_size with 224. lia. }
  unfold _get_pulse, _get_stdout, _get_stderr, _get_result, _get_signature.
  repeat split.
  - rewrite (get_params_run w task e h Hf Hh), S1, P1; [reflexivity|].
    rewrite P1. pose proof (len_nonneg s1). lia.
  - rewrite (proj1 (get_text_run _ _ _ w task e h Hf Hh O2 ltac:(rewrite P2; pose proof (len_nonneg s2); lia))), S2, P2. reflexivity.
  - rewrite (proj1 (get_text_run _ _ _ w task e h Hf Hh O3 ltac:(rewrite P3; pose proof (len_nonneg s3); lia))), S3, P3. reflexivity.
  - rewrite (proj1 (get_text_run _ _ _ w task e h Hf Hh O4 ltac:(rewrite P4; pose proof (len_nonneg s4); lia))), S4, P4. reflexivity.
  - rewrite (proj1 (get_pickled_run _ _ _ w task e h Hf Hh O5 ltac:(rewrite P5; pose proof (len_nonneg s5); lia))), S5, P5. reflexivity.
  - rewrite (proj1 (get_pickled_run _ _ _ w task e h Hf Hh O6 ltac:(rewrite P6; pose proof (len_nonneg s6); lia))), S6, P6. reflexivity.
Qed.

End AccessorFacts.

(** * The claims about the task record *)

Section RecordClaims.

Import TaskFile.

Variable home : string.
Variable float_bits : Z -> Z.
Variable lzma_compress : list byte -> list byte.
Variable lzma_decompress : list byte -> result (list byte).
Variable pickle_dumps : instance -> list byte.
Variable pickle_dumps_dict : pyobj -> list byte.
Variable pickle_loads : list byte -> result pyobj.

(** *** The status setter *)

(** What [_set_status] does on a record with header [h]: each state with
    a branch is accepted and stamps its own field and [last_modified];
    every other value raises and leaves the files alone. *)
Definition status_contract (w : world) (task : string) (e : file_entry)
    (h : TaskHeader) : Prop :=
  (forall st, st ∈ settable ->
     exists h',
       let now := float_bits (w_clock w) in
       let r := _set_status home float_bits task (name st) w in
       fst r = Ok tt
       /\ w_fs (snd r)
          = <[task_file home task :=
                FileEntry (header_bytes h' ++ drop (Z.to_nat header_size) (e_data e))
                  (w_clock w) true]> (w_fs w)
       /\ header_of (header_bytes h' ++ drop (Z.to_nat header_size) (e_data e)) = Ok h'
       /\ status h' = value st /\ time_of st h' = now /\ last_modified h' = now
       /\ (forall st', st' <> st -> time_of st' h' = time_of st' h)
       /\ version h' = version h /\ tags h' = tags h /\ sizes h' = sizes h)
  /\ (forall status, (forall st, st ∈ settable -> status <> name st) ->
        let r := _set_status home float_bits task status w in
        fst r = Raise (RuntimeError ("Unrecognized task status: " +:+ status))
        /\ w_fs (snd r) = w_fs w).

(** C6, as amended: on an existing, writable task record, the status
    setter accepts [pending], [submitted], [running], [failed], [aborted]
    and [completed] at any time.  Setting one of them writes its value into
    [status] and the current time into that state's own timestamp and
    into [last_modified], and leaves the version, the tags, every other
    timestamp, the six sizes and the sections as they were.  Every other
    value, the enumerated state [new] included, raises [RuntimeError] and
    leaves the record unchanged. *)
Theorem status_setter_contract (w : world) (task : string) (e : file_entry)
    (h : TaskHeader) :
  w_fs w !! task_file home task = Some e ->
  e_writable e = true ->
  header_of (e_data e) = Ok h ->
  is_double (float_bits (w_clock w)) ->
  status_contract w task e h.
Proof.
  intros Hf Hw Hh Hnow. split.
  - intros st Hst.
    destruct (set_status_accepted home float_bits w task e h st Hf Hw Hh Hnow Hst)
      as (h' & H1 & H2 & Hwf & H3).
    exists h'. cbv zeta in *.
    split; [exact H1|]. split; [exact H2|].
    split; [apply header_of_bytes, Hwf|exact H3].
  - intros status Hno.
    apply (set_status_rejected home float_bits w task e h status Hf Hw Hh Hno).
Qed.

(** *** [reset] *)

(** The header a reset leaves, field by field. *)
Definition is_reset_of (st : TaskStatus) (now : Z) (h h' : TaskHeader) : Prop :=
  status h' = value st
  /\ new_time h' = now /\ last_modified h' = now
  /\ pending_time h' = 0 /\ submitted_time h' = 0 /\ running_time h' = 0
  /\ aborted_time h' = 0 /\ failed_time h' = 0 /\ completed_time h' = 0
  /\ pulse_size h' = 0 /\ stdout_size h' = 0 /\ stderr_size h' = 0
  /\ result_size h' = 0 /\ signature_size h' = 0
  /\ version h' = version h /\ tags h' = tags h.

Definition reset_contract (w : world) (task : string) (e : file_entry)
    (h : TaskHeader) : Prop :=
  let now := float_bits (w_clock w) in
  let r := reset home float_bits task w in
  exists data' h',
    fst r = Ok tt
    /\ w_fs (snd r) = <[task_file home task := FileEntry data' (w_clock w) true]> (w_fs w)
    /\ header_of data' = Ok h'
    /\ is_reset_of new now h h'
    /\ params_size h' = params_size h
    /\ len data' = header_size + params_size h
    /\ (header_size + params_size h <= len (e_data e) ->
        section_bytes header_size (params_size h') data'
        = section_bytes header_size (params_size h) (e_data e))
    /\ (forall params,
          len (lzma_compress (pickle_dumps params)) <= int32_max ->
          let u := update home float_bits lzma_compress pickle_dumps task params w in
          exists datau hu,
            fst u = Ok tt
            /\ w_fs (snd u)
               = <[task_file home task := FileEntry datau (w_clock w) true]> (w_fs w)
            /\ header_of datau = Ok hu
            /\ is_reset_of pending now h hu
            /\ params_size hu = len (lzma_compress (pickle_dumps params))
            /\ len datau = header_size + params_size hu).

Lemma is_reset_of_clear (st : TaskStatus) (now : Z) (h : TaskHeader) :
  is_reset_of st now h (clear_header st now h).
Proof. unfold is_reset_of. header_fields. repeat split. Qed.

(** C3, as amended: on an existing, writable task record whose params
    size is not negative, [reset()] resets the header as [update] does
    (all transition timestamps zeroed, [new_time] and [last_modified] set
    to the current time, the pulse/stdout/stderr/result/signature sizes
    zeroed, version and tags kept), except that the status becomes [new],
    where [update] sets [pending], and that the params section and its
    recorded size are kept, where [update] replaces them; it truncates
    the file to header size plus params size. *)
Theorem reset_keeps_params (w : world) (task : string) (e : file_entry)
    (h : TaskHeader) :
  w_fs w !! task_file home task = Some e ->
  e_writable e = true ->
  header_of (e_data e) = Ok h ->
  is_double (float_bits (w_clock w)) ->
  0 <= params_size h ->
  reset_contract w task e h.
Proof.
  intros Hf Hw Hh Hnow Hp. unfold reset_contract. cbv zeta.
  destruct (reset_run home float_bits w task e h Hf Hw Hh Hnow Hp) as (Hwf & H1 & H2).
  cbv zeta in *.
  set (h' := clear_header new (float_bits (w_clock w)) h) in *.
  exists (header_bytes h'
          ++ resize (Z.to_nat (params_size h)) x00 (drop (Z.to_nat header_size) (e_data e))),
    h'.
  split; [exact H1|]. split; [exact H2|].
  split; [apply header_of_bytes, Hwf|].
  split; [apply is_reset_of_clear|].
  split; [reflexivity|].
  split.
  { unfold len. rewrite length_app, length_header_bytes, length_resize.
    change header_size with 224. lia. }
  split.
  { intros Hlong.
    replace (params_size h') with (params_size h) by reflexivity.
    rewrite (section_bytes_app _ _ _ _ 0)
      by (rewrite ?length_header_bytes; change header_size with 224; lia).
    unfold section_bytes. destruct (Z.ltb_spec (params_size h) 0); [lia|].
    rewrite drop_0, take_resize_eq, resize_le; [reflexivity|].
    rewrite length_drop. unfold len in Hlong. change header_size with 224 in *. lia. }
  intros params Hlen.
  destruct (update_run home float_bits lzma_compress pickle_dumps w task params e h
              Hf Hw Hh Hnow Hlen) as (Hwfu & U1 & U2).
  cbv zeta in *.
  set (block := lzma_compress (pickle_dumps params)) in *.
  set (hu := set_params_size (len block) (clear_header pending (float_bits (w_clock w)) h)) in *.
  exists (header_bytes hu ++ block), hu.
  split; [exact U1|]. split; [exact U2|].
  split; [apply header_of_bytes, Hwfu|].
  split; [subst hu; unfold is_reset_of; header_fields; repeat split|].
  split; [reflexivity|].
  unfold len. rewrite length_app, length_header_bytes.
  subst hu. header_fields. unfold len. change header_size with 224. lia.
Qed.


(** *** The writers and the header/offset invariant *)

(** The four calls that populate a record. *)
Inductive call : Type :=
| Update (params : instance)
| AddOutputs
| AddResult (result : pyobj)
| AddSignature (signature : pyobj).

Definition run_call (task : string) (c : call) : M world unit :=
  match c with
  | Update params => update home float_bits lzma_compress pickle_dumps task params
  | AddOutputs => add_outputs home float_bits lzma_compress task
  | AddResult result => add_result home lzma_compress pickle_dumps_dict task result
  | AddSignature signature =>
    add_signature home lzma_compress pickle_dumps_dict task signature
  end.

(** The bytes of the six sections. *)
Record sections : Type := Sections {
  sec_params : list byte;
  sec_pulse : list byte;
  sec_stdout : list byte;
  sec_stderr : list byte;
  sec_result : list byte;
  sec_signature : list byte
}.

(** The sections of a record, cut at the offsets the accessors compute
    from its header. *)
Definition sections_of (data : list byte) (h : TaskHeader) : sections :=
  {| sec_params := section_bytes header_size (params_size h) data;
     sec_pulse := section_bytes (pulse_offset h) (pulse_size h) data;
     sec_stdout := section_bytes (stdout_offset h) (stdout_size h) data;
     sec_stderr := section_bytes (stderr_offset h) (stderr_size h) data;
     sec_result := section_bytes (result_offset h) (result_size h) data;
     sec_signature := section_bytes (signature_offset h) (signature_size h) data |}.

Definition block_of (o : pyobj) : list byte := lzma_compress (pickle_dumps_dict o).

(** The sections a call writes, next to those it leaves. *)
Definition written (w : world) (task : string) (c : call) (ss : sections) : sections :=
  match c with
  | Update params =>
    Sections (lzma_compress (pickle_dumps params)) [] [] [] [] []
  | AddOutputs =>
    Sections (sec_params ss)
      (companion home lzma_compress w task ".pulse")
      (companion home lzma_compress w task ".out")
      (companion home lzma_compress w task ".err") [] []
  | AddResult result =>
    Sections (sec_params ss) (sec_pulse ss) (sec_stdout ss) (sec_stderr ss)
      (block_of result) []
  | AddSignature signature =>
    Sections (sec_params ss) (sec_pulse ss) (sec_stdout ss) (sec_stderr ss)
      (sec_result ss) (block_of signature)
  end.

(** A call appends: the sections after those it writes are empty, what it
    writes is no shorter than what it replaces and fits a 32-bit size. *)
Definition appends (w : world) (task : string) (c : call) (ss : sections) : Prop :=
  match c with
  | Update params =>
    is_double (float_bits (w_clock w))
    /\ len (lzma_compress (pickle_dumps params)) <= int32_max
  | AddOutputs =>
    let pulse := companion home lzma_compress w task ".pulse" in
    let stdout := companion home lzma_compress w task ".out" in
    let stderr := companion home lzma_compress w task ".err" in
    sec_result ss = [] /\ sec_signature ss = []
    /\ len pulse <= int32_max /\ len stdout <= int32_max /\ len stderr <= int32_max
    /\ len (sec_pulse ss) + len (sec_stdout ss) + len (sec_stderr ss)
       <= len pulse + len stdout + len stderr
  | AddResult result =>
    sec_signature ss = []
    /\ len (sec_result ss) <= len (block_of result) <= int32_max
  | AddSignature signature =>
    len (sec_signature ss) <= len (block_of signature) <= int32_max
  end.

(** What the six accessors return in [w] when the sections are [ss]. *)
Definition accessors_return (w : world) (task : string) (ss : sections) : Prop :=
  fst (_get_params home lzma_decompress pickle_loads task w)
  = params_view lzma_decompress pickle_loads (sec_params ss)
  /\ fst (_get_pulse home lzma_decompress task w)
     = Ok (text_view lzma_decompress (sec_pulse ss))
  /\ fst (_get_stdout home lzma_decompress task w)
     = Ok (text_view lzma_decompress (sec_stdout ss))
  /\ fst (_get_stderr home lzma_decompress task w)
     = Ok (text_view lzma_decompress (sec_stderr ss))
  /\ fst (_get_result home lzma_decompress pickle_loads task w)
     = Ok (pickled_view lzma_decompress pickle_loads (sec_result ss))
  /\ fst (_get_signature home lzma_decompress pickle_loads task w)
     = Ok (pickled_view lzma_decompress pickle_loads (sec_signature ss)).

Definition writer_contract (w : world) (task : string) (e : file_entry)
    (h : TaskHeader) (c : call) : Prop :=
  let r := run_call task c w in
  let ss' := written w task c (sections_of (e_data e) h) in
  exists data' h',
    fst r = Ok tt
    /\ w_fs (snd r) = <[task_file home task := FileEntry data' (w_clock w) true]> (w_fs w)
    /\ consistent data' h'
    /\ sections_of data' h' = ss'
    /\ accessors_return (snd r) task ss'.

Lemma consistent_sections (data : list byte) (h : TaskHeader) :
  consistent data h ->
  laid_out data h
    (sec_params (sections_of data h)) (sec_pulse (sections_of data h))
    (sec_stdout (sections_of data h)) (sec_stderr (sections_of data h))
    (sec_result (sections_of data h)) (sec_signature (sections_of data h)).
Proof.
  intros Hc.
  destruct (consistent_laid_out _ _ Hc) as (s1 & s2 & s3 & s4 & s5 & s6 & Hl).
  pose proof (laid_out_sections _ _ _ _ _ _ _ _ Hl) as (S1 & S2 & S3 & S4 & S5 & S6).
  unfold sections_of. cbn [sec_params sec_pulse sec_stdout sec_stderr sec_result sec_signature].
  rewrite S1, S2, S3, S4, S5, S6. exact Hl.
Qed.

Lemma laid_out_sections_of data h s1 s2 s3 s4 s5 s6 :
  laid_out data h s1 s2 s3 s4 s5 s6 ->
  sections_of data h = Sections s1 s2 s3 s4 s5 s6.
Proof.
  intros Hl.
  pose proof (laid_out_sections _ _ _ _ _ _ _ _ Hl) as (S1 & S2 & S3 & S4 & S5 & S6).
  unfold sections_of. rewrite S1, S2, S3, S4, S5, S6. reflexivity.
Qed.

(** The conclusion of the contract, from the bytes a writer leaves. *)
Lemma writer_contract_intro (w : world) (task : string) (e : file_entry)
    (h h' : TaskHeader) (c : call) (s1 s2 s3 s4 s5 s6 : list byte) :
  written w task c (sections_of (e_data e) h) = Sections s1 s2 s3 s4 s5 s6 ->
  wf_header h' ->
  sizes h' = [len s1; len s2; len s3; len s4; len s5; len s6] ->
  fst (run_call task c w) = Ok tt ->
  w_fs (snd (run_call task c w))
  = <[task_file home task :=
        FileEntry (header_bytes h' ++ s1 ++ s2 ++ s3 ++ s4 ++ s5 ++ s6)
          (w_clock w) true]> (w_fs w) ->
  writer_contract w task e h c.
Proof.
  intros Hss Hwf Hsz Hok Hfs. unfold writer_contract. cbv zeta. rewrite Hss.
  pose proof (laid_out_bytes h' s1 s2 s3 s4 s5 s6 Hwf Hsz) as Hl.
  eexists _, h'. split; [exact Hok|]. split; [exact Hfs|].
  split; [apply (laid_out_consistent _ _ _ _ _ _ _ _ Hl)|].
  split; [apply laid_out_sections_of, Hl|].
  apply (laid_out_accessors home lzma_decompress pickle_loads _ task
           (FileEntry (header_bytes h' ++ s1 ++ s2 ++ s3 ++ s4 ++ s5 ++ s6)
              (w_clock w) true) h' s1 s2 s3 s4 s5 s6); [|exact Hl].
  rewrite Hfs. apply lookup_insert_eq.
Qed.

(** One call: on a consistent record a call that appends returns, leaves
    the record consistent, and the accessors return the sections it wrote
    next to those it left. *)
Lemma writer_step (w : world) (task : string)
    (e : file_entry) (h : TaskHeader) (c : call) :
  w_fs w !! task_file home task = Some e ->
  e_writable e = true ->
  consistent (e_data e) h ->
  appends w task c (sections_of (e_data e) h) ->
  writer_contract w task e h c.
Proof.
  intros Hf Hw Hc Happ.
  pose proof (consistent_sections _ _ Hc) as Hl.
  pose proof Hc as (Hh & _ & _).
  pose proof (laid_out_sizes _ _ _ _ _ _ _ _ Hl) as (P1 & P2 & P3 & P4 & P5 & P6).
  set (ss := sections_of (e_data e) h) in *.
  destruct c as [params| |result|signature]; cbn [appends] in Happ.
  - destruct Happ as (Hnow & Hlen).
    destruct (update_run home float_bits lzma_compress pickle_dumps w task params e h
                Hf Hw Hh Hnow Hlen) as (Hwf & H1 & H2).
    cbv zeta in *.
    eapply (writer_contract_intro w task e h _ (Update params)
              (lzma_compress (pickle_dumps params)) [] [] [] [] []);
      [reflexivity|exact Hwf|reflexivity|exact H1|].
    cbn [run_call]. rewrite H2, !app_nil_r. reflexivity.
  - cbv zeta in Happ. destruct Happ as (E5 & E6 & Lp & Lo & Le & Lgrow).
    rewrite E5, E6 in Hl.
    destruct (add_outputs_run home float_bits lzma_compress w task e h _ _ _ _
                Hf Hw Hl Lp Lo Le Lgrow) as (Hwf & H1 & H2).
    cbv zeta in *.
    eapply (writer_contract_intro w task e h _ AddOutputs
              (sec_params ss) (companion home lzma_compress w task ".pulse")
              (companion home lzma_compress w task ".out")
              (companion home lzma_compress w task ".err") [] []);
      [reflexivity|exact Hwf| |exact H1|].
    + unfold sizes. header_fields. rewrite P1, P5, P6, E5, E6. reflexivity.
    + cbn [run_call]. rewrite H2, !app_nil_r. reflexivity.
  - destruct Happ as (E6 & Lgrow & Lb).
    rewrite E6 in Hl.
    destruct (add_result_run home lzma_compress pickle_dumps_dict w task result e h
                _ _ _ _ _ Hf Hw Hl Lgrow Lb) as (Hwf & H1 & H2).
    cbv zeta in *.
    eapply (writer_contract_intro w task e h _ (AddResult result)
              (sec_params ss) (sec_pulse ss) (sec_stdout ss) (sec_stderr ss)
              (block_of result) []);
      [reflexivity|exact Hwf| |exact H1|].
    + unfold sizes. header_fields. rewrite P1, P2, P3, P4, P6, E6. reflexivity.
    + cbn [run_call]. rewrite H2, !app_nil_r. reflexivity.
  - destruct Happ as (Lgrow & Lb).
    destruct (add_signature_run home lzma_compress pickle_dumps_dict w task signature e h
                _ _ _ _ _ _ Hf Hw Hl Lgrow Lb) as (Hwf & H1 & H2).
    cbv zeta in *.
    eapply (writer_contract_intro w task e h _ (AddSignature signature)
              (sec_params ss) (sec_pulse ss) (sec_stdout ss) (sec_stderr ss)
              (sec_result ss) (block_of signature));
      [reflexivity|exact Hwf| |exact H1|exact H2].
    unfold sizes. header_fields. rewrite P1, P2, P3, P4, P5. reflexivity.
Qed.


(** The calls of a sequence all append, each in the state the calls
    before it leave. *)
Fixpoint all_append (task : string) (cs : list call) (w : world) : Prop :=
  match cs with
  | [] => True
  | c :: cs' =>
    (forall e h,
       w_fs w !! task_file home task = Some e ->
       header_of (e_data e) = Ok h ->
       appends w task c (sections_of (e_data e) h))
    /\ all_append task cs' (snd (run_call task c w))
  end.

(** Each call of the sequence finds a consistent record and keeps its
    contract. *)
Fixpoint kept_along (task : string) (cs : list call) (w : world) : Prop :=
  match cs with
  | [] => True
  | c :: cs' =>
    (exists e h,
       w_fs w !! task_file home task = Some e
       /\ consistent (e_data e) h
       /\ writer_contract w task e h c)
    /\ kept_along task cs' (snd (run_call task c w))
  end.

(** C1, as amended: for every existing, writable task record on which the
    header size plus the six recorded section sizes equals the file
    length, and every sequence of [update], [add_outputs], [add_result]
    and [add_signature] calls each of which appends (the sections after
    the ones it writes are empty, the bytes it writes are at least as long
    as those they replace, and their length fits the 32-bit size field),
    every call returns, after each call the header size plus the six
    recorded sizes again equals the file length, the accessor of each
    section the call wrote returns exactly the bytes written, and the
    accessors of the sections before them return what they returned
    before. *)
Theorem writers_keep_the_record_consistent (w : world) (task : string)
    (e : file_entry) (h : TaskHeader) (cs : list call) :
  w_fs w !! task_file home task = Some e ->
  e_writable e = true ->
  consistent (e_data e) h ->
  all_append task cs w ->
  kept_along task cs w.
Proof.
  revert w e h. induction cs as [|c cs IH]; intros w e h Hf Hw Hc Hall.
  - exact I.
  - destruct Hall as (Happ & Hrest).
    pose proof Hc as (Hh & _ & _).
    pose proof (writer_step w task e h c Hf Hw Hc (Happ e h Hf Hh)) as Hstep.
    split; [exists e, h; auto|].
    destruct Hstep as (data' & h' & _ & Hfs & Hc' & _).
    apply (IH _ (FileEntry data' (w_clock w) true) h');
      [rewrite Hfs; apply lookup_insert_eq|reflexivity|exact Hc'|exact Hrest].
Qed.

(** *** Decode failures in the accessors *)

(** The five accessors of the trailing sections never raise on a record
    with a readable header and sizes that are not negative: a section that
    does not decode yields [''], or [{'ret_code': 1}] for the result and
    for the signature alike. *)
Lemma trailing_accessors_degrade (w : world) (task : string) (e : file_entry)
    (h : TaskHeader) :
  w_fs w !! task_file home task = Some e ->
  header_of (e_data e) = Ok h ->
  Forall (fun z => 0 <= z) (sizes h) ->
  exists pulse stdout stderr result signature,
    fst (_get_pulse home lzma_decompress task w) = Ok pulse
    /\ fst (_get_stdout home lzma_decompress task w) = Ok stdout
    /\ fst (_get_stderr home lzma_decompress task w) = Ok stderr
    /\ fst (_get_result home lzma_decompress pickle_loads task w) = Ok result
    /\ fst (_get_signature home lzma_decompress pickle_loads task w) = Ok signature.
Proof.
  intros Hf Hh Hpos. unfold sizes in Hpos.
  repeat (apply Forall_cons in Hpos as [? Hpos]).
  assert (0 <= pulse_offset h /\ 0 <= stdout_offset h /\ 0 <= stderr_offset h
          /\ 0 <= result_offset h /\ 0 <= signature_offset h) as (O2 & O3 & O4 & O5 & O6).
  { unfold signature_offset, result_offset, stderr_offset, stdout_offset, pulse_offset.
    change header_size with 224. lia. }
  unfold _get_pulse, _get_stdout, _get_stderr, _get_result, _get_signature.
  assert (-1 <= pulse_size h /\ -1 <= stdout_size h /\ -1 <= stderr_size h
          /\ -1 <= result_size h /\ -1 <= signature_size h) as (N2 & N3 & N4 & N5 & N6).
  { repeat split; lia. }
  do 5 eexists.
  split; [apply (get_text_run home lzma_decompress _ _ _ w task e h Hf Hh O2 N2)|].
  split; [apply (get_text_run home lzma_decompress _ _ _ w task e h Hf Hh O3 N3)|].
  split; [apply (get_text_run home lzma_decompress _ _ _ w task e h Hf Hh O4 N4)|].
  split; [apply (get_pickled_run home lzma_decompress pickle_loads _ _ _ w task e h Hf Hh
                   O5 N5)|].
  apply (get_pickled_run home lzma_decompress pickle_loads _ _ _ w task e h Hf Hh O6 N6).
Qed.

(** A signature that does not decode gives the sentinel of the result,
    not an empty value, and is logged. *)
Lemma signature_failure_gives_sentinel (w : world) (task : string) (e : file_entry)
    (h : TaskHeader) (err : exn) :
  w_fs w !! task_file home task = Some e ->
  header_of (e_data e) = Ok h ->
  0 <= signature_offset h -> 0 < signature_size h ->
  loads_block lzma_decompress pickle_loads
    (section_bytes (signature_offset h) (signature_size h) (e_data e)) = Raise err ->
  let r := _get_signature home lzma_decompress pickle_loads task w in
  fst r = Ok ret_code_1
  /\ w_log (snd r)
     = w_log w ++ [LogRecord LWarning "Failed to decode signature: " (Some err)].
Proof.
  intros Hf Hh Hoff Hsz Herr. cbv zeta. unfold _get_signature.
  assert (-1 <= signature_size h) as Hn by lia. split.
  - rewrite (proj1 (get_pickled_run home lzma_decompress pickle_loads _ _ _
                      w task e h Hf Hh Hoff Hn)).
    destruct (Z.eqb_spec (signature_size h) 0) as [|_]; [lia|].
    rewrite Herr. reflexivity.
  - exact (get_pickled_warns home lzma_decompress pickle_loads "signature" _ _
             w task e h err Hf Hh Hoff Hsz Herr).
Qed.

(** C2, where the code departs from it: when the params section of a
    record, of a positive size, does not decompress or unpickle,
    [_get_params] does not catch the failure: the exception reaches the
    caller and nothing is logged.  (The other five accessors do catch it,
    see [trailing_accessors_degrade].) *)
Theorem params_decode_failure_propagates (w : world) (task : string)
    (e : file_entry) (h : TaskHeader) (err : exn) :
  w_fs w !! task_file home task = Some e ->
  header_of (e_data e) = Ok h ->
  0 < params_size h ->
  loads_block lzma_decompress pickle_loads
    (section_bytes header_size (params_size h) (e_data e)) = Raise err ->
  let r := _get_params home lzma_decompress pickle_loads task w in
  fst r = Raise err /\ w_log (snd r) = w_log w.
Proof.
  intros Hf Hh Hsz Herr. cbv zeta. split.
  - rewrite (get_params_run home lzma_decompress pickle_loads w task e h Hf Hh)
      by lia.
    destruct (Z.eqb_spec (params_size h) 0) as [|_]; [lia|]. exact Herr.
  - unfold _get_params. rewrite (with_open_rb_run _ _ w e Hf). cbn [snd].
    unfold bind at 1. rewrite read_header_run.
    cbn [fopen f_data f_dirty f_log]. rewrite Hh.
    destruct (Z.eqb_spec (params_size h) 0) as [|_]; [lia|].
    unfold bind. rewrite seek_run by (cbv; discriminate).
    unfold read, lift. destruct (Z.ltb_spec (params_size h) (-1)); [lia|].
    cbn [f_data f_pos f_log f_dirty snd].
    unfold add_log. cbn. apply app_nil_r.
Qed.

End RecordClaims.

(** ** The primitives of the world *)

Section WorldFacts.

Lemma isfile_run (path : string) (w : world) :
  isfile path w
  = (Ok (bool_decide (is_Some (w_fs w !! path))), add_trace [EvIsFile path] w).
Proof. reflexivity. Qed.

Lemma stat_mtime_run (path : string) (w : world) :
  stat_mtime path w
  = (match w_fs w !! path with
     | Some e => Ok (e_mtime e)
     | None => Raise FileNotFoundError
     end, add_trace [EvStat path] w).
Proof.
  unfold stat_mtime, bind, emit, modify, get. cbn [w_fs add_trace].
  destruct (w_fs w !! path); reflexivity.
Qed.

Lemma time_run (w : world) : time w = (Ok (w_clock w), w).
Proof. reflexivity. Qed.

Lemma getattr_run (ref : positive) (attr : string) (w : world) (obj : instance) :
  w_heap w !! ref = Some obj ->
  getattr ref attr w
  = (match obj !! attr with Some v => Ok v | None => Raise (AttributeError attr) end, w).
Proof.
  intros H. unfold getattr, bind, get. rewrite H.
  destruct (obj !! attr); reflexivity.
Qed.

Lemma delattr_run (ref : positive) (attr : string) (w : world) (obj : instance) (v : pyobj) :
  w_heap w !! ref = Some obj -> obj !! attr = Some v ->
  delattr ref attr w = (Ok tt, set_heap (<[ref := delete attr obj]> (w_heap w)) w).
Proof.
  intros H Hv. unfold delattr, bind, get. rewrite H, Hv. reflexivity.
Qed.

Lemma deref_run (ref : positive) (w : world) (obj : instance) :
  w_heap w !! ref = Some obj -> deref ref w = (Ok obj, w).
Proof. intros H. unfold deref, bind, get. rewrite H. reflexivity. Qed.

Lemma with_open_wb_new {A} (path : string) (body : Z -> M fstate A) (w : world) :
  w_fs w !! path = None ->
  with_open_wb path body w
  = (fst (body (w_clock w) (fopen [])),
     close path (FileEntry [] (w_clock w) true) (snd (body (w_clock w) (fopen [])))
       (add_trace [EvOpen path "wb+"] w)).
Proof.
  intros Hf. unfold with_open_wb, bind, emit, modify. cbn [w_fs add_trace w_clock].
  rewrite Hf. destruct (body _ _). reflexivity.
Qed.

End WorldFacts.

(** * [save] and the caller's object *)

Section SaveClaims.

Import TaskFile.

Variable home : string.
Variable float_bits : Z -> Z.
Variable lzma_compress : list byte -> list byte.
Variable pickle_dumps : instance -> list byte.

(** The header [save] writes for a tag field and a parameter block. *)
Definition saved_header (now : Z) (tag_bytes block : list byte) : TaskHeader :=
  {| version := 1; status := value new; tags := tag_bytes;
     new_time := now; pending_time := 0; running_time := 0; submitted_time := 0;
     aborted_time := 0; failed_time := 0; completed_time := 0; last_modified := now;
     params_size := len block; pulse_size := 0; stdout_size := 0; stderr_size := 0;
     result_size := 0; signature_size := 0 |}.

Definition save_contract (w : world) (task : string) (params : positive)
    (obj : instance) : Prop :=
  let r := save home float_bits lzma_compress pickle_dumps task params w in
  let block := lzma_compress (pickle_dumps (delete "tags" obj)) in
  (w_fs w !! task_file home task = None ->
     w_heap (snd r) !! params = Some (delete "tags" obj)
     /\ (forall tags tag_bytes,
           obj !! "tags" = Some tags ->
           tags_of_attr tags = Ok tag_bytes ->
           len block <= int32_max ->
           fst r = Ok tt
           /\ w_fs (snd r) !! task_file home task
              = Some (FileEntry
                        (header_bytes (saved_header (float_bits (w_clock w)) tag_bytes block)
                         ++ block)
                        (w_clock w) true)))
  /\ (is_Some (w_fs w !! task_file home task) ->
        fst r = Ok tt /\ w_fs (snd r) = w_fs w /\ w_heap (snd r) = w_heap w).

Lemma save_body_run (hd : TaskHeader) (block : list byte) :
  ints_fit hd ->
  bind (_write_header hd) (fun _ => write block) (fopen [])
  = (Ok tt, FState (header_bytes hd ++ block)
              (Z.to_nat header_size + length block) true []).
Proof.
  intros Hfit. unfold bind. rewrite (write_header_run hd _ Hfit).
  cbn [fopen f_data f_log]. rewrite drop_nil, app_nil_r.
  rewrite write_run by (rewrite length_header_bytes; lia).
  rewrite <- (app_nil_r (header_bytes hd)) at 1.
  rewrite overwrite_app by (symmetry; apply length_header_bytes).
  rewrite drop_nil, app_nil_r. reflexivity.
Qed.

(** C9: [save] mutates its argument.  When the task file does not exist,
    the [tags] attribute is deleted from the caller's object before the
    object is pickled, so that after the call (also one that raises) the
    object has no [tags] attribute, and the block in the new file is the
    pickle of the object without it; when the task file exists, [save]
    returns and changes neither the files nor the object. *)
Theorem save_deletes_tags_of_its_argument (w : world) (task : string)
    (params : positive) (obj : instance) :
  w_heap w !! params = Some obj ->
  save_contract w task params obj.
Proof.
  intros Hobj. unfold save_contract. cbv zeta. split.
  - intros Hnone. unfold save.
    rewrite (bind_ok _ _ _ _ _ (isfile_run _ w)). rewrite Hnone.
    rewrite bool_decide_false by (intros [? ?]; discriminate).
    set (w1 := add_trace _ w).
    rewrite (bind_ok _ _ _ _ _ (time_run w1)).
    assert (w_heap w1 !! params = Some obj) as Hobj1 by exact Hobj.
    destruct (obj !! "tags") as [tags|] eqn:Etags.
    + rewrite (bind_ok _ _ w1 w1 tags)
        by (rewrite (getattr_run _ _ _ _ Hobj1), Etags; reflexivity).
      rewrite (bind_ok _ _ _ _ _ (delattr_run _ _ _ _ _ Hobj1 Etags)).
      set (w2 := set_heap _ w1).
      assert (w_heap w2 !! params = Some (delete "tags" obj)) as Hobj2
        by apply lookup_insert_eq.
      rewrite (bind_ok _ _ _ _ _ (deref_run _ _ _ Hobj2)).
      set (block := lzma_compress (pickle_dumps (delete "tags" obj))) in *.
      split.
      * destruct (tags_of_attr tags) as [tb|err] eqn:Etb.
        -- rewrite (bind_ok _ _ w2 w2 tb) by reflexivity.
           rewrite with_open_wb_new by exact Hnone. cbn [snd]. exact Hobj2.
        -- rewrite (bind_raise _ _ w2 w2 err) by reflexivity.
           exact Hobj2.
      * intros tags' tb [= <-] Htb Hlen.
        rewrite (bind_ok _ _ w2 w2 tb) by (unfold lift; rewrite Htb; reflexivity).
        rewrite with_open_wb_new by exact Hnone. cbv beta.
        fold (saved_header (float_bits (w_clock w1)) tb block).
        rewrite save_body_run.
        -- cbn [fst snd]. split; [reflexivity|]. apply close_lookup.
        -- unfold ints_fit, sizes, saved_header. header_fields.
           repeat (apply List.Forall_cons;
                   [first [apply in_int32_len; assumption|reflexivity]|]).
           apply List.Forall_nil.
    + rewrite (bind_raise _ _ w1 w1 (AttributeError "tags"))
        by (rewrite (getattr_run _ _ _ _ Hobj1), Etags; reflexivity).
      cbn [snd]. split; [|intros tags tb [=]].
      rewrite Hobj1. f_equal. symmetry. apply delete_id, Etags.
  - intros Hsome. unfold save.
    rewrite (bind_ok _ _ _ _ _ (isfile_run _ w)).
    rewrite bool_decide_true by exact Hsome.
    unfold log, modify. cbn. repeat split.
Qed.

End SaveClaims.

(** ** The status field, as the accessor reads it *)

Section StatusFieldFacts.

Import TaskFile.

(** The four bytes the status accessor reads are those of the header's
    status field. *)
Lemma status_field (data : list byte) (h : TaskHeader) :
  header_of data = Ok h ->
  exists b0 b1 b2 b3,
    take 4 (drop 4 data) = [b0; b1; b2; b3]
    /\ status h = to_signed32 (be_decode [b0; b1; b2; b3]).
Proof.
  intros Hh. pose proof (header_of_length _ _ Hh) as L.
  unfold len in L. change header_size with 224 in L.
  unfold header_of, unpack_header in Hh.
  destruct (_ =? _); [|discriminate]. injection Hh as <-. header_fields.
  unfold int_at, slice.
  assert (take 4 (drop 4 (take (Z.to_nat header_size) data)) = take 4 (drop 4 data)) as ->.
  { change (Z.to_nat header_size) with (4 + 220)%nat.
    rewrite <- take_drop_commute, take_take. reflexivity. }
  assert (length (take 4 (drop 4 data)) = 4%nat) as L4
    by (rewrite length_take, length_drop; lia).
  destruct (take 4 (drop 4 data)) as [|b0 [|b1 [|b2 [|b3 [|]]]]]; try discriminate L4.
  exists b0, b1, b2, b3. split; reflexivity.
Qed.

(** What the accessor makes of the status field in each byte order. *)
Definition status_as_read (native : byte_order) (st : TaskStatus) : result string :=
  match native with
  | BigEndian => Ok (name st)
  | LittleEndian =>
    match st with
    | new => Ok "new"
    | _ => Raise (ValueError (pretty (value st * 2 ^ 24) +:+ " is not a valid TaskStatus"))
    end
  end.

End StatusFieldFacts.

(** * The probe *)

Section ProbeClaims.

Import TaskFile Probe.

Variable home : string.
Variable native : byte_order.
Variable float_bits : Z -> Z.
Context {fl : float_ops}.

Lemma add_trace_add_trace (e1 e2 : list event) (w : world) :
  add_trace e2 (add_trace e1 w) = add_trace (e1 ++ e2) w.
Proof. unfold add_trace. cbn. rewrite app_assoc. reflexivity. Qed.

Lemma add_trace_nil (w : world) : add_trace [] w = w.
Proof. destruct w. unfold add_trace. cbn. rewrite app_nil_r. reflexivity. Qed.

Lemma add_log_nil (w : world) : add_log [] w = w.
Proof. destruct w. unfold add_log. cbn. rewrite app_nil_r. reflexivity. Qed.

(** An entry of a hint's evidence still holds: a file recorded with an
    mtime is there with that mtime, a file recorded absent (mtime 0) is
    not there. *)
Definition evidence_holds (fs : gmap string file_entry) (fv : string * Z) : Prop :=
  (fv.2 = 0 /\ fs !! fv.1 = None)
  \/ (fv.2 <> 0 /\ exists e, fs !! fv.1 = Some e /\ e_mtime e = fv.2).

Definition still_as_recorded (fs : gmap string file_entry) (fv : string * Z) : bool :=
  if fv.2 =? 0 then negb (bool_decide (is_Some (fs !! fv.1)))
  else match fs !! fv.1 with
       | Some e => e_mtime e =? fv.2
       | None => false
       end.

Lemma still_as_recorded_spec (fs : gmap string file_entry) (fv : string * Z) :
  still_as_recorded fs fv = true <-> evidence_holds fs fv.
Proof.
  unfold still_as_recorded, evidence_holds. destruct fv as [f v]. cbn [fst snd].
  destruct (Z.eqb_spec v 0) as [->|Hv].
  - destruct (fs !! f) as [e|] eqn:E.
    + rewrite bool_decide_true by eauto. cbn. split; [discriminate|].
      intros [[_ ?]|[? _]]; [discriminate|contradiction].
    + rewrite bool_decide_false by (intros [? ?]; discriminate). cbn.
      split; auto.
  - destruct (fs !! f) as [e|] eqn:E.
    + rewrite Z.eqb_eq. split.
      * intros H. right. split; [exact Hv|]. exists e. auto.
      * intros [[? _]|[_ (e' & [= <-] & H)]]; [contradiction|exact H].
    + split; [discriminate|].
      intros [[? _]|[_ (e' & ? & _)]]; [contradiction|discriminate].
Qed.

(** The events of checking a hint: [isfile] and [stat] of its files. *)
Definition hint_event (files : list (string * Z)) (ev : event) : Prop :=
  exists f, f ∈ files.*1 /\ (ev = EvIsFile f \/ ev = EvStat f).

Lemma hint_event_cons (fv : string * Z) (files : list (string * Z)) (ev : event) :
  hint_event files ev -> hint_event (fv :: files) ev.
Proof.
  intros (f & Hin & Hev). exists f. split; [|exact Hev].
  cbn. apply elem_of_cons. right. exact Hin.
Qed.

Lemma evidence_unchanged_run (files : list (string * Z)) (w : world) :
  exists evs,
    evidence_unchanged files w
    = (Ok (forallb (still_as_recorded (w_fs w)) files), add_trace evs w)
    /\ Forall (hint_event files) evs.
Proof.
  revert w. induction files as [|[f v] files IH]; intros w.
  - exists []. rewrite add_trace_nil. split; [reflexivity|constructor].
  - cbn [evidence_unchanged forallb]. unfold still_as_recorded at 1. cbn [fst snd].
    assert (hint_event ((f, v) :: files) (EvIsFile f)) as Hev1.
    { exists f. split; [cbn; apply elem_of_cons; auto|auto]. }
    assert (hint_event ((f, v) :: files) (EvStat f)) as Hev2.
    { exists f. split; [cbn; apply elem_of_cons; auto|auto]. }
    destruct (Z.eqb_spec v 0) as [->|Hv].
    + unfold bind at 1 2. rewrite isfile_run. unfold ret at 1.
      destruct (bool_decide (is_Some (w_fs w !! f))); cbn [negb andb].
      * exists [EvIsFile f]. split; [reflexivity|]. repeat constructor. exact Hev1.
      * destruct (IH (add_trace [EvIsFile f] w)) as (evs & E & Hevs).
        exists ([EvIsFile f] ++ evs). rewrite E, add_trace_add_trace.
        split; [reflexivity|].
        constructor; [exact Hev1|].
        eapply Forall_impl; [exact Hevs|]. intros ev. apply hint_event_cons.
    + unfold bind at 1 2. rewrite isfile_run.
      destruct (w_fs w !! f) as [e|] eqn:E.
      * rewrite bool_decide_true by eauto.
        unfold bind at 1. rewrite stat_mtime_run. cbn [w_fs add_trace]. rewrite E.
        unfold ret at 1. rewrite add_trace_add_trace.
        destruct (e_mtime e =? v); cbn [andb].
        -- destruct (IH (add_trace ([EvIsFile f] ++ [EvStat f]) w)) as (evs & E' & Hevs).
           exists (([EvIsFile f] ++ [EvStat f]) ++ evs).
           rewrite E', add_trace_add_trace. split; [reflexivity|].
           constructor; [exact Hev1|]. constructor; [exact Hev2|].
           eapply Forall_impl; [exact Hevs|]. intros ev. apply hint_event_cons.
        -- exists ([EvIsFile f] ++ [EvStat f]). split; [reflexivity|].
           repeat constructor; assumption.
      * rewrite bool_decide_false by (intros [? ?]; discriminate).
        unfold ret at 1. cbn [andb].
        exists [EvIsFile f]. split; [reflexivity|]. repeat constructor. exact Hev1.
Qed.

(** What [_get_status] reads in a record. *)
Definition read_status (data : list byte) : result string :=
  match unpack_int native (take 4 (drop 4 data)) with
  | Ok v => match of_value v with
            | Ok st => Ok (name st)
            | Raise e => Raise e
            end
  | Raise e => Raise e
  end.

Lemma get_status_run (task : string) (w : world) (e : file_entry) :
  w_fs w !! task_file home task = Some e ->
  _get_status home native task w
  = (read_status (e_data e), add_trace [EvOpen (task_file home task) "rb"] w).
Proof.
  intros Hf. unfold _get_status. rewrite (with_open_rb_run _ _ w e Hf).
  unfold bind, read_status. rewrite seek_run by lia.
  unfold read, lift, ret. cbn [fopen f_data f_pos f_log f_dirty Z.ltb Z.compare Z.to_nat
                                Pos.to_nat Pos.iter_op Nat.add].
  change (Pos.to_nat 4) with 4%nat.
  destruct (unpack_int native _) as [v|err]; cbn [fst snd f_log];
    [destruct (of_value v) as [st|err]; cbn [fst snd f_log]|];
    rewrite add_log_nil; reflexivity.
Qed.

(** The status accessor on a record whose header holds the value of a
    state. *)
Lemma read_status_of_header (data : list byte) (h : TaskHeader)
    (st : TaskStatus) :
  header_of data = Ok h -> status h = value st ->
  read_status data = status_as_read native st.
Proof.
  intros Hh Hst. destruct (status_field _ _ Hh) as (b0 & b1 & b2 & b3 & Hb & Hs).
  unfold read_status, unpack_int. rewrite Hb. cbn [length Nat.eqb].
  rewrite Hst in Hs.
  pose proof (Z_of_byte_range b0) as R0. pose proof (Z_of_byte_range b1) as R1.
  pose proof (Z_of_byte_range b2) as R2. pose proof (Z_of_byte_range b3) as R3.
  unfold to_signed32, be_decode in Hs. cbn [fold_left] in Hs.
  assert (Z_of_byte b0 = 0 /\ Z_of_byte b1 = 0 /\ Z_of_byte b2 = 0
          /\ Z_of_byte b3 = value st) as (E0 & E1 & E2 & E3).
  { destruct (_ <? _) eqn:Hlt in Hs.
    - destruct st; cbn [value] in Hs |- *; lia.
    - apply Z.ltb_ge in Hlt. destruct st; cbn [value] in Hs; lia. }
  unfold status_as_read, decode_unsigned, le_decode, be_decode.
  destruct native; cbn [rev app fold_left]; rewrite E0, E1, E2, E3;
    destruct st; vm_compute; reflexivity.
Qed.


Lemma forallb_evidence (fs : gmap string file_entry) (files : list (string * Z)) :
  forallb (still_as_recorded fs) files = true <-> Forall (evidence_holds fs) files.
Proof.
  rewrite forallb_forall, List.Forall_forall. split; intros H x Hx.
  - apply still_as_recorded_spec, H, Hx.
  - apply still_as_recorded_spec, H, Hx.
Qed.

(** C5: for every task and every non-empty hint whose status is neither
    [pending] nor [running], if every file of the hint's evidence either
    is still there with exactly the recorded mtime (entries recorded with
    a nonzero mtime) or is still not there (entries recorded with mtime
    0), then [check_task] returns the empty result; it has only looked at
    the files of the hint. *)
Theorem unchanged_hint_is_reused (depth : nat) (task : string) (h : report)
    (w : world) :
  r_status h <> "pending" ->
  r_status h <> "running" ->
  Forall (evidence_holds (w_fs w)) (r_files h) ->
  exists evs,
    check_task home native float_bits (S depth) task (Some h) w
    = (Ok None, add_trace evs w)
    /\ Forall (hint_event (r_files h)) evs.
Proof.
  intros Hp Hr Hev.
  destruct (evidence_unchanged_run (r_files h) w) as (evs & E & Hevs).
  apply forallb_evidence in Hev. rewrite Hev in E.
  exists evs. split; [|exact Hevs].
  cbn [check_task].
  assert (str_in (r_status h) ["pending"; "running"] = false) as Hlive.
  { unfold str_in. cbn [existsb].
    apply String.eqb_neq in Hp, Hr. rewrite Hp, Hr. reflexivity. }
  rewrite Hlive. cbn [negb].
  rewrite (bind_ok _ _ _ _ _ E). reflexivity.
Qed.

(** A hint that does not short-circuit the probe: none, a live one, or
    one whose evidence has changed. *)
Definition hint_is_stale (w : world) (hint : option report) : Prop :=
  match hint with
  | None => True
  | Some h =>
    str_in (r_status h) ["pending"; "running"] = true
    \/ ~ Forall (evidence_holds (w_fs w)) (r_files h)
  end.

Definition hint_files (hint : option report) : list (string * Z) :=
  match hint with
  | Some h => r_files h
  | None => []
  end.

(** The first statement of [check_task] on a hint that does not
    short-circuit the probe: it looks at the files of the hint and goes
    on. *)
Lemma stale_hint_prefix (hint : option report) (w : world) :
  hint_is_stale w hint ->
  exists evs,
    (match hint with
     | Some h =>
       if negb (str_in (r_status h) ["pending"; "running"])
       then evidence_unchanged (r_files h)
       else ret false
     | None => ret false
     end) w = (Ok false, add_trace evs w)
    /\ Forall (hint_event (hint_files hint)) evs.
Proof.
  intros Hstale.
  destruct hint as [h|]; cbn [hint_is_stale hint_files] in *.
  - destruct (str_in (r_status h) ["pending"; "running"]) eqn:Hlive; cbn [negb].
    + exists []. rewrite add_trace_nil. split; [reflexivity|constructor].
    + destruct Hstale as [?|Hchanged]; [discriminate|].
      destruct (evidence_unchanged_run (r_files h) w) as (evs & E & Hevs).
      exists evs. split; [|exact Hevs]. rewrite E.
      destruct (forallb _ _) eqn:Hall; [|reflexivity].
      apply forallb_evidence in Hall. contradiction.
  - exists []. rewrite add_trace_nil. split; [reflexivity|constructor].
Qed.


(** The slip that the amended claim leaves out.  The header is packed in
    network order (['!...']) and [_get_status] unpacks its status field
    with the format ['i'], the byte order of the machine: where that is
    little-endian, the probe of a record whose stored status is
    [completed], [failed] or [aborted] raises [ValueError], whatever the
    hint that does not short-circuit it. *)
Lemma little_endian_probe_raises (depth : nat) (task : string)
    (hint : option report) (w : world) (e : file_entry) (h : TaskHeader)
    (st : TaskStatus) :
  native = LittleEndian ->
  w_fs w !! task_file home task = Some e ->
  header_of (e_data e) = Ok h ->
  status h = value st ->
  st ∈ [failed; completed; aborted] ->
  hint_is_stale w hint ->
  fst (check_task home native float_bits (S depth) task hint w)
  = Raise (ValueError (pretty (value st * 2 ^ 24) +:+ " is not a valid TaskStatus")).
Proof.
  intros Hle Hf Hh Hst Hterm Hstale.
  pose proof (read_status_of_header _ h st Hh Hst) as Hs.
  rewrite Hle in Hs. cbn [status_as_read] in Hs.
  assert (read_status (e_data e)
          = Raise (ValueError (pretty (value st * 2 ^ 24)
                               +:+ " is not a valid TaskStatus"))) as Hs'.
  { rewrite Hs. apply list_elem_of_In in Hterm. cbn in Hterm.
    destruct Hterm as [<-|[<-|[<-|[]]]]; reflexivity. }
  destruct (stale_hint_prefix hint w Hstale) as (evs & E & _).
  cbn [check_task].
  rewrite (bind_ok _ _ _ _ _ E).
  set (tf := task_file home task) in *.
  rewrite (bind_ok _ _ _ _ _ (isfile_run tf _)).
  cbn [w_fs add_trace]. rewrite Hf, bool_decide_true by eauto. cbn [negb].
  erewrite bind_ok
    by (rewrite stat_mtime_run; cbn [w_fs add_trace]; rewrite Hf; reflexivity).
  erewrite bind_raise
    by (rewrite (get_status_run task _ e) by exact Hf; rewrite Hs'; reflexivity).
  reflexivity.
Qed.

End ProbeClaims.

(** * Master tasks *)

Section MasterClaims.

Import Master.

Variable expand_time : rtval -> Z.
Variable expand_size : rtval -> Z.
Variable format_HHMMSS : Z -> string.
Context {targets_ops : sos_targets_ops}.

Abbreviation push := (Master.push expand_time expand_size format_HHMMSS).
Abbreviation merge_key := (Master.merge_key expand_time expand_size format_HHMMSS).
Abbreviation merge_keys := (Master.merge_keys expand_time expand_size format_HHMMSS).

Lemma rtval_eqb_spec (a b : rtval) : rtval_eqb a b = true <-> a = b.
Proof.
  destruct a, b; cbn; try (split; [discriminate|congruence]); try tauto.
  - rewrite Z.eqb_eq. split; congruence.
  - rewrite String.eqb_eq. split; congruence.
Qed.

(** The value of [cores] is a number when there is one. *)
Definition cores_is_int (p : TaskParams) : Prop :=
  match runtime_get (tp_sos_dict p) "cores" with
  | VStr _ => False
  | _ => True
  end.

(** The identity keys of [params] have the values they have in [first]. *)
Definition same_identity (first params : TaskParams) : Prop :=
  forall key, key ∈ identity_keys ->
    runtime_get (tp_sos_dict first) key = runtime_get (tp_sos_dict params) key.

(** [params] defines an identity key with another value than [first]. *)
Definition differs_on (first params : TaskParams) (key : string) : Prop :=
  runtime_get (tp_sos_dict params) key <> VNone
  /\ runtime_get (tp_sos_dict first) key <> runtime_get (tp_sos_dict params) key.

Definition same_batch (m m' : MasterTaskParams) : Prop :=
  task_stack m' = task_stack m /\ num_workers m' = num_workers m.

Lemma merge_key_run (params first : TaskParams) (first_id : string)
    (rest : list (string * TaskParams)) (key : string) (m : MasterTaskParams) :
  task_stack m = (first_id, first) :: rest ->
  cores_is_int first ->
  (runtime_get (tp_sos_dict first) key <> runtime_get (tp_sos_dict params) key ->
   merge_key params key m
   = (Raise (ValueError ("All tasks should have the same resource " +:+ key)), m))
  /\ (runtime_get (tp_sos_dict first) key = runtime_get (tp_sos_dict params) key ->
      exists m', merge_key params key m = (Ok tt, m') /\ same_batch m m').
Proof.
  intros Hstack Hcores. unfold Master.merge_key, bind, get. rewrite Hstack.
  split.
  - intros Hne.
    destruct (rtval_eqb _ _) eqn:E; [apply rtval_eqb_spec in E; contradiction|].
    reflexivity.
  - intros Heq. rewrite <- Heq.
    rewrite (proj2 (rtval_eqb_spec _ _) eq_refl). cbn [negb].
    destruct (runtime_get (tp_sos_dict first) key) as [|c|s] eqn:Ev.
    + eexists. split; [reflexivity|split; reflexivity].
    + destruct (String.eqb key "walltime"); [eexists; split; [reflexivity|split; reflexivity]|].
      destruct (String.eqb key "mem"); [eexists; split; [reflexivity|split; reflexivity]|].
      destruct (String.eqb key "cores"); [eexists; split; [reflexivity|split; reflexivity]|].
      destruct (String.eqb key "name"); eexists; split; reflexivity || (split; reflexivity).
    + destruct (String.eqb key "walltime"); [eexists; split; [reflexivity|split; reflexivity]|].
      destruct (String.eqb key "mem"); [eexists; split; [reflexivity|split; reflexivity]|].
      destruct (String.eqb_spec key "cores") as [->|_].
      { unfold cores_is_int in Hcores. rewrite Ev in Hcores. contradiction. }
      destruct (String.eqb key "name"); eexists; split; reflexivity || (split; reflexivity).
Qed.

Lemma merge_keys_same (params first : TaskParams) (first_id : string)
    (rest : list (string * TaskParams)) (keys : list string) (m : MasterTaskParams) :
  task_stack m = (first_id, first) :: rest ->
  cores_is_int first ->
  (forall key, key ∈ keys ->
     runtime_get (tp_sos_dict first) key = runtime_get (tp_sos_dict params) key) ->
  exists m', merge_keys params keys m = (Ok tt, m') /\ same_batch m m'.
Proof.
  intros Hstack Hcores. revert m Hstack.
  induction keys as [|key keys IH]; intros m Hstack Hsame.
  - exists m. split; [reflexivity|split; reflexivity].
  - cbn [Master.merge_keys].
    destruct (proj2 (merge_key_run params first first_id rest key m Hstack Hcores))
      as (m1 & E1 & Hs1 & Hn1).
    { apply Hsame. apply elem_of_cons. auto. }
    rewrite (bind_ok _ _ _ _ _ E1).
    destruct (IH m1) as (m2 & E2 & Hs2 & Hn2).
    + rewrite Hs1. exact Hstack.
    + intros k Hk. apply Hsame. apply elem_of_cons. auto.
    + exists m2. split; [exact E2|]. split; congruence.
Qed.

Lemma merge_keys_differ (params first : TaskParams) (first_id : string)
    (rest : list (string * TaskParams)) (keys : list string) (m : MasterTaskParams) :
  task_stack m = (first_id, first) :: rest ->
  cores_is_int first ->
  (exists key, key ∈ keys /\
     runtime_get (tp_sos_dict first) key <> runtime_get (tp_sos_dict params) key) ->
  exists key m',
    key ∈ keys
    /\ runtime_get (tp_sos_dict first) key <> runtime_get (tp_sos_dict params) key
    /\ merge_keys params keys m
       = (Raise (ValueError ("All tasks should have the same resource " +:+ key)), m').
Proof.
  intros Hstack Hcores. revert m Hstack.
  induction keys as [|key keys IH]; intros m Hstack (k & Hk & Hne).
  - apply elem_of_nil in Hk. contradiction.
  - cbn [Master.merge_keys].
    destruct (merge_key_run params first first_id rest key m Hstack Hcores) as (Hbad & Hgood).
    assert (runtime_get (tp_sos_dict first) key = runtime_get (tp_sos_dict params) key
            \/ runtime_get (tp_sos_dict first) key <> runtime_get (tp_sos_dict params) key)
      as [Heq|Hneq].
    { destruct (rtval_eqb (runtime_get (tp_sos_dict first) key)
                  (runtime_get (tp_sos_dict params) key)) eqn:E.
      - left. apply rtval_eqb_spec, E.
      - right. intros Heq. apply rtval_eqb_spec in Heq. congruence. }
    + destruct (Hgood Heq) as (m1 & E1 & Hs1 & Hn1).
      rewrite (bind_ok _ _ _ _ _ E1).
      destruct (IH m1) as (k' & m' & Hk' & Hne' & E').
      * rewrite Hs1. exact Hstack.
      * exists k. split; [|exact Hne].
        apply elem_of_cons in Hk as [->|Hk]; [contradiction|exact Hk].
      * exists k', m'. split; [apply elem_of_cons; auto|]. split; [exact Hne'|exact E'].
    + exists key, m. split; [apply elem_of_cons; auto|]. split; [exact Hneq|].
      rewrite (bind_raise _ _ _ _ _ (Hbad Hneq)). reflexivity.
Qed.


Definition push_contract (m : MasterTaskParams) (task_id : string)
    (params first : TaskParams) : Prop :=
  ((exists key, key ∈ identity_keys /\ differs_on first params key) ->
     exists key,
       key ∈ identity_keys
       /\ fst (push task_id params m)
          = Raise (ValueError ("All tasks should have the same resource " +:+ key)))
  /\ (same_identity first params ->
        fst (push task_id params m) = Ok tt
        /\ task_stack (snd (push task_id params m))
           = task_stack m ++ [(task_id, params)]).

(** C8: for every master that already holds a sub-task, a push of
    parameters that define, for some identity key ([walltime],
    [max_walltime], [cores], [max_cores], [mem], [max_mem], [name],
    [cur_dir], [home_dir]), a value different from the one of the first
    pushed sub-task raises the configuration error [ValueError('All tasks
    should have the same resource ...')]; a push whose identity-key values
    all are those of the first sub-task does not raise, and the sub-task
    is appended.  (The [_runtime] mapping is well typed, [cores] a number,
    and the pushed object has its [tags].) *)
Theorem push_requires_the_same_identity (m : MasterTaskParams) (task_id : string)
    (params first : TaskParams) (first_id : string)
    (rest : list (string * TaskParams)) (tags : list string) :
  task_stack m = (first_id, first) :: rest ->
  cores_is_int first ->
  tp_tags params = Some tags ->
  push_contract m task_id params first.
Proof.
  intros Hstack Hcores Htags. split.
  - intros (key & Hkey & _ & Hne).
    destruct (merge_keys_differ params first first_id rest identity_keys m Hstack Hcores)
      as (k & m' & Hk & _ & E); [eauto|].
    exists k. split; [exact Hk|].
    unfold Master.push, bind at 1, get. rewrite Hstack.
    unfold bind at 1. unfold bind at 1. rewrite E. reflexivity.
  - intros Hsame.
    destruct (merge_keys_same params first first_id rest identity_keys m Hstack Hcores Hsame)
      as (m' & E & Hs & Hn).
    assert (exists m2,
              push task_id params m = (Ok tt, m2)
              /\ task_stack m2 = task_stack m ++ [(task_id, params)]) as (m2 & E2 & Hs2).
    { unfold Master.push, bind at 1, get. rewrite Hstack.
      unfold bind at 1. unfold bind at 1. rewrite E.
      unfold tags_of. rewrite Htags.
      unfold bind, ret, modify. eexists. split; [reflexivity|].
      cbn [task_stack set_tags set_sos_dict]. rewrite Hs, Hstack. reflexivity. }
    rewrite E2. split; [reflexivity|exact Hs2].
Qed.

(** A sub-task that asks for 2 cores and the walltime [walltime]. *)
Definition two_core_task (walltime : rtval) (tags : list string) : TaskParams :=
  {| tp_name := ""; tp_global_def := ""; tp_task := "";
     tp_sos_dict := {| _runtime := <["cores" := VInt 2]> {["walltime" := walltime]};
                       step_name := ""; _input := None; _output := None;
                       _depends := None |};
     tp_tags := Some tags |}.

Definition one_hour : rtval := VStr "1h".

(** C7: five sub-tasks, each asking for 2 cores and one hour, pushed into
    a master made with [num_workers=2]: every push returns, and the master
    asks for 2 x 2 + 1 = 5 cores and for three times the hour (three rows
    of two columns). *)
Theorem five_two_core_tasks_on_two_workers
    (id1 id2 id3 id4 id5 : string) (t1 t2 t3 t4 t5 : list string) :
  let r := (push id1 (two_core_task one_hour t1) ;;
            push id2 (two_core_task one_hour t2) ;;
            push id3 (two_core_task one_hour t3) ;;
            push id4 (two_core_task one_hour t4) ;;
            push id5 (two_core_task one_hour t5)) (init 2) in
  fst r = Ok tt
  /\ num_tasks (snd r) = 5%nat
  /\ _runtime (sos_dict (snd r)) !! "cores" = Some (VInt (2 * 2 + 1))
  /\ _runtime (sos_dict (snd r)) !! "walltime"
     = Some (VStr (format_HHMMSS (3 * expand_time one_hour))).
Proof.
  cbv zeta. repeat split; vm_compute; reflexivity.
Qed.

End MasterClaims.

(** * The tag field *)

Section TagFacts.

Import TaskFile Unicode.

Variable home : string.

(** A string of ASCII characters: as many bytes as characters. *)
Definition ascii (s : pystr) : Prop := Forall (fun c => 0 <= c < 128) s.

(** A tag that is not empty, of ASCII characters none of which is white
    space. *)
Definition plain_tag (t : pystr) : Prop :=
  t <> [] /\ Forall (fun c => 0 <= c < 128 /\ is_space c = false) t.

(** A string that neither starts nor ends with white space. *)
Definition starts_black (s : pystr) : Prop :=
  match s with
  | [] => True
  | c :: _ => is_space c = false
  end.

Lemma encode_char_ascii (c : Z) :
  0 <= c < 128 -> encode_char c = Ok [byte_of_Z c].
Proof.
  intros H. unfold encode_char, is_surrogate.
  destruct (Z.ltb_spec c 0); [lia|].
  destruct (Z.ltb_spec 1114111 c); [lia|].
  destruct (Z.leb_spec 55296 c); [lia|]. cbn [orb andb].
  destruct (Z.ltb_spec c 128); [reflexivity|lia].
Qed.

Lemma encode_ascii (s : pystr) :
  ascii s -> encode s = Ok (map byte_of_Z s).
Proof.
  induction 1 as [|c s Hc Hs IH]; [reflexivity|].
  cbn [encode map]. rewrite (encode_char_ascii c Hc), IH. reflexivity.
Qed.

Lemma decode_ascii (s : pystr) :
  ascii s -> decode (map byte_of_Z s) = Ok s.
Proof.
  induction 1 as [|c s Hc Hs IH]; [reflexivity|].
  cbn [map decode]. rewrite Z_of_byte_of_Z, Z.mod_small by lia.
  destruct (Z.ltb_spec c 128); [|lia]. rewrite IH. reflexivity.
Qed.

Lemma insert_sorted_perm (s : pystr) (l : list pystr) :
  insert_sorted s l ≡ₚ s :: l.
Proof.
  induction l as [|t l IH]; [reflexivity|].
  cbn [insert_sorted]. destruct (str_leb s t); [reflexivity|].
  rewrite IH. apply Permutation_swap.
Qed.

Lemma sorted_perm (l : list pystr) : sorted l ≡ₚ l.
Proof.
  induction l as [|t l IH]; [reflexivity|].
  unfold sorted in *. cbn [foldr]. rewrite insert_sorted_perm, IH. reflexivity.
Qed.

Lemma plain_tag_ascii (t : pystr) : plain_tag t -> ascii t.
Proof.
  intros [_ H]. eapply Forall_impl; [exact H|]. intros c [Hc _]. exact Hc.
Qed.

Lemma join_cons (t : pystr) (l : list pystr) :
  l <> [] -> join (t :: l) = t ++ space :: join l.
Proof. destruct l; [congruence|reflexivity]. Qed.

Lemma join_ascii (l : list pystr) : Forall plain_tag l -> ascii (join l).
Proof.
  induction 1 as [|t l Ht Hl IH]; [constructor|].
  destruct l as [|t' l'].
  - apply plain_tag_ascii, Ht.
  - rewrite join_cons by discriminate.
    apply Forall_app. split; [apply plain_tag_ascii, Ht|].
    constructor; [unfold space; lia|exact IH].
Qed.

Lemma join_nonempty (l : list pystr) :
  Forall plain_tag l -> l <> [] -> join l <> [].
Proof.
  intros H Hne. destruct H as [|t l [Ht _] Hl]; [congruence|].
  destruct l as [|t' l'].
  - exact Ht.
  - rewrite join_cons by discriminate. destruct t; [congruence|discriminate].
Qed.

Lemma join_starts_black (l : list pystr) :
  Forall plain_tag l -> starts_black (join l).
Proof.
  intros H. destruct H as [|t l [Ht Hc] Hl]; [exact I|].
  assert (starts_black t) as Hb.
  { destruct Hc as [|c t' [_ Hc] _]; [exact I|exact Hc]. }
  destruct l as [|t' l'].
  - exact Hb.
  - rewrite join_cons by discriminate.
    destruct t as [|c t'']; [congruence|exact Hb].
Qed.

Lemma starts_black_app (a b : pystr) :
  a <> [] -> starts_black a -> starts_black (a ++ b).
Proof. destruct a; [congruence|auto]. Qed.

Lemma join_ends_black (l : list pystr) :
  Forall plain_tag l -> starts_black (rev (join l)).
Proof.
  induction 1 as [|t l Ht Hl IH]; [exact I|].
  assert (starts_black (rev t)) as Hb.
  { destruct Ht as [_ Hc]. apply Forall_rev in Hc.
    destruct Hc as [|c t' [_ Hc] _]; [exact I|exact Hc]. }
  destruct l as [|t' l'].
  - exact Hb.
  - rewrite join_cons by discriminate.
    rewrite rev_app_distr. cbn [rev]. rewrite <- !app_assoc.
    apply starts_black_app; [|exact IH].
    intros Hnil. apply (f_equal (@rev Z)) in Hnil. rewrite rev_involutive in Hnil.
    revert Hnil. apply join_nonempty; [exact Hl|discriminate].
Qed.

Lemma lstrip_black (s : pystr) : starts_black s -> lstrip s = s.
Proof.
  destruct s as [|c s]; [reflexivity|]. cbn. intros ->. reflexivity.
Qed.

Lemma lstrip_spaces (k : nat) (s : pystr) :
  lstrip (replicate k space ++ s) = lstrip s.
Proof. induction k as [|k IH]; [reflexivity|exact IH]. Qed.

Lemma rev_replicate_space (k : nat) : rev (replicate k space) = replicate k space.
Proof.
  induction k as [|k IH]; [reflexivity|].
  cbn [replicate rev]. rewrite IH.
  clear IH. induction k as [|k IH]; [reflexivity|]. cbn. rewrite IH. reflexivity.
Qed.

(** [strip] takes the padding of [ljust] off again. *)
Lemma strip_padded (s : pystr) (k : nat) :
  starts_black s -> starts_black (rev s) ->
  strip (s ++ replicate k space) = s.
Proof.
  intros Hs Hr. unfold strip, rstrip.
  destruct s as [|c s'].
  - cbn [app]. rewrite <- (app_nil_r (replicate k space)), lstrip_spaces. reflexivity.
  - rewrite (lstrip_black ((c :: s') ++ replicate k space)) by exact Hs.
    rewrite rev_app_distr, rev_replicate_space, lstrip_spaces.
    rewrite lstrip_black by exact Hr. apply rev_involutive.
Qed.


(** [header._replace(tags=b)] *)
Definition with_tags (b : list byte) (h : TaskHeader) : TaskHeader :=
  mkTaskHeader (version h) (status h) b (new_time h) (pending_time h)
    (submitted_time h) (running_time h) (aborted_time h) (failed_time h)
    (completed_time h) (last_modified h) (params_size h) (pulse_size h)
    (stdout_size h) (stderr_size h) (result_size h) (signature_size h).

Lemma slice_before (a m r : list byte) (off n : nat) :
  (off + n <= length a)%nat ->
  slice off n (a ++ m ++ r) = slice off n a.
Proof.
  intros H. unfold slice. rewrite drop_app_le by lia.
  rewrite take_app_le by (rewrite length_drop; lia). reflexivity.
Qed.

Lemma slice_after (a m r : list byte) (off n : nat) :
  (length a + length m <= off)%nat ->
  slice off n (a ++ m ++ r) = slice (off - length a - length m) n r.
Proof.
  intros H. unfold slice. rewrite app_assoc, drop_app_ge by (rewrite length_app; lia).
  rewrite length_app. do 2 f_equal. lia.
Qed.

Lemma slice_middle (a m r : list byte) :
  slice (length a) (length m) (a ++ m ++ r) = m.
Proof.
  unfold slice. rewrite drop_app_length. apply take_app_length.
Qed.

(** Replacing the 128 bytes at offset 8 replaces the tags and nothing
    else of the header. *)
Lemma unpack_header_with_tags (a m m' r : list byte) (h : TaskHeader) :
  length a = 8%nat -> length m = 128%nat -> length m' = 128%nat ->
  unpack_header (a ++ m ++ r) = Ok h ->
  unpack_header (a ++ m' ++ r) = Ok (with_tags m' h).
Proof.
  intros La Lm Lm'. unfold unpack_header.
  rewrite !length_app, Lm, Lm'.
  destruct (Z.of_nat _ =? header_size); [|discriminate].
  intros [= <-]. unfold with_tags. header_fields.
  unfold int_at, double_at, tags_width.
  f_equal. f_equal.
  all: try (rewrite !slice_before by lia; reflexivity).
  all: try (rewrite !slice_after by lia; rewrite La, Lm, Lm'; reflexivity).
  pose proof (slice_middle a m' r) as Hm. rewrite La, Lm' in Hm. exact Hm.
Qed.

Lemma write_fresh_run (b d : list byte) (p : nat) (dirty : bool) (lg : list log_record) :
  b <> [] -> (p <= length d)%nat ->
  write b (FState d p dirty lg)
  = (Ok tt, FState (overwrite p b d) (p + length b) true lg).
Proof.
  intros Hb H. unfold write. destruct b as [|x b]; [congruence|].
  cbn [f_data f_pos f_log]. unfold overwrite.
  replace (p - length d)%nat with 0%nat by lia. reflexivity.
Qed.

(** The first [header_size] bytes of a record, in three pieces. *)
Lemma header_pieces (data : list byte) :
  (Z.to_nat header_size <= length data)%nat ->
  take (Z.to_nat header_size) data
  = take 8 data ++ slice 8 128 data ++ slice 136 88 data.
Proof.
  intros L. unfold slice.
  rewrite <- (take_drop 8 data) at 1.
  rewrite take_app_ge
    by (rewrite length_take; change (Z.to_nat header_size) with 224%nat in *; lia).
  f_equal. rewrite length_take.
  replace (Z.to_nat header_size - 8 `min` length data)%nat with (128 + 88)%nat
    by (change (Z.to_nat header_size) with 224%nat in *; lia).
  rewrite <- take_take_drop. f_equal. rewrite drop_drop. reflexivity.
Qed.

Definition tags_contract (w : world) (task : string) (e : file_entry)
    (h : TaskHeader) (tags : list pystr) : Prop :=
  let r := _set_tags home task tags w in
  exists data' h',
    fst r = Ok tt
    /\ w_fs (snd r) = <[task_file home task := FileEntry data' (w_clock w) true]> (w_fs w)
    /\ header_of data' = Ok h'
    /\ version h' = version h /\ status h' = status h
    /\ times h' = times h /\ sizes h' = sizes h
    /\ drop (Z.to_nat header_size) data' = drop (Z.to_nat header_size) (e_data e)
    /\ fst (_get_tags home task (snd r)) = Ok (join (sorted tags)).

(** X28: for tags of ASCII characters C10 holds: the setter writes
    exactly the 128 bytes of the tag field, and the getter returns the
    sorted, space-joined tags. *)
Lemma ascii_tags_round_trip (w : world) (task : string) (e : file_entry)
    (h : TaskHeader) (tags : list pystr) :
  w_fs w !! task_file home task = Some e ->
  e_writable e = true ->
  header_of (e_data e) = Ok h ->
  Forall plain_tag tags ->
  (length (join (sorted tags)) <= 128)%nat ->
  tags_contract w task e h tags.
Proof.
  intros Hf Hw Hh Hplain Hlen. unfold tags_contract. cbv zeta.
  set (text := join (sorted tags)) in *.
  set (padded := ljust tags_width text).
  set (b := map byte_of_Z padded).
  assert (Forall plain_tag (sorted tags)) as Hsorted.
  { rewrite sorted_perm. exact Hplain. }
  assert (ascii padded) as Hascii.
  { unfold padded, ljust. apply Forall_app. split; [apply join_ascii, Hsorted|].
    apply Forall_replicate. unfold space. lia. }
  assert (length b = 128%nat) as Lb.
  { unfold b, padded, ljust, tags_width.
    rewrite length_map, length_app, length_replicate. lia. }
  assert (tags_field tags = Ok b) as Hfield by (apply encode_ascii, Hascii).
  pose proof (header_of_length _ _ Hh) as L.
  assert (Z.to_nat header_size <= length (e_data e))%nat as L'
    by (unfold len in L; lia).
  set (data' := take 8 (e_data e) ++ b ++ drop 136 (e_data e)).
  assert (_set_tags home task tags w
          = (Ok tt, close (task_file home task) e
                      (FState data' (8 + length b) true [])
                      (add_trace [EvOpen (task_file home task) "r+b"] w))) as Hset.
  { unfold _set_tags. rewrite (with_open_rw_run _ _ w e Hf Hw).
    unfold bind. rewrite seek_run by lia. unfold lift. rewrite Hfield.
    cbn [fopen f_data f_dirty f_log].
    rewrite write_fresh_run
      by (first [intros ->; discriminate Lb
                |change (Z.to_nat 8) with 8%nat;
                 change (Z.to_nat header_size) with 224%nat in L'; lia]).
    cbn [fst snd]. unfold overwrite, data'. change (Z.to_nat 8) with 8%nat.
    rewrite Lb. reflexivity. }
  assert (header_of data' = Ok (with_tags b h)) as Hh'.
  { unfold header_of in *. unfold data'.
    assert (take (Z.to_nat header_size) (take 8 (e_data e) ++ b ++ drop 136 (e_data e))
            = take 8 (e_data e) ++ b ++ slice 136 88 (e_data e)) as ->.
    { rewrite take_app_ge
        by (rewrite length_take; change (Z.to_nat header_size) with 224%nat in *; lia).
      f_equal. rewrite length_take.
      replace (Z.to_nat header_size - 8 `min` length (e_data e))%nat
        with (length b + 88)%nat
        by (change (Z.to_nat header_size) with 224%nat in *; lia).
      rewrite take_app_ge by lia. f_equal.
      replace (length b + 88 - length b)%nat with 88%nat by lia. reflexivity. }
    rewrite (header_pieces _ L') in Hh.
    apply (unpack_header_with_tags _ (slice 8 128 (e_data e)) _ _ h);
      [rewrite length_take; change (Z.to_nat header_size) with 224%nat in *; lia
      |apply slice_length; change (Z.to_nat header_size) with 224%nat in *; lia
      |exact Lb|exact Hh]. }
  exists data', (with_tags b h).
  rewrite Hset. cbn [fst snd].
  split; [reflexivity|].
  split.
  { unfold close. cbn [w_fs set_fs add_log add_trace f_data f_dirty w_clock].
    rewrite Hw. reflexivity. }
  split; [exact Hh'|].
  do 4 (split; [reflexivity|]).
  split.
  { unfold data'. rewrite !app_assoc, drop_app_ge
      by (rewrite length_app, length_take;
          change (Z.to_nat header_size) with 224%nat in *; lia).
    rewrite length_app, length_take, drop_drop. f_equal.
    change (Z.to_nat header_size) with 224%nat in *. lia. }
  unfold _get_tags.
  erewrite with_open_rb_run by apply close_lookup.
  cbn [fst e_data f_data].
  unfold bind. rewrite seek_run by lia.
  unfold read, lift, ret. cbn [fopen f_data f_pos f_dirty f_log Z.ltb Z.compare].
  change (Z.to_nat 8) with 8%nat. change (Z.to_nat 128) with 128%nat.
  assert (take 128 (drop 8 data') = b) as ->.
  { unfold data'. rewrite drop_app_length'
      by (rewrite length_take; change (Z.to_nat header_size) with 224%nat in *; lia).
    rewrite <- Lb. apply take_app_length. }
  unfold b. rewrite (decode_ascii _ Hascii). cbn [fst].
  f_equal. unfold padded, ljust.
  apply strip_padded; [apply join_starts_black|apply join_ends_black]; exact Hsorted.
Qed.

End TagFacts.

(** ** The claims on the sample installation *)

Section RecordExamples.

Import TaskFile.

(** C6: the setter on the sample record. *)
Lemma status_setter_contract_witness :
  status_contract Sample.home Sample.float_bits
    Sample.world0 Sample.task Sample.entry0 Sample.header0.
Proof.
  apply (status_setter_contract Sample.home Sample.float_bits
           Sample.world0 Sample.task Sample.entry0 Sample.header0).
  - vm_compute. reflexivity.
  - reflexivity.
  - vm_compute. reflexivity.
  - unfold is_double. vm_compute. split; [discriminate|reflexivity].
Defined.

(** C6 as stated fails: [new] is an enumerated state, and the setter
    raises on it. *)
Lemma setter_rejects_new :
  ~ (forall st : TaskStatus,
       fst (_set_status Sample.home Sample.float_bits Sample.task (name st)
              Sample.world0) = Ok tt).
Proof.
  intros H. specialize (H new). vm_compute in H. discriminate H.
Qed.

(** C3: [reset] on the completed sample record. *)
Lemma reset_keeps_params_witness :
  reset_contract Sample.home Sample.float_bits Sample.lzma_compress
    Sample.pickle_dumps Sample.world1 Sample.task Sample.entry1 Sample.header1.
Proof.
  apply (reset_keeps_params Sample.home Sample.float_bits Sample.lzma_compress
           Sample.pickle_dumps Sample.world1 Sample.task Sample.entry1 Sample.header1).
  - vm_compute. reflexivity.
  - reflexivity.
  - vm_compute. reflexivity.
  - unfold is_double. vm_compute. split; [discriminate|reflexivity].
  - vm_compute. discriminate.
Defined.

(** C3 as stated fails: after [reset] the status is [new], not the
    [pending] that [update] sets. *)
Lemma reset_sets_new_not_pending :
  Sample.status_in (snd (reset Sample.home Sample.float_bits Sample.task Sample.world1))
  = Ok (value new)
  /\ Sample.status_in
       (snd (update Sample.home Sample.float_bits Sample.lzma_compress
               Sample.pickle_dumps Sample.task ∅ Sample.world1))
     = Ok (value pending)
  /\ value new <> value pending.
Proof.
  split; [vm_compute; reflexivity|].
  split; [vm_compute; reflexivity|discriminate].
Qed.

(** C1: the life of the sample record, [update], [add_outputs],
    [add_result], [add_signature]. *)
Lemma writers_keep_the_record_consistent_witness :
  kept_along Sample.home Sample.float_bits Sample.lzma_compress
    Sample.lzma_decompress Sample.pickle_dumps Sample.pickle_dumps_dict
    Sample.pickle_loads Sample.task
    [Update ∅; AddOutputs; AddResult (PDict []); AddSignature (PDict [])]
    Sample.world0.
Proof.
  apply (writers_keep_the_record_consistent Sample.home Sample.float_bits
           Sample.lzma_compress Sample.lzma_decompress Sample.pickle_dumps
           Sample.pickle_dumps_dict Sample.pickle_loads
           Sample.world0 Sample.task Sample.entry0 Sample.header0).
  - vm_compute. reflexivity.
  - reflexivity.
  - split; [vm_compute; reflexivity|].
    split; [|vm_compute; reflexivity].
    vm_compute. repeat (apply List.Forall_cons; [discriminate|]). apply List.Forall_nil.
  - cbn [all_append].
    do 4 (split;
          [intros e h He Hh;
           vm_compute in He; injection He as <-;
           vm_compute in Hh; injection Hh as <-;
           vm_compute; repeat split; first [reflexivity|discriminate]|]).
    exact I.
Defined.

(** C1 as stated fails: a second, shorter result leaves the old tail in
    the file, and the header no longer adds up to the file length. *)
Lemma shorter_result_breaks_the_invariant :
  consistent Sample.record1 Sample.header1
  /\ let w' := snd (add_result Sample.home Sample.lzma_compress Sample.pickle_dumps_dict
                      Sample.task (PDict []) Sample.world1) in
     exists h',
       Sample.header_in w' = Ok h'
       /\ header_size + total_size h' <> len (Sample.record_in w').
Proof.
  split.
  - split; [vm_compute; reflexivity|].
    split; [|vm_compute; reflexivity].
    vm_compute. repeat (apply List.Forall_cons; [discriminate|]). apply List.Forall_nil.
  - cbv zeta. eexists. split; [vm_compute; reflexivity|].
    vm_compute. discriminate.
Qed.

(** The slip in [add_outputs]: on a record with a result it calls
    [_reset], which truncates the file and writes a cleared header, and
    then writes back the header it had read before, with the old status
    and the old [result_size]: the header counts ten bytes that are no
    longer in the file, and the result accessor falls back to its
    sentinel. *)
Example add_outputs_keeps_the_stale_result_size :
  let w' := snd (add_outputs Sample.home Sample.float_bits Sample.lzma_compress
                   Sample.task Sample.world1) in
  len (Sample.record_in w') = header_size + len Sample.params_block
  /\ Sample.status_in w' = Ok (value completed)
  /\ Sample.sizes_in w' = Ok [len Sample.params_block; 0; 0; 0; 10; 0]
  /\ fst (_get_result Sample.home Sample.lzma_decompress Sample.pickle_loads
            Sample.task w') = Ok ret_code_1.
Proof. cbv zeta. split; [|split; [|split]]; vm_compute; reflexivity. Qed.

(** C2: the parameter accessor on the corrupt sample record. *)
Lemma params_decode_failure_propagates_witness :
  let r := _get_params Sample.home Sample.lzma_decompress Sample.pickle_loads
             Sample.task Sample.corrupt_world in
  fst r = Raise LZMAError /\ w_log (snd r) = w_log Sample.corrupt_world.
Proof.
  apply (params_decode_failure_propagates Sample.home Sample.lzma_decompress
           Sample.pickle_loads Sample.corrupt_world Sample.task Sample.corrupt_entry
           Sample.header0 LZMAError).
  - vm_compute. reflexivity.
  - vm_compute. reflexivity.
  - vm_compute. reflexivity.
  - vm_compute. reflexivity.
Defined.

(** C9: [save] of the sample object where no record exists. *)
Lemma save_deletes_tags_of_its_argument_witness :
  save_contract Sample.home Sample.float_bits Sample.lzma_compress
    Sample.pickle_dumps Sample.fresh_world Sample.task Sample.params_ref
    Sample.params_obj.
Proof.
  apply (save_deletes_tags_of_its_argument Sample.home Sample.float_bits
           Sample.lzma_compress Sample.pickle_dumps Sample.fresh_world Sample.task
           Sample.params_ref Sample.params_obj).
  vm_compute. reflexivity.
Defined.

(** What C9 says, run: after [save] the caller's object has lost its
    [tags], and the record exists. *)
Example save_on_the_sample_object :
  let r := save Sample.home Sample.float_bits Sample.lzma_compress
             Sample.pickle_dumps Sample.task Sample.params_ref Sample.fresh_world in
  fst r = Ok tt
  /\ (w_heap (snd r) !! Sample.params_ref) ≫= (fun obj => obj !! "tags") = None
  /\ Sample.status_in (snd r) = Ok (value new).
Proof. cbv zeta. repeat split; vm_compute; reflexivity. Qed.

(** C10, where the code departs from it: the tag [e-acute] is one
    character and two bytes, the padded field 128 characters and 129
    bytes, and the byte past the field is the first byte of [new_time]:
    the setter changes that timestamp.  Reading the tags back gives the
    tag. *)
Theorem accented_tag_spills_into_new_time :
  let r := _set_tags Sample.home Sample.task Sample.accented_tags Sample.world0 in
  Unicode.encode (Unicode.join (Unicode.sorted Sample.accented_tags)) = Ok [xc3; xa9]
  /\ length <$> (match tags_field Sample.accented_tags with
                 | Ok b => Some b
                 | Raise _ => None
                 end) = Some 129%nat
  /\ fst r = Ok tt
  /\ fst (_get_tags Sample.home Sample.task (snd r)) = Ok [233]
  /\ Sample.new_time_in Sample.world0 = Ok 100
  /\ Sample.new_time_in (snd r) = Ok (100 + 32 * 2 ^ 56).
Proof.
  cbv zeta. split; [|split; [|split; [|split; [|split]]]]; vm_compute; reflexivity.
Qed.

End RecordExamples.

Section ProbeExamples.

Import TaskFile Probe.

#[local] Existing Instance Sample.exact_floats.

(** C5: the hint left for the completed sample task, nothing changed. *)
Lemma unchanged_hint_is_reused_witness :
  exists evs,
    check_task Sample.home Sample.native Sample.float_bits 1 Sample.task
      (Some Sample.hint1) Sample.world1
    = (Ok None, add_trace evs Sample.world1)
    /\ Forall (hint_event (r_files Sample.hint1)) evs.
Proof.
  apply (unchanged_hint_is_reused Sample.home Sample.native Sample.float_bits
           0 Sample.task Sample.hint1 Sample.world1).
  - discriminate.
  - discriminate.
  - apply List.Forall_cons; [|apply List.Forall_nil].
    right. split; [discriminate|].
    exists Sample.entry1. split; vm_compute; reflexivity.
Defined.



(** On a machine that stores the least significant byte first, the
    status accessor reads the big-endian field of the header with the
    native format and rejects every status but [new]. *)
Remark little_endian_misreads_the_status :
  fst (_get_status Sample.home LittleEndian Sample.task Sample.world1)
  = Raise (ValueError "100663296 is not a valid TaskStatus").
Proof. vm_compute. reflexivity. Qed.

End ProbeExamples.

Section MasterExamples.

Import Master.

#[local] Existing Instance Sample.plain_targets.

(** The master after one push of a two-core, one-hour sub-task. *)
Definition master1 : MasterTaskParams :=
  snd (push Sample.expand_time Sample.expand_size Sample.format_HHMMSS
         "t1" (two_core_task one_hour ["a"]) (init 2)).

(** C8: a second sub-task with the same requirements. *)
Lemma push_requires_the_same_identity_witness :
  push_contract Sample.expand_time Sample.expand_size Sample.format_HHMMSS
    master1 "t2" (two_core_task one_hour ["b"]) (two_core_task one_hour ["a"]).
Proof.
  apply (push_requires_the_same_identity Sample.expand_time Sample.expand_size
           Sample.format_HHMMSS master1 "t2" (two_core_task one_hour ["b"])
           (two_core_task one_hour ["a"]) "t1" [] ["b"]).
  - vm_compute. reflexivity.
  - vm_compute. exact I.
  - reflexivity.
Defined.

(** The scenario of the specification: two sub-tasks with different
    [cores]. *)
Example different_cores_are_refused :
  let other :=
    {| tp_name := ""; tp_global_def := ""; tp_task := "";
       tp_sos_dict := {| _runtime := <["cores" := VInt 4]> {["walltime" := one_hour]};
                         step_name := ""; _input := None; _output := None;
                         _depends := None |};
       tp_tags := Some ["b"] |} in
  fst (push Sample.expand_time Sample.expand_size Sample.format_HHMMSS
         "t2" other master1)
  = Raise (ValueError "All tasks should have the same resource cores").
Proof. vm_compute. reflexivity. Qed.

(** C7 with the stand-ins: five cores, three hours. *)
Example five_tasks_ask_for_three_hours :
  let r := (push Sample.expand_time Sample.expand_size Sample.format_HHMMSS
              "t1" (two_core_task one_hour []) ;;
            push Sample.expand_time Sample.expand_size Sample.format_HHMMSS
              "t2" (two_core_task one_hour []) ;;
            push Sample.expand_time Sample.expand_size Sample.format_HHMMSS
              "t3" (two_core_task one_hour []) ;;
            push Sample.expand_time Sample.expand_size Sample.format_HHMMSS
              "t4" (two_core_task one_hour []) ;;
            push Sample.expand_time Sample.expand_size Sample.format_HHMMSS
              "t5" (two_core_task one_hour [])) (init 2) in
  _runtime (sos_dict (snd r)) !! "cores" = Some (VInt 5)
  /\ _runtime (sos_dict (snd r)) !! "walltime" = Some (VStr "03:00:00")
  /\ ID (snd r) = "M5_t1".
Proof. cbv zeta. repeat split; vm_compute; reflexivity. Qed.

End MasterExamples.

(** * Further properties of the task record *)

Section RecordExtras.

Import TaskFile.

Variable home : string.
Variable float_bits : Z -> Z.
Variable lzma_compress : list byte -> list byte.
Variable lzma_decompress : list byte -> result (list byte).
Variable pickle_dumps : instance -> list byte.
Variable pickle_dumps_dict : pyobj -> list byte.
Variable pickle_loads : list byte -> result pyobj.

(** The tag field as [struct] stores it. *)
Definition stored (h : TaskHeader) : TaskHeader :=
  with_tags (pack_bytes tags_width (tags h)) h.

Lemma header_bytes_stored (h : TaskHeader) : header_bytes (stored h) = header_bytes h.
Proof.
  unfold header_bytes, stored, with_tags. header_fields.
  rewrite (pack_bytes_id _ (pack_bytes tags_width (tags h)))
    by apply length_pack_bytes.
  reflexivity.
Qed.

Lemma wf_stored (h : TaskHeader) :
  ints_fit h -> Forall is_double (times h) -> wf_header (stored h).
Proof.
  intros Hfit Hd. split; [exact Hfit|]. split; [apply length_pack_bytes|exact Hd].
Qed.

(** X1: a header whose integers fit 32 bits, written by [_write_header]
    and read again by [_read_header], comes back as it was, its tag field
    cut or padded with NUL to 128 bytes; the bytes of the file after the
    header are not touched. *)
Theorem header_written_is_header_read (h : TaskHeader) (s : fstate) :
  ints_fit h ->
  Forall is_double (times h) ->
  let r := (_write_header h ;; _read_header) s in
  fst r = Ok (stored h)
  /\ drop (Z.to_nat header_size) (f_data (snd r))
     = drop (Z.to_nat header_size) (f_data s).
Proof.
  intros Hfit Hd. cbv zeta.
  rewrite (bind_ok _ _ _ _ _ (write_header_run h s Hfit)).
  rewrite read_header_run. cbn [fst snd f_data]. split.
  - rewrite <- header_bytes_stored. apply header_of_bytes, wf_stored; assumption.
  - apply drop_header_bytes.
Qed.

Lemma header_of_short (data : list byte) :
  len data < header_size -> header_of data = Raise StructError.
Proof.
  intros L. unfold header_of, unpack_header.
  destruct (Z.eqb_spec (Z.of_nat (length (take (Z.to_nat header_size) data))) header_size)
    as [E|_]; [|reflexivity].
  rewrite length_take in E. unfold len in L. lia.
Qed.

Lemma open_rb_short {A} (k : TaskHeader -> M fstate A) (w : world) (task : string)
    (e : file_entry) :
  w_fs w !! task_file home task = Some e ->
  len (e_data e) < header_size ->
  with_open_rb (task_file home task) (fun _ => bind _read_header k) w
  = (Raise StructError, add_trace [EvOpen (task_file home task) "rb"] w).
Proof.
  intros Hf L. rewrite (with_open_rb_run _ _ w e Hf).
  erewrite bind_raise
    by (rewrite read_header_run; cbn [fopen f_data];
        rewrite (header_of_short _ L); reflexivity).
  cbn [fst snd f_log fopen]. rewrite add_log_nil. reflexivity.
Qed.

(** X2: on a record shorter than the header, the header cannot be
    unpacked: [info], the [has_*] tests and all six section accessors
    raise [struct.error].  The [try] of the trailing accessors covers the
    decompression only, so the error is not logged and not replaced by a
    default. *)
Theorem short_record_is_unreadable (w : world) (task : string) (e : file_entry) :
  w_fs w !! task_file home task = Some e ->
  len (e_data e) < header_size ->
  fst (_get_info home task w) = Raise StructError
  /\ fst (has_result home task w) = Raise StructError
  /\ fst (has_stdout home task w) = Raise StructError
  /\ fst (has_stderr home task w) = Raise StructError
  /\ fst (has_signature home task w) = Raise StructError
  /\ fst (_get_params home lzma_decompress pickle_loads task w) = Raise StructError
  /\ Forall (fun get : string -> M world Unicode.pystr =>
               fst (get task w) = Raise StructError
               /\ w_log (snd (get task w)) = w_log w)
       [_get_pulse home lzma_decompress; _get_stdout home lzma_decompress;
        _get_stderr home lzma_decompress]
  /\ Forall (fun get : string -> M world pyobj =>
               fst (get task w) = Raise StructError
               /\ w_log (snd (get task w)) = w_log w)
       [_get_result home lzma_decompress pickle_loads;
        _get_signature home lzma_decompress pickle_loads].
Proof.
  intros Hf L.
  assert (_get_info home task w
          = (Raise StructError, add_trace [EvOpen (task_file home task) "rb"] w)) as Hinfo.
  { unfold _get_info. rewrite (with_open_rb_run _ _ w e Hf).
    rewrite read_header_run. cbn [fopen f_data fst snd f_log].
    rewrite (header_of_short _ L), add_log_nil. reflexivity. }
  split; [rewrite Hinfo; reflexivity|].
  do 4 (split; [unfold has_result, has_stdout, has_stderr, has_signature;
                rewrite (bind_raise _ _ _ _ _ Hinfo); reflexivity|]).
  split.
  { unfold _get_params. rewrite (open_rb_short _ w task e Hf L). reflexivity. }
  split.
  - repeat (apply List.Forall_cons;
            [unfold _get_pulse, _get_stdout, _get_stderr, get_text; rewrite (open_rb_short _ w task e Hf L);
             split; reflexivity|]).
    apply List.Forall_nil.
  - repeat (apply List.Forall_cons;
            [unfold _get_result, _get_signature, get_pickled; rewrite (open_rb_short _ w task e Hf L);
             split; reflexivity|]).
    apply List.Forall_nil.
Qed.

Lemma open_rw_missing {A} (path : string) (body : Z -> M fstate A) (w : world) :
  w_fs w !! path = None ->
  with_open_rw path body w
  = (Raise FileNotFoundError, add_trace [EvOpen path "r+b"] w).
Proof.
  intros Hn. unfold with_open_rw, bind, emit, modify. cbn [w_fs add_trace].
  rewrite Hn. reflexivity.
Qed.

(** X3: only [save] creates a record.  Where the record file is missing,
    [update], [reset], [add_outputs], [add_result], [add_signature], the
    status setter, the tags setter and [add_tags] raise
    [FileNotFoundError] and leave the file system as it is. *)
Theorem writers_need_the_record (w : world) (task : string) (params : instance)
    (result signature : pyobj) (status : string) (tags : list Unicode.pystr) :
  w_fs w !! task_file home task = None ->
  Forall (fun m : M world unit =>
            fst (m w) = Raise FileNotFoundError /\ w_fs (snd (m w)) = w_fs w)
    [update home float_bits lzma_compress pickle_dumps task params;
     reset home float_bits task;
     add_outputs home float_bits lzma_compress task;
     add_result home lzma_compress pickle_dumps_dict task result;
     add_signature home lzma_compress pickle_dumps_dict task signature;
     _set_status home float_bits task status;
     _set_tags home task tags;
     add_tags home task tags].
Proof.
  intros Hn.
  assert (forall body : Z -> M fstate unit,
            fst (with_open_rw (task_file home task) body w) = Raise FileNotFoundError
            /\ w_fs (snd (with_open_rw (task_file home task) body w)) = w_fs w) as Hopen.
  { intros body. rewrite (open_rw_missing _ body w Hn). split; reflexivity. }
  apply List.Forall_cons; [apply Hopen|].
  apply List.Forall_cons; [apply Hopen|].
  apply List.Forall_cons.
  { unfold add_outputs.
    destruct (get_content_run home lzma_compress w task ".pulse") as (ev1 & E1).
    rewrite (bind_ok _ _ _ _ _ E1).
    destruct (get_content_run home lzma_compress (add_trace ev1 w) task ".out")
      as (ev2 & E2).
    rewrite (bind_ok _ _ _ _ _ E2).
    destruct (get_content_run home lzma_compress
                (add_trace ev2 (add_trace ev1 w)) task ".err") as (ev3 & E3).
    rewrite (bind_ok _ _ _ _ _ E3).
    rewrite open_rw_missing by exact Hn. split; reflexivity. }
  repeat (apply List.Forall_cons; [apply Hopen|]).
  apply List.Forall_nil.
Qed.

End RecordExtras.

(** ** The status accessor *)

Section StatusExtras.

Import TaskFile.

Variable home : string.
Variable float_bits : Z -> Z.

(** X4: the status accessor unpacks the big-endian status field of the
    header with the byte order of the machine.  On a record whose header
    holds the value of a state, it returns the name of that state where
    the machine is big-endian; where it is little-endian it returns
    ['new'] for [new] and raises [ValueError] for each of the six other
    states, whose value it reads shifted by 24 bits. *)
Theorem status_is_read_in_native_order (native : byte_order) (w : world)
    (task : string) (e : file_entry) (h : TaskHeader) (st : TaskStatus) :
  w_fs w !! task_file home task = Some e ->
  header_of (e_data e) = Ok h ->
  status h = value st ->
  fst (_get_status home native task w) = status_as_read native st.
Proof.
  intros Hf Hh Hst. rewrite (get_status_run home native task w e Hf). cbn [fst].
  apply (read_status_of_header native _ h st Hh Hst).
Qed.

(** X5: on a big-endian machine the status accessor returns what the
    status setter has set, for each of the six states the setter
    accepts. *)
Theorem status_set_is_status_read (w : world) (task : string) (e : file_entry)
    (h : TaskHeader) (st : TaskStatus) :
  w_fs w !! task_file home task = Some e ->
  e_writable e = true ->
  header_of (e_data e) = Ok h ->
  is_double (float_bits (w_clock w)) ->
  st ∈ settable ->
  let r := _set_status home float_bits task (name st) w in
  fst r = Ok tt
  /\ fst (_get_status home BigEndian task (snd r)) = Ok (name st).
Proof.
  intros Hf Hw Hh Hnow Hst.
  destruct (set_status_accepted home float_bits w task e h st Hf Hw Hh Hnow Hst)
    as (h' & Hr & Hfs & Hwf & Hs & _).
  cbv zeta in *. split; [exact Hr|].
  erewrite get_status_run by (rewrite Hfs; apply lookup_insert_eq).
  cbn [fst e_data].
  apply (read_status_of_header BigEndian _ h' st); [|exact Hs].
  apply header_of_bytes, Hwf.
Qed.

End StatusExtras.

(** ** Writers followed by readers *)

Section ReadBack.

Import TaskFile.

Variable home : string.
Variable float_bits : Z -> Z.
Variable lzma_compress : list byte -> list byte.
Variable lzma_decompress : list byte -> result (list byte).
Variable pickle_dumps : instance -> list byte.
Variable pickle_dumps_dict : pyobj -> list byte.
Variable pickle_loads : list byte -> result pyobj.

Lemma get_info_run (w : world) (task : string) (e : file_entry) :
  w_fs w !! task_file home task = Some e ->
  _get_info home task w
  = (header_of (e_data e), add_trace [EvOpen (task_file home task) "rb"] w).
Proof.
  intros Hf. unfold _get_info. rewrite (with_open_rb_run _ _ w e Hf).
  rewrite read_header_run. cbn [fopen f_data fst snd f_log].
  rewrite add_log_nil. reflexivity.
Qed.

(** The four [has_*] tests, from the header. *)
Definition has_sections (w : world) (task : string) : list (result bool) :=
  [fst (has_stdout home task w); fst (has_stderr home task w);
   fst (has_result home task w); fst (has_signature home task w)].

Lemma has_sections_run (w : world) (task : string) (e : file_entry) (h : TaskHeader) :
  w_fs w !! task_file home task = Some e ->
  header_of (e_data e) = Ok h ->
  has_sections w task
  = [Ok (0 <? stdout_size h); Ok (0 <? stderr_size h);
     Ok (0 <? result_size h); Ok (0 <? signature_size h)].
Proof.
  intros Hf Hh. pose proof (get_info_run w task e Hf) as Hi. rewrite Hh in Hi.
  unfold has_sections, has_stdout, has_stderr, has_result, has_signature.
  rewrite !(bind_ok _ _ _ _ _ Hi). reflexivity.
Qed.

(** The record [save] writes. *)
Lemma save_run (w : world) (task : string) (params : positive) (obj : instance)
    (tags : pyobj) (tb : list byte) :
  w_heap w !! params = Some obj ->
  w_fs w !! task_file home task = None ->
  obj !! "tags" = Some tags ->
  tags_of_attr tags = Ok tb ->
  len (lzma_compress (pickle_dumps (delete "tags" obj))) <= int32_max ->
  let block := lzma_compress (pickle_dumps (delete "tags" obj)) in
  let r := save home float_bits lzma_compress pickle_dumps task params w in
  fst r = Ok tt
  /\ w_fs (snd r) !! task_file home task
     = Some (FileEntry
               (header_bytes (saved_header (float_bits (w_clock w)) tb block) ++ block)
               (w_clock w) true).
Proof.
  intros Hobj Hnone Etags Htb Hlen. cbv zeta. unfold save.
  rewrite (bind_ok _ _ _ _ _ (isfile_run _ w)). rewrite Hnone.
  rewrite bool_decide_false by (intros [? ?]; discriminate).
  set (w1 := add_trace _ w).
  rewrite (bind_ok _ _ _ _ _ (time_run w1)).
  assert (w_heap w1 !! params = Some obj) as Hobj1 by exact Hobj.
  rewrite (bind_ok _ _ w1 w1 tags)
    by (rewrite (getattr_run _ _ _ _ Hobj1), Etags; reflexivity).
  rewrite (bind_ok _ _ _ _ _ (delattr_run _ _ _ _ _ Hobj1 Etags)).
  set (w2 := set_heap _ w1).
  assert (w_heap w2 !! params = Some (delete "tags" obj)) as Hobj2
    by apply lookup_insert_eq.
  rewrite (bind_ok _ _ _ _ _ (deref_run _ _ _ Hobj2)).
  set (block := lzma_compress (pickle_dumps (delete "tags" obj))) in *.
  rewrite (bind_ok _ _ w2 w2 tb) by (unfold lift; rewrite Htb; reflexivity).
  rewrite with_open_wb_new by exact Hnone. cbv beta.
  fold (saved_header (float_bits (w_clock w1)) tb block).
  rewrite save_body_run.
  - cbn [fst snd]. split; [reflexivity|]. apply close_lookup.
  - unfold ints_fit, sizes, saved_header. header_fields.
    repeat (apply List.Forall_cons;
            [first [apply in_int32_len; assumption|reflexivity]|]).
    apply List.Forall_nil.
Qed.

Lemma wf_saved_header (now : Z) (tb block : list byte) :
  is_double now -> len block <= int32_max ->
  wf_header (stored (saved_header now tb block)).
Proof.
  intros Hnow Hlen. apply wf_stored.
  - unfold ints_fit, sizes, saved_header. header_fields.
    repeat (apply List.Forall_cons;
            [first [apply in_int32_len; assumption|reflexivity]|]).
    apply List.Forall_nil.
  - unfold times, saved_header. header_fields.
    repeat (apply List.Forall_cons;
            [first [assumption|unfold is_double; lia]|]).
    apply List.Forall_nil.
Qed.

(** X6: the record [save] has just written reads back.  [info] is the
    header [save] built (the tag field cut or NUL-padded to 128 bytes),
    the status accessor returns ['new'] in either byte order, the
    parameter accessor decodes exactly the block that was written, there
    is no stdout, stderr, result or signature, and the result accessor
    returns the empty dictionary. *)
Theorem saved_record_reads_back (native : byte_order) (w : world) (task : string)
    (params : positive) (obj : instance) (tags : pyobj) (tb : list byte) :
  w_heap w !! params = Some obj ->
  w_fs w !! task_file home task = None ->
  obj !! "tags" = Some tags ->
  tags_of_attr tags = Ok tb ->
  is_double (float_bits (w_clock w)) ->
  len (lzma_compress (pickle_dumps (delete "tags" obj))) <= int32_max ->
  let block := lzma_compress (pickle_dumps (delete "tags" obj)) in
  let r := save home float_bits lzma_compress pickle_dumps task params w in
  fst r = Ok tt
  /\ fst (_get_info home task (snd r))
     = Ok (stored (saved_header (float_bits (w_clock w)) tb block))
  /\ fst (_get_status home native task (snd r)) = Ok "new"
  /\ fst (_get_params home lzma_decompress pickle_loads task (snd r))
     = params_view lzma_decompress pickle_loads block
  /\ has_sections (snd r) task = [Ok false; Ok false; Ok false; Ok false]
  /\ fst (_get_result home lzma_decompress pickle_loads task (snd r)) = Ok (PDict []).
Proof.
  intros Hobj Hnone Etags Htb Hnow Hlen. cbv zeta.
  destruct (save_run w task params obj tags tb Hobj Hnone Etags Htb Hlen) as (Hr & Hf).
  cbv zeta in Hr, Hf.
  set (block := lzma_compress (pickle_dumps (delete "tags" obj))) in *.
  set (now := float_bits (w_clock w)) in *.
  set (hs := saved_header now tb block) in *.
  set (w' := snd (save _ _ _ _ _ _ _)) in *.
  pose proof (wf_saved_header now tb block Hnow Hlen) as Hwf. fold hs in Hwf.
  rewrite <- (header_bytes_stored hs) in Hf.
  assert (laid_out (header_bytes (stored hs) ++ block) (stored hs) block [] [] [] [] [])
    as Hl.
  { pose proof (laid_out_bytes (stored hs) block [] [] [] [] [] Hwf eq_refl) as Hl.
    rewrite !app_nil_r in Hl. exact Hl. }
  pose proof Hl as (Hh & _).
  split; [exact Hr|].
  split; [rewrite (get_info_run w' task _ Hf); exact Hh|].
  split.
  { rewrite (get_status_run home native task w' _ Hf). cbn [fst e_data].
    rewrite (read_status_of_header native _ (stored hs) new Hh eq_refl).
    destruct native; reflexivity. }
  destruct (laid_out_accessors home lzma_decompress pickle_loads w' task _ _ _ _ _ _ _ _
              Hf Hl) as (Hp & _ & _ & _ & Hres & _).
  split; [exact Hp|].
  split; [rewrite (has_sections_run w' task _ _ Hf Hh); reflexivity|].
  exact Hres.
Qed.

(** X7: after [reset] the outputs are gone and the parameters are kept.
    On a record that holds its parameter section, the parameter accessor
    returns after [reset] what it returned before, the [has_*] tests are
    all false, the text accessors return [''], the result and signature
    accessors return the empty dictionary, and the status reads ['new']
    in either byte order. *)
Theorem reset_drops_the_outputs (native : byte_order) (w : world) (task : string)
    (e : file_entry) (h : TaskHeader) :
  w_fs w !! task_file home task = Some e ->
  e_writable e = true ->
  header_of (e_data e) = Ok h ->
  is_double (float_bits (w_clock w)) ->
  0 <= params_size h ->
  header_size + params_size h <= len (e_data e) ->
  let r := reset home float_bits task w in
  fst r = Ok tt
  /\ fst (_get_params home lzma_decompress pickle_loads task (snd r))
     = fst (_get_params home lzma_decompress pickle_loads task w)
  /\ has_sections (snd r) task = [Ok false; Ok false; Ok false; Ok false]
  /\ fst (_get_pulse home lzma_decompress task (snd r)) = Ok []
  /\ fst (_get_stdout home lzma_decompress task (snd r)) = Ok []
  /\ fst (_get_stderr home lzma_decompress task (snd r)) = Ok []
  /\ fst (_get_result home lzma_decompress pickle_loads task (snd r)) = Ok (PDict [])
  /\ fst (_get_signature home lzma_decompress pickle_loads task (snd r)) = Ok (PDict [])
  /\ fst (_get_status home native task (snd r)) = Ok "new".
Proof.
  intros Hf Hw Hh Hnow Hp Hlong.
  destruct (reset_run home float_bits w task e h Hf Hw Hh Hnow Hp) as (Hwf & Hr & Hfs).
  cbv zeta in *.
  set (now := float_bits (w_clock w)) in *.
  set (h' := clear_header new now h) in *.
  set (w' := snd (reset _ _ _ _)) in *.
  set (s1 := resize (Z.to_nat (params_size h)) x00 (drop (Z.to_nat header_size) (e_data e)))
    in *.
  assert (w_fs w' !! task_file home task
          = Some (FileEntry (header_bytes h' ++ s1) (w_clock w) true)) as Hf'
    by (rewrite Hfs; apply lookup_insert_eq).
  assert (len s1 = params_size h) as Ls1.
  { subst s1. unfold len. rewrite length_resize. lia. }
  assert (laid_out (header_bytes h' ++ s1) h' s1 [] [] [] [] []) as Hl.
  { assert (sizes h' = [len s1; len []; len []; len []; len []; len []]) as Hs.
    { rewrite Ls1. subst h'. unfold sizes. header_fields. reflexivity. }
    pose proof (laid_out_bytes h' s1 [] [] [] [] [] Hwf Hs) as Hl.
    rewrite !app_nil_r in Hl. exact Hl. }
  pose proof Hl as (Hh' & _).
  destruct (laid_out_accessors home lzma_decompress pickle_loads w' task _ _ _ _ _ _ _ _
              Hf' Hl) as (A1 & A2 & A3 & A4 & A5 & A6).
  split; [exact Hr|].
  split.
  { rewrite A1, (get_params_run home lzma_decompress pickle_loads w task e h Hf Hh)
      by lia.
    unfold params_view. rewrite Ls1.
    destruct (params_size h =? 0); [reflexivity|]. f_equal.
    unfold section_bytes. destruct (Z.ltb_spec (params_size h) 0) as [?|_]; [lia|].
    subst s1. apply resize_le.
    rewrite length_drop. unfold len in Hlong.
    change header_size with 224 in *. lia. }
  split.
  { rewrite (has_sections_run w' task _ _ Hf' Hh').
    subst h'. header_fields. reflexivity. }
  do 5 (split; [assumption|]).
  rewrite (get_status_run home native task w' _ Hf'). cbn [fst e_data].
  rewrite (read_status_of_header native _ h' new Hh').
  - destruct native; reflexivity.
  - subst h'. header_fields. reflexivity.
Qed.

(** X8: a result that is added is the result that is read.  On a
    laid-out record without signature, where the block is not empty and
    decompresses to the pickle it was made of, after [add_result] the
    test [has_result] is true and the result accessor returns the
    unpickled pickle of the result (the sentinel where unpickling it
    fails); the parameter accessor returns what it returned before. *)
Theorem added_result_is_read (w : world) (task : string) (result : pyobj)
    (e : file_entry) (h : TaskHeader) (s1 s2 s3 s4 s5 : list byte) :
  w_fs w !! task_file home task = Some e ->
  e_writable e = true ->
  laid_out (e_data e) h s1 s2 s3 s4 s5 [] ->
  let block := lzma_compress (pickle_dumps_dict result) in
  len s5 <= len block ->
  0 < len block <= int32_max ->
  lzma_decompress block = Ok (pickle_dumps_dict result) ->
  let r := add_result home lzma_compress pickle_dumps_dict task result w in
  fst r = Ok tt
  /\ fst (has_result home task (snd r)) = Ok true
  /\ fst (_get_result home lzma_decompress pickle_loads task (snd r))
     = Ok (match pickle_loads (pickle_dumps_dict result) with
           | Ok v => v
           | Raise _ => ret_code_1
           end)
  /\ fst (_get_params home lzma_decompress pickle_loads task (snd r))
     = fst (_get_params home lzma_decompress pickle_loads task w).
Proof.
  intros Hf Hw Hl. cbv zeta. intros Hgrow [Hpos Hfit] Hround.
  destruct (add_result_run home lzma_compress pickle_dumps_dict w task result e h
              s1 s2 s3 s4 s5 Hf Hw Hl Hgrow Hfit) as (Hwf & Hr & Hfs).
  cbv zeta in *.
  set (block := lzma_compress (pickle_dumps_dict result)) in *.
  set (h' := set_result_size (len block) h) in *.
  set (w' := snd (add_result _ _ _ _ _ _)) in *.
  assert (w_fs w' !! task_file home task
          = Some (FileEntry (header_bytes h' ++ s1 ++ s2 ++ s3 ++ s4 ++ block)
                    (w_clock w) true)) as Hf'
    by (rewrite Hfs; apply lookup_insert_eq).
  pose proof (laid_out_sizes _ _ _ _ _ _ _ _ Hl) as (P1 & P2 & P3 & P4 & P5 & P6).
  assert (laid_out (header_bytes h' ++ s1 ++ s2 ++ s3 ++ s4 ++ block) h'
            s1 s2 s3 s4 block []) as Hl'.
  { assert (sizes h' = [len s1; len s2; len s3; len s4; len block; len []]) as Hs.
    { subst h'. unfold sizes. header_fields. rewrite P1, P2, P3, P4, P6. reflexivity. }
    pose proof (laid_out_bytes h' s1 s2 s3 s4 block [] Hwf Hs) as Hl'.
    rewrite !app_nil_r in Hl'. exact Hl'. }
  pose proof Hl' as (Hh' & _).
  destruct (laid_out_accessors home lzma_decompress pickle_loads w' task _ _ _ _ _ _ _ _
              Hf' Hl') as (A1 & _ & _ & _ & A5 & _).
  destruct (laid_out_accessors home lzma_decompress pickle_loads w task _ _ _ _ _ _ _ _
              Hf Hl) as (B1 & _).
  split; [exact Hr|].
  split.
  { unfold has_result. pose proof (get_info_run w' task _ Hf') as Hi.
    cbn [e_data] in Hi. rewrite Hh' in Hi.
    rewrite (bind_ok _ _ _ _ _ Hi). subst h'. header_fields.
    unfold ret. cbn [fst]. f_equal. apply Z.ltb_lt. exact Hpos. }
  split.
  { rewrite A5. unfold pickled_view.
    destruct (Z.eqb_spec (len block) 0) as [E|_]; [lia|].
    unfold loads_block. rewrite Hround. reflexivity. }
  rewrite A1, B1. reflexivity.
Qed.

End ReadBack.

(** ** Outputs that are added and read *)

Section OutputsReadBack.

Import TaskFile.

Variable home : string.
Variable float_bits : Z -> Z.
Variable lzma_compress : list byte -> list byte.
Variable lzma_decompress : list byte -> result (list byte).
Variable pickle_loads : list byte -> result pyobj.

(** X9: the standard output that is added is the one that is read.  On
    a record that holds its parameters only, with a file [.out] whose
    compressed content is not empty, decompresses to the content and is
    valid UTF-8, after [add_outputs] the test [has_stdout] is true and
    the stdout accessor returns the text of the file; where there is no
    file [.err], [has_stderr] is false and the stderr accessor returns
    ['']; the parameter accessor returns what it returned before. *)
Theorem added_outputs_are_read (w : world) (task : string) (e out : file_entry)
    (h : TaskHeader) (s1 : list byte) (text : Unicode.pystr) :
  w_fs w !! task_file home task = Some e ->
  e_writable e = true ->
  laid_out (e_data e) h s1 [] [] [] [] [] ->
  w_fs w !! task_path home task ".out" = Some out ->
  w_fs w !! task_path home task ".err" = None ->
  lzma_compress (e_data out) <> [] ->
  lzma_decompress (lzma_compress (e_data out)) = Ok (e_data out) ->
  Unicode.decode (e_data out) = Ok text ->
  len (companion home lzma_compress w task ".pulse") <= int32_max ->
  len (lzma_compress (e_data out)) <= int32_max ->
  let r := add_outputs home float_bits lzma_compress task w in
  fst r = Ok tt
  /\ fst (has_stdout home task (snd r)) = Ok true
  /\ fst (_get_stdout home lzma_decompress task (snd r)) = Ok text
  /\ fst (has_stderr home task (snd r)) = Ok false
  /\ fst (_get_stderr home lzma_decompress task (snd r)) = Ok []
  /\ fst (_get_params home lzma_decompress pickle_loads task (snd r))
     = fst (_get_params home lzma_decompress pickle_loads task w).
Proof.
  intros Hf Hw Hl Hout Herr Hne Hround Hdec Lp Lo. cbv zeta.
  assert (companion home lzma_compress w task ".out" = lzma_compress (e_data out)) as Eo
    by (unfold companion; rewrite Hout; reflexivity).
  assert (companion home lzma_compress w task ".err" = []) as Ee
    by (unfold companion; rewrite Herr; reflexivity).
  destruct (add_outputs_run home float_bits lzma_compress w task e h s1 [] [] [] Hf Hw Hl)
    as (Hwf & Hr & Hfs).
  { exact Lp. }
  { rewrite Eo. exact Lo. }
  { rewrite Ee. vm_compute. discriminate. }
  { pose proof (len_nonneg (companion home lzma_compress w task ".pulse")).
    pose proof (len_nonneg (companion home lzma_compress w task ".out")).
    pose proof (len_nonneg (companion home lzma_compress w task ".err")).
    change (len []) with 0. lia. }
  cbv zeta in *. rewrite Eo, Ee in *.
  set (pulse := companion home lzma_compress w task ".pulse") in *.
  set (stdout := lzma_compress (e_data out)) in *.
  set (h' := set_stderr_size _ _) in *.
  set (w' := snd (add_outputs _ _ _ _ _)) in *.
  assert (w_fs w' !! task_file home task
          = Some (FileEntry (header_bytes h' ++ s1 ++ pulse ++ stdout ++ [])
                    (w_clock w) true)) as Hf'
    by (rewrite Hfs; apply lookup_insert_eq).
  pose proof (laid_out_sizes _ _ _ _ _ _ _ _ Hl) as (P1 & P2 & P3 & P4 & P5 & P6).
  assert (laid_out (header_bytes h' ++ s1 ++ pulse ++ stdout ++ []) h'
            s1 pulse stdout [] [] []) as Hl'.
  { assert (sizes h' = [len s1; len pulse; len stdout; len []; len []; len []]) as Hs.
    { subst h'. unfold sizes. header_fields. rewrite P1, P5, P6. reflexivity. }
    pose proof (laid_out_bytes h' s1 pulse stdout [] [] [] Hwf Hs) as Hl'.
    exact Hl'. }
  pose proof Hl' as (Hh' & _).
  destruct (laid_out_accessors home lzma_decompress pickle_loads w' task _ _ _ _ _ _ _ _
              Hf' Hl') as (A1 & _ & A3 & A4 & _).
  destruct (laid_out_accessors home lzma_decompress pickle_loads w task _ _ _ _ _ _ _ _
              Hf Hl) as (B1 & _).
  pose proof (has_sections_run home w' task _ _ Hf' Hh') as Hhas.
  unfold has_sections in Hhas. injection Hhas as Ho He _ _.
  assert (len stdout <> 0) as Hn.
  { unfold len. destruct stdout; [congruence|cbn; lia]. }
  split; [exact Hr|].
  split.
  { rewrite Ho. subst h'. header_fields. f_equal. apply Z.ltb_lt.
    pose proof (len_nonneg stdout). lia. }
  split.
  { rewrite A3. unfold text_view, decode_block.
    destruct (Z.eqb_spec (len stdout) 0) as [?|_]; [contradiction|].
    subst stdout. rewrite Hround, Hdec. reflexivity. }
  split; [rewrite He; subst h'; header_fields; reflexivity|].
  split; [rewrite A4; reflexivity|].
  rewrite A1, B1. reflexivity.
Qed.

End OutputsReadBack.

(** ** [add_outputs] on a record that holds a result *)

Section StaleHeader.

Import TaskFile.

Variable home : string.
Variable float_bits : Z -> Z.
Variable lzma_compress : list byte -> list byte.
Variable lzma_decompress : list byte -> result (list byte).
Variable pickle_loads : list byte -> result pyobj.

(** [_reset] on a file object that has been read from. *)
Lemma reset_fh_run_at (clock : Z) (data : list byte) (p : nat) (h : TaskHeader) :
  header_of data = Ok h ->
  is_double (float_bits clock) ->
  0 <= params_size h ->
  let h' := clear_header new (float_bits clock) h in
  _reset float_bits clock (FState data p false [])
  = (Ok h', FState (header_bytes h'
                     ++ resize (Z.to_nat (params_size h)) x00
                          (drop (Z.to_nat header_size) data))
              (Z.to_nat header_size) true []).
Proof.
  intros Hh Hnow Hp. cbv zeta.
  set (h' := clear_header new (float_bits clock) h).
  pose proof (header_of_wf _ _ Hh) as Hwf.
  assert (wf_header h') as Hwf' by (apply wf_clear_header; assumption).
  unfold _reset. fold h'.
  unfold bind at 1. rewrite read_header_run.
  cbn [f_data f_dirty f_log]. rewrite Hh.
  unfold bind at 1. rewrite (write_header_run h' _ (wf_ints_fit _ Hwf')).
  cbn [f_data f_log].
  unfold bind. rewrite truncate_run
    by (subst h'; header_fields; change header_size with 224; lia).
  cbn [f_data f_pos f_log]. unfold ret. f_equal. f_equal.
  subst h'. header_fields.
  rewrite resize_app_ge by (rewrite length_header_bytes; change header_size with 224; lia).
  rewrite length_header_bytes. repeat f_equal.
  change header_size with 224. lia.
Qed.

(** The header [add_outputs] writes: the one it read, with the sizes of
    the three companion files. *)
Definition with_outputs (w : world) (task : string) (h : TaskHeader) : TaskHeader :=
  set_stderr_size (len (companion home lzma_compress w task ".err"))
    (set_stdout_size (len (companion home lzma_compress w task ".out"))
       (set_pulse_size (len (companion home lzma_compress w task ".pulse")) h)).

Lemma add_outputs_after_result (w : world) (task : string) (e : file_entry)
    (h : TaskHeader) (s1 s2 s3 s4 s5 s6 : list byte) :
  w_fs w !! task_file home task = Some e ->
  e_writable e = true ->
  laid_out (e_data e) h s1 s2 s3 s4 s5 s6 ->
  s5 <> [] ->
  is_double (float_bits (w_clock w)) ->
  let pulse := companion home lzma_compress w task ".pulse" in
  let stdout := companion home lzma_compress w task ".out" in
  let stderr := companion home lzma_compress w task ".err" in
  len pulse <= int32_max -> len stdout <= int32_max -> len stderr <= int32_max ->
  let r := add_outputs home float_bits lzma_compress task w in
  wf_header (with_outputs w task h)
  /\ fst r = Ok tt
  /\ w_fs (snd r) !! task_file home task
     = Some (FileEntry (header_bytes (with_outputs w task h)
                        ++ s1 ++ pulse ++ stdout ++ stderr)
               (w_clock w) true).
Proof.
  intros Hf Hw Hl Hs5 Hnow. cbv zeta. intros Lp Lo Le.
  unfold with_outputs.
  set (pulse := companion home lzma_compress w task ".pulse") in *.
  set (stdout := companion home lzma_compress w task ".out") in *.
  set (stderr := companion home lzma_compress w task ".err") in *.
  set (h' := set_stderr_size _ _).
  pose proof Hl as (Hh & Hd & Hs).
  pose proof (laid_out_sizes _ _ _ _ _ _ _ _ Hl) as (P1 & P2 & P3 & P4 & P5 & P6).
  pose proof (laid_out_drop _ _ _ _ _ _ _ _ Hl) as Hdrop.
  pose proof (header_of_wf _ _ Hh) as Hwf.
  assert (wf_header h') as Hwf'.
  { apply (wf_set_sizes h);
      [exact Hwf|subst h'; unfold times; header_fields; reflexivity..|].
    destruct Hwf as (Hi & _). unfold sizes in *. subst h'. header_fields.
    repeat (apply Forall_cons in Hi as [? Hi]).
    repeat (apply List.Forall_cons; [first [apply in_int32_len; assumption|assumption]|]).
    apply List.Forall_nil. }
  split; [exact Hwf'|].
  unfold add_outputs.
  destruct (get_content_run home lzma_compress w task ".pulse") as (ev1 & E1).
  rewrite (bind_ok _ _ _ _ _ E1). fold pulse.
  destruct (get_content_run home lzma_compress (add_trace ev1 w) task ".out")
    as (ev2 & E2).
  rewrite (bind_ok _ _ _ _ _ E2). rewrite companion_add_trace. fold stdout.
  destruct (get_content_run home lzma_compress (add_trace ev2 (add_trace ev1 w))
              task ".err") as (ev3 & E3).
  rewrite (bind_ok _ _ _ _ _ E3). rewrite !companion_add_trace. fold stderr.
  set (w3 := add_trace ev3 _).
  rewrite (with_open_rw_run _ _ w3 e Hf Hw).
  set (body := bind _ _).
  assert (body (fopen (e_data e))
          = (Ok tt, FState (header_bytes h' ++ s1 ++ pulse ++ stdout ++ stderr)
                      (Z.to_nat header_size + length s1 + length pulse
                       + length stdout + length stderr)
                      true [])) as Hrun.
  { subst body. unfold bind at 1. rewrite read_header_run.
    cbn [fopen f_data f_dirty f_log]. rewrite Hh.
    rewrite P5.
    assert ((len s5 =? 0) = false) as ->.
    { apply Z.eqb_neq. unfold len. destruct s5; [congruence|cbn; lia]. }
    assert (0 <= params_size h) as Hp by (rewrite P1; apply len_nonneg).
    erewrite (bind_ok (bind (_reset float_bits (w_clock w3)) _))
      by (erewrite bind_ok by (apply reset_fh_run_at; [exact Hh|exact Hnow|exact Hp]);
          reflexivity).
    fold h'.
    rewrite Hdrop, P1.
    assert (resize (Z.to_nat (len s1)) x00 (s1 ++ s2 ++ s3 ++ s4 ++ s5 ++ s6) = s1) as ->.
    { unfold len. rewrite Nat2Z.id. rewrite resize_app_le by lia. apply resize_all. }
    unfold bind at 1. rewrite (write_header_run h' _ (wf_ints_fit _ Hwf')).
    cbn [f_data f_log]. rewrite drop_header_bytes.
    unfold bind at 1.
    rewrite seek_run by (subst h'; header_fields; rewrite P1;
                         pose proof (len_nonneg s1); change header_size with 224; lia).
    cbn [f_data f_dirty f_log].
    replace (Z.to_nat (header_size + params_size h'))
      with (length (header_bytes h' ++ s1))
      by (rewrite length_app, length_header_bytes; subst h'; header_fields;
          rewrite P1; unfold len; change header_size with 224; lia).
    rewrite (app_assoc (header_bytes h') s1).
    rewrite <- (app_nil_r (header_bytes h' ++ s1)) at 1.
    unfold bind at 1.
    rewrite write_if_run by (rewrite !length_app; cbn [length]; lia).
    rewrite overwrite_app by reflexivity.
    rewrite drop_nil, app_nil_r.
    rewrite <- (app_nil_r ((header_bytes h' ++ s1) ++ pulse)) at 1.
    unfold bind at 1.
    rewrite write_if_run by (rewrite !length_app; cbn [length]; lia).
    rewrite overwrite_app by (rewrite !length_app; lia).
    rewrite drop_nil, app_nil_r.
    rewrite <- (app_nil_r (((header_bytes h' ++ s1) ++ pulse) ++ stdout)) at 1.
    rewrite write_if_run by (rewrite !length_app; cbn [length]; lia).
    rewrite overwrite_app by (rewrite !length_app; lia).
    rewrite drop_nil, app_nil_r.
    f_equal. f_equal.
    - rewrite <- !app_assoc. reflexivity.
    - rewrite !length_app, length_header_bytes. lia. }
  rewrite Hrun. cbn [fst snd]. split; [reflexivity|].
  rewrite close_lookup. cbn [f_data f_dirty]. rewrite Hw. reflexivity.
Qed.

(** X10: [add_outputs] on a record that already holds a result.  The
    record is cut after the parameters and the contents of the companion
    files are written there, but the header that is written last is the
    one read before [_reset]: status, timestamps, [result_size] and
    [signature_size] are the old ones.  So [has_result] still answers
    true, the header counts more bytes than the file has, and the result
    accessor is left to decode no bytes at all. *)
Theorem add_outputs_keeps_a_stale_header (w : world) (task : string) (e : file_entry)
    (h : TaskHeader) (s1 s2 s3 s4 s5 s6 : list byte) :
  w_fs w !! task_file home task = Some e ->
  e_writable e = true ->
  laid_out (e_data e) h s1 s2 s3 s4 s5 s6 ->
  s5 <> [] ->
  is_double (float_bits (w_clock w)) ->
  let pulse := companion home lzma_compress w task ".pulse" in
  let stdout := companion home lzma_compress w task ".out" in
  let stderr := companion home lzma_compress w task ".err" in
  len pulse <= int32_max -> len stdout <= int32_max -> len stderr <= int32_max ->
  let r := add_outputs home float_bits lzma_compress task w in
  exists data' h',
    fst r = Ok tt
    /\ w_fs (snd r) !! task_file home task = Some (FileEntry data' (w_clock w) true)
    /\ header_of data' = Ok h'
    /\ status h' = status h /\ times h' = times h
    /\ result_size h' = len s5 /\ signature_size h' = len s6
    /\ len data' = header_size + len s1 + len pulse + len stdout + len stderr
    /\ len data' < header_size + total_size h'
    /\ fst (has_result home task (snd r)) = Ok true
    /\ fst (_get_result home lzma_decompress pickle_loads task (snd r))
       = Ok (match loads_block lzma_decompress pickle_loads [] with
             | Ok v => v
             | Raise _ => ret_code_1
             end).
Proof.
  intros Hf Hw Hl Hs5 Hnow. cbv zeta. intros Lp Lo Le.
  destruct (add_outputs_after_result w task e h s1 s2 s3 s4 s5 s6 Hf Hw Hl Hs5 Hnow
              Lp Lo Le) as (Hwf & Hr & Hf').
  cbv zeta in *.
  set (pulse := companion home lzma_compress w task ".pulse") in *.
  set (stdout := companion home lzma_compress w task ".out") in *.
  set (stderr := companion home lzma_compress w task ".err") in *.
  set (w' := snd (add_outputs _ _ _ _ _)) in *.
  pose proof (laid_out_sizes _ _ _ _ _ _ _ _ Hl) as (P1 & P2 & P3 & P4 & P5 & P6).
  set (h' := with_outputs w task h) in *.
  set (data' := header_bytes h' ++ s1 ++ pulse ++ stdout ++ stderr) in *.
  assert (header_of data' = Ok h') as Hh' by (apply header_of_bytes, Hwf).
  assert (len s5 <> 0) as Hn5.
  { unfold len. destruct s5; [congruence|cbn; lia]. }
  assert (len data' = header_size + len s1 + len pulse + len stdout + len stderr) as Ld.
  { subst data'. unfold len. rewrite !length_app, length_header_bytes.
    change header_size with 224. lia. }
  assert (params_size h' = len s1 /\ pulse_size h' = len pulse
          /\ stdout_size h' = len stdout /\ stderr_size h' = len stderr
          /\ result_size h' = len s5 /\ signature_size h' = len s6)
    as (Q1 & Q2 & Q3 & Q4 & Q5 & Q6).
  { subst h'. unfold with_outputs. header_fields. fold pulse stdout stderr.
    rewrite P1, P5, P6. repeat split. }
  exists data', h'.
  split; [exact Hr|]. split; [exact Hf'|]. split; [exact Hh'|].
  split; [subst h'; unfold with_outputs; header_fields; reflexivity|].
  split; [subst h'; unfold with_outputs, times; header_fields; reflexivity|].
  split; [exact Q5|]. split; [exact Q6|]. split; [exact Ld|].
  split.
  { unfold total_size. rewrite Ld, Q1, Q2, Q3, Q4, Q5, Q6.
    pose proof (len_nonneg s5). pose proof (len_nonneg s6). lia. }
  split.
  { unfold has_result. pose proof (get_info_run home w' task _ Hf') as Hi.
    cbn [e_data] in Hi. rewrite Hh' in Hi.
    rewrite (bind_ok _ _ _ _ _ Hi). unfold ret. cbn [fst]. rewrite Q5. f_equal.
    apply Z.ltb_lt. pose proof (len_nonneg s5). lia. }
  assert (0 <= result_offset h') as Hoff.
  { unfold result_offset, stderr_offset, stdout_offset, pulse_offset.
    rewrite Q1, Q2, Q3, Q4.
    pose proof (len_nonneg s1). pose proof (len_nonneg pulse).
    pose proof (len_nonneg stdout). pose proof (len_nonneg stderr).
    change header_size with 224. lia. }
  assert (-1 <= result_size h') as Hnr
    by (rewrite Q5; pose proof (len_nonneg s5); lia).
  destruct (get_pickled_run home lzma_decompress pickle_loads "result"
              result_size result_offset w' task _ h' Hf' Hh' Hoff Hnr) as (Hres & _).
  unfold _get_result. rewrite Hres. cbn [e_data].
  rewrite Q5. destruct (Z.eqb_spec (len s5) 0) as [?|_]; [contradiction|].
  assert (section_bytes (result_offset h') (len s5) data' = []) as ->; [|reflexivity].
  unfold section_bytes. destruct (Z.ltb_spec (len s5) 0) as [?|_].
  - apply drop_ge. unfold result_offset, stderr_offset, stdout_offset, pulse_offset.
    rewrite Q1, Q2, Q3, Q4. unfold len in *. lia.
  - rewrite drop_ge; [apply take_nil|].
    unfold result_offset, stderr_offset, stdout_offset, pulse_offset.
    rewrite Q1, Q2, Q3, Q4. unfold len in *. lia.
Qed.

End StaleHeader.

(** ** Adding tags *)

Section TagExtras.

Import TaskFile.

Variable home : string.

(** What [fh.seek(8); fh.read(128).decode().strip()] gives on the bytes
    of a record. *)
Definition tags_in (data : list byte) : result Unicode.pystr :=
  match Unicode.decode (take 128 (drop 8 data)) with
  | Ok text => Ok (Unicode.strip text)
  | Raise err => Raise err
  end.

Lemma get_tags_run (w : world) (task : string) (e : file_entry) :
  w_fs w !! task_file home task = Some e ->
  fst (_get_tags home task w) = tags_in (e_data e).
Proof.
  intros Hf. unfold _get_tags, tags_in. rewrite (with_open_rb_run _ _ w e Hf).
  cbn [fst]. unfold bind. rewrite seek_run by lia.
  unfold read, lift, ret. cbn [fopen f_data f_pos f_dirty f_log Z.ltb Z.compare].
  change (Z.to_nat 8) with 8%nat. change (Z.to_nat 128) with 128%nat.
  destruct (Unicode.decode _); reflexivity.
Qed.

(** X11: [add_tags] is the tags setter applied to the new tags followed
    by the words of the stored ones: on a writable record whose tag field
    decodes, [add_tags(tags)] does exactly what [tags = tags +
    tags.split()] does (the stored tags are kept, also those that are
    given again); where the tag field does not decode, it raises that
    error and leaves the files as they are. *)
Theorem add_tags_sets_both (w : world) (task : string) (e : file_entry)
    (tags : list Unicode.pystr) :
  w_fs w !! task_file home task = Some e ->
  e_writable e = true ->
  match fst (_get_tags home task w) with
  | Ok existing =>
    add_tags home task tags w
    = _set_tags home task (tags ++ Unicode.split existing) w
  | Raise err =>
    fst (add_tags home task tags w) = Raise err
    /\ w_fs (snd (add_tags home task tags w)) = w_fs w
  end.
Proof.
  intros Hf Hw. rewrite (get_tags_run w task e Hf). unfold tags_in.
  destruct (Unicode.decode (take 128 (drop 8 (e_data e)))) as [text|err] eqn:E;
    unfold add_tags, _set_tags; rewrite !(with_open_rw_run _ _ w e Hf Hw);
    unfold bind; rewrite !seek_run by lia;
    unfold read, lift, ret; cbn [fopen f_data f_pos f_dirty f_log Z.ltb Z.compare];
    change (Z.to_nat 8) with 8%nat; change (Z.to_nat 128) with 128%nat; rewrite E.
  - rewrite seek_run by lia. cbn [f_data f_dirty f_log].
    change (Z.to_nat 8) with 8%nat. reflexivity.
  - cbn [fst snd]. split; [reflexivity|].
    apply (close_clean _ e _ (add_trace _ w)); [exact Hf|reflexivity|reflexivity].
Qed.

End TagExtras.

(** * Further properties of the probe *)

Section CompanionFiles.

Import TaskFile Probe.

Variable home : string.

Lemma bind_assoc {S A B C} (m : M S A) (k : A -> M S B) (k' : B -> M S C) (s : S) :
  bind m (fun a => bind (k a) k') s = bind (bind m k) k' s.
Proof. unfold bind. destruct (m s) as [[a|e] s']; reflexivity. Qed.

Lemma task_path_inj (task ext ext' : string) :
  task_path home task ext = task_path home task ext' -> ext = ext'.
Proof.
  unfold task_path. intros H.
  apply (inj (String.append _)) in H.
  apply (inj (String.append _)) in H.
  apply (inj (String.append _)) in H.
  exact H.
Qed.

(** The file system without the companion files of a task. *)
Definition without (fs : gmap string file_entry) (task : string) (exts : list string)
    : gmap string file_entry :=
  foldl (fun fs ext => delete (task_path home task ext) fs) fs exts.

Lemma without_none (fs : gmap string file_entry) (task : string) (exts : list string)
    (path : string) :
  fs !! path = None -> without fs task exts !! path = None.
Proof.
  revert fs. induction exts as [|ext exts IH]; intros fs Hn; [exact Hn|].
  cbn [without foldl]. apply IH.
  destruct (decide (task_path home task ext = path)) as [<-|Hne].
  - apply lookup_delete_eq.
  - rewrite lookup_delete_ne by exact Hne. exact Hn.
Qed.

Lemma lookup_without_in (fs : gmap string file_entry) (task : string)
    (exts : list string) (ext : string) :
  ext ∈ exts -> without fs task exts !! task_path home task ext = None.
Proof.
  revert fs. induction exts as [|ext0 exts IH]; intros fs Hin.
  - apply elem_of_nil in Hin. contradiction.
  - cbn [without foldl]. apply elem_of_cons in Hin as [->|Hin].
    + apply without_none, lookup_delete_eq.
    + apply IH, Hin.
Qed.

Lemma lookup_without_out (fs : gmap string file_entry) (task : string)
    (exts : list string) (path : string) :
  (forall ext, ext ∈ exts -> path <> task_path home task ext) ->
  without fs task exts !! path = fs !! path.
Proof.
  revert fs. induction exts as [|ext0 exts IH]; intros fs Hout; [reflexivity|].
  cbn [without foldl]. fold (without (delete (task_path home task ext0) fs) task exts).
  rewrite IH by (intros ext Hin; apply Hout, elem_of_cons; auto).
  apply lookup_delete_ne. intros E. apply (Hout ext0); [apply elem_of_cons; auto|].
  symmetry. exact E.
Qed.

Lemma remove_task_files_run (task : string) (exts : list string) (w : world) :
  exists evs,
    remove_task_files home task exts w
    = (Ok tt, mkWorld (without (w_fs w) task exts) (w_clock w) (w_heap w) (w_log w)
                (w_trace w ++ evs)).
Proof.
  revert w. induction exts as [|ext exts IH]; intros [fs clock heap lg tr].
  - exists []. cbn. rewrite app_nil_r. reflexivity.
  - cbn [remove_task_files w_fs w_clock w_heap w_log w_trace without foldl].
    set (f := task_path home task ext).
    fold (without (delete f fs) task exts).
    assert (exists evs,
              (let* there := isfile f in
               if (there : bool) then
                 (if String.eqb ext ".pulse" then
                    let* writable := access_w f in
                    unless writable (chmod f true)
                  else ret tt) ;;
                 try_except (remove f) (fun _ => ret tt)
               else ret tt) (mkWorld fs clock heap lg tr)
              = (Ok tt, mkWorld (delete f fs) clock heap lg (tr ++ evs)))
      as (evs1 & E1).
    { unfold isfile, access_w, chmod, remove, try_except, unless,
        emit, modify, get, ret, raise, bind, add_trace, set_fs.
      cbn [w_fs w_clock w_heap w_log w_trace].
      destruct (fs !! f) as [e|] eqn:Ef.
      - rewrite bool_decide_true by eauto.
        destruct (String.eqb ext ".pulse");
          repeat (first [rewrite Ef | rewrite lookup_insert_eq
                        | progress cbn [w_fs w_clock w_heap w_log w_trace]]);
          [destruct (e_writable e)|];
          repeat (first [rewrite Ef | rewrite lookup_insert_eq
                        | progress cbn [w_fs w_clock w_heap w_log w_trace]]);
          rewrite ?delete_insert_eq;
          eexists; rewrite <- ?app_assoc; reflexivity.
      - rewrite bool_decide_false by (intros [? ?]; discriminate).
        rewrite delete_id by exact Ef. eexists. reflexivity. }
    destruct (IH (mkWorld (delete f fs) clock heap lg (tr ++ evs1))) as (evs2 & E2).
    cbn [w_fs w_clock w_heap w_log w_trace] in E2.
    exists (evs1 ++ evs2). rewrite app_assoc. rewrite <- E2.
    rewrite bind_assoc. rewrite (bind_ok _ _ _ _ _ E1). reflexivity.
Qed.

(** X12: [remove_task_files] never raises; afterwards none of the
    companion files it was given exists, every other path of the file
    system is as it was (the record [.task] too, unless it is listed),
    and the clock, the objects and the log are untouched. *)
Theorem remove_task_files_removes_exactly (task : string) (exts : list string)
    (w : world) :
  let r := remove_task_files home task exts w in
  fst r = Ok tt
  /\ (forall ext, ext ∈ exts -> w_fs (snd r) !! task_path home task ext = None)
  /\ (forall path, (forall ext, ext ∈ exts -> path <> task_path home task ext) ->
        w_fs (snd r) !! path = w_fs w !! path)
  /\ w_clock (snd r) = w_clock w
  /\ w_heap (snd r) = w_heap w
  /\ w_log (snd r) = w_log w.
Proof.
  cbv zeta. destruct (remove_task_files_run task exts w) as (evs & E).
  rewrite E. cbn [fst snd w_fs w_clock w_heap w_log].
  split; [reflexivity|].
  split; [intros ext Hin; apply lookup_without_in, Hin|].
  split; [intros path Hout; apply lookup_without_out, Hout|].
  repeat split.
Qed.

End CompanionFiles.


(** ** [check_task] *)

Section ProbeExtras.

Import TaskFile Probe.

Variable home : string.
Variable native : byte_order.
Variable float_bits : Z -> Z.
Context {fl : float_ops}.

Abbreviation probe := (check_task home native float_bits).

(** A computation that, when it returns, returns a report. *)
Definition reports (m : M world (option report)) : Prop :=
  forall w, fst (m w) <> Ok None.

Lemma reports_ret (r : report) : reports (ret (Some r)).
Proof. intros w. discriminate. Qed.

Lemma reports_raise (e : exn) : reports (raise e).
Proof. intros w. discriminate. Qed.

Lemma reports_bind {A} (m : M world A) (k : A -> M world (option report)) :
  (forall a, reports (k a)) -> reports (bind m k).
Proof.
  intros H w. unfold bind. destruct (m w) as [[a|e] w']; [apply H|discriminate].
Qed.

Lemma reports_bind_ret {A} (a : A) (k : A -> M world (option report)) :
  reports (k a) -> reports (bind (ret a) k).
Proof. intros H w. apply H. Qed.

Lemma reports_try (m : M world (option report)) (h : exn -> M world (option report)) :
  reports m -> (forall e, reports (h e)) -> reports (try_except m h).
Proof.
  intros Hm Hh w. unfold try_except. specialize (Hm w).
  destruct (m w) as [[a|e] w']; [exact Hm|apply Hh].
Qed.

Ltac reports_step IH :=
  lazymatch goal with
  | |- reports (bind (ret _) _) => apply reports_bind_ret; cbv beta iota
  | |- reports (bind _ _) => apply reports_bind; intros ?
  | |- reports (try_except _ _) => apply reports_try; [|intros ?]
  | |- reports (ret (Some _)) => apply reports_ret
  | |- reports (raise _) => apply reports_raise
  | |- reports (if ?b then _ else _) => destruct b
  | |- reports (check_task _ _ _ _ _ None) => apply IH
  end.

Lemma probe_reports (depth : nat) (task : string) : reports (probe depth task None).
Proof.
  induction depth as [|depth IH]; [apply reports_raise|].
  cbn [check_task hint_is_running].
  repeat reports_step IH.
Qed.

(** X13: without a hint [check_task] never answers with the empty
    dictionary: whenever it returns, it returns a status and its
    evidence.  (The empty answer is reserved for "as the hint says".) *)
Theorem probe_without_hint_reports (depth : nat) (task : string) (w : world) :
  fst (probe depth task None w) <> Ok None.
Proof. apply probe_reports. Qed.

(** The first statement of [check_task] on a hint that does not
    short-circuit it. *)
Lemma stale_hint_run (hint : option report) (w : world) :
  hint_is_stale w hint ->
  exists evs,
    (match hint with
     | Some h =>
       if negb (str_in (r_status h) ["pending"; "running"])
       then evidence_unchanged (r_files h)
       else ret false
     | None => ret false
     end) w = (Ok false, add_trace evs w)
    /\ Forall (hint_event (hint_files hint)) evs.
Proof.
  intros Hstale. destruct hint as [h|]; cbn [hint_is_stale hint_files] in *.
  - destruct (str_in (r_status h) ["pending"; "running"]) eqn:Hlive; cbn [negb].
    + exists []. rewrite add_trace_nil. split; [reflexivity|constructor].
    + destruct Hstale as [?|Hchanged]; [discriminate|].
      destruct (evidence_unchanged_run (r_files h) w) as (evs & E & Hevs).
      exists evs. split; [|exact Hevs]. rewrite E.
      destruct (forallb _ _) eqn:Hall; [|reflexivity].
      apply forallb_evidence in Hall. contradiction.
  - exists []. rewrite add_trace_nil. split; [reflexivity|constructor].
Qed.

(** X14: a task without a record is reported missing.  For every hint
    that does not short-circuit the probe, [check_task] returns the
    status ['missing'] with the record file recorded absent (mtime 0);
    it only tests files for existence and stats the files of the hint:
    nothing is opened, written or removed. *)
Theorem missing_record_is_reported (depth : nat) (task : string)
    (hint : option report) (w : world) :
  w_fs w !! task_file home task = None ->
  hint_is_stale w hint ->
  exists evs,
    let tf := task_file home task in
    probe (S depth) task hint w
    = (Ok (Some (Report "missing" [(tf, 0)])), add_trace (evs ++ [EvIsFile tf]) w)
    /\ Forall (hint_event (hint_files hint)) evs.
Proof.
  intros Hn Hstale. cbv zeta.
  destruct (stale_hint_run hint w Hstale) as (evs & E & Hevs).
  exists evs. split; [|exact Hevs].
  cbn [check_task]. rewrite (bind_ok _ _ _ _ _ E).
  rewrite (bind_ok _ _ _ _ _ (isfile_run _ _)).
  cbn [w_fs add_trace]. rewrite Hn.
  rewrite bool_decide_false by (intros [? ?]; discriminate).
  cbn [negb]. unfold ret. rewrite add_trace_add_trace. reflexivity.
Qed.

Lemma missing_probe_run (depth : nat) (task : string) (w : world) :
  w_fs w !! task_file home task = None ->
  probe (S depth) task None w
  = (Ok (Some (Report "missing" [(task_file home task, 0)])),
     add_trace [EvIsFile (task_file home task)] w).
Proof.
  intros Hn. cbn [check_task].
  rewrite (bind_ok _ _ w w false) by reflexivity.
  rewrite (bind_ok _ _ _ _ _ (isfile_run _ _)).
  rewrite Hn. rewrite bool_decide_false by (intros [? ?]; discriminate).
  reflexivity.
Qed.

(** The probe of a task in a terminal state, without a hint. *)
Lemma terminal_probe_run (depth : nat) (task : string) (w : world) (e : file_entry)
    (s : string) :
  w_fs w !! task_file home task = Some e ->
  read_status native (e_data e) = Ok s ->
  str_in s ["failed"; "completed"; "aborted"] = true ->
  let tf := task_file home task in
  probe (S depth) task None w
  = (Ok (Some (Report s [(tf, e_mtime e)])),
     add_trace [EvIsFile tf; EvStat tf; EvOpen tf "rb"; EvStat tf] w).
Proof.
  intros Hf Hs Hin. cbv zeta. cbn [check_task].
  set (tf := task_file home task) in *.
  rewrite (bind_ok _ _ w w false) by reflexivity.
  rewrite (bind_ok _ _ _ _ _ (isfile_run tf _)).
  rewrite Hf, bool_decide_true by eauto. cbn [negb].
  erewrite bind_ok
    by (rewrite stat_mtime_run; cbn [w_fs add_trace]; rewrite Hf; reflexivity).
  rewrite add_trace_add_trace.
  erewrite bind_ok
    by (rewrite (get_status_run home native task _ e) by exact Hf; rewrite Hs; reflexivity).
  rewrite Hin. rewrite add_trace_add_trace.
  erewrite bind_ok
    by (rewrite stat_mtime_run; cbn [w_fs add_trace]; rewrite Hf; reflexivity).
  unfold ret. rewrite add_trace_add_trace. reflexivity.
Qed.

(** The probe with a hint that is not live and whose evidence holds. *)
Lemma reuse_run (depth : nat) (task : string) (h : report) (w : world) :
  str_in (r_status h) ["pending"; "running"] = false ->
  Forall (evidence_holds (w_fs w)) (r_files h) ->
  fst (probe (S depth) task (Some h) w) = Ok None.
Proof.
  intros Hlive Hev.
  destruct (evidence_unchanged_run (r_files h) w) as (evs & E & _).
  apply forallb_evidence in Hev. rewrite Hev in E.
  cbn [check_task]. rewrite Hlive. cbn [negb].
  rewrite (bind_ok _ _ _ _ _ E). reflexivity.
Qed.

(** A task whose probe has nothing more to find out: it has no record,
    or its record is in a terminal state (and was not last modified at
    time 0, which a hint reads as "absent"). *)
Definition settled (w : world) (task : string) : Prop :=
  match w_fs w !! task_file home task with
  | None => True
  | Some e =>
    e_mtime e <> 0
    /\ exists s, read_status native (e_data e) = Ok s
                 /\ str_in s ["failed"; "completed"; "aborted"] = true
  end.

(** X15: the report of a settled task is a hint that settles the next
    probe.  For a task that is missing or in a terminal state, the probe
    without hint returns a report, and the probe that is given this
    report as its hint, in the world the first probe has left, returns
    the empty dictionary. *)
Theorem settled_report_is_reused (depth depth' : nat) (task : string) (w : world) :
  settled w task ->
  exists rep,
    fst (probe (S depth) task None w) = Ok (Some rep)
    /\ fst (probe (S depth') task (Some rep)
              (snd (probe (S depth) task None w))) = Ok None.
Proof.
  unfold settled. intros Hs.
  destruct (w_fs w !! task_file home task) as [e|] eqn:Hf.
  - destruct Hs as (Hm & s & Hs & Hin).
    rewrite (terminal_probe_run depth task w e s Hf Hs Hin).
    eexists. split; [reflexivity|]. cbn [snd].
    apply reuse_run; cbn [r_status r_files].
    + unfold str_in in *. cbn [existsb] in *.
      destruct (String.eqb_spec s "failed") as [->|_]; [reflexivity|].
      destruct (String.eqb_spec s "completed") as [->|_]; [reflexivity|].
      destruct (String.eqb_spec s "aborted") as [->|_]; [reflexivity|discriminate].
    + apply List.Forall_cons; [|apply List.Forall_nil].
      right. cbn [fst snd]. split; [exact Hm|]. exists e. split; [exact Hf|reflexivity].
  - rewrite (missing_probe_run depth task w Hf). eexists. split; [reflexivity|]. cbn [snd].
    apply reuse_run; cbn [r_status r_files]; [reflexivity|].
    apply List.Forall_cons; [|apply List.Forall_nil].
    left. cbn [fst snd]. split; [reflexivity|exact Hf].
Qed.

Lemma try_except_ok {S A} (m : M S A) (h : exn -> M S A) (s s' : S) (a : A) :
  m s = (Ok a, s') -> try_except m h s = (Ok a, s').
Proof. intros E. unfold try_except. rewrite E. reflexivity. Qed.

Lemma access_w_run (path : string) (w : world) :
  access_w path w
  = (Ok (match w_fs w !! path with Some e => e_writable e | None => false end),
     add_trace [EvAccess path] w).
Proof.
  unfold access_w, bind, emit, modify, get, ret. cbn [w_fs add_trace].
  destruct (w_fs w !! path); reflexivity.
Qed.

(** The probe up to the test for a job script, on a task in a state that
    is not terminal and without pulse file; [hint] is none, or one the
    first statement passes over without looking at a file. *)
Lemma idle_probe_run (depth : nat) (task : string) (hint : option report)
    (w : world) (e : file_entry) (s : string) :
  let tf := task_file home task in
  let pf := task_path home task ".pulse" in
  let jf := task_path home task ".sh" in
  w_fs w !! tf = Some e ->
  read_status native (e_data e) = Ok s ->
  str_in s ["failed"; "completed"; "aborted"] = false ->
  w_fs w !! pf = None ->
  w_fs w !! jf = None ->
  (forall h, hint = Some h -> str_in (r_status h) ["pending"; "running"] = true) ->
  probe (S depth) task hint w
  = try_except
      (let* same :=
         match hint with
         | Some h =>
           if str_in (r_status h) ["new"; "pending"] then
             let* v := lift (files_get (r_files h) tf) in
             let* tm := stat_mtime tf in
             ret (v =? tm)
           else ret false
         | None => ret false
         end in
       if (same : bool) then ret None
       else
         let* tm := stat_mtime tf in
         ret (Some (Report s [(tf, tm); (jf, 0)])))
      (fun err =>
         let* changed := (let* m := stat_mtime tf in ret (negb (m =? e_mtime e))) in
         if (changed : bool) then probe depth task None else raise err)
      (add_trace [EvIsFile tf; EvStat tf; EvOpen tf "rb"; EvIsFile pf; EvIsFile jf] w).
Proof.
  intros tf pf jf Hf Hs Hin Hp Hj Hhint. cbn [check_task].
  fold tf pf jf.
  rewrite (bind_ok _ _ w w false).
  2:{ destruct hint as [h|]; [|reflexivity].
      rewrite (Hhint h eq_refl). reflexivity. }
  rewrite (bind_ok _ _ _ _ _ (isfile_run tf _)).
  rewrite Hf, bool_decide_true by eauto. cbn [negb].
  erewrite bind_ok
    by (rewrite stat_mtime_run; cbn [w_fs add_trace]; rewrite Hf; reflexivity).
  rewrite add_trace_add_trace.
  erewrite bind_ok
    by (rewrite (get_status_run home native task _ e) by exact Hf; rewrite Hs; reflexivity).
  rewrite Hin. rewrite add_trace_add_trace.
  erewrite bind_ok
    by (rewrite (bind_ok _ _ _ _ _ (isfile_run pf _)); cbn [w_fs add_trace];
        rewrite Hp, bool_decide_false by (intros [? ?]; discriminate); reflexivity).
  rewrite add_trace_add_trace.
  erewrite bind_ok
    by (rewrite (bind_ok _ _ _ _ _ (isfile_run jf _)); cbn [w_fs add_trace];
        rewrite Hj, bool_decide_false by (intros [? ?]; discriminate); reflexivity).
  rewrite add_trace_add_trace. reflexivity.
Qed.

(** X16: a task that waits.  Its record is in a state that is not
    terminal, and there is neither a pulse file nor a job script: without
    a hint [check_task] returns the status the record holds, with the
    record's mtime and the job script recorded absent, and changes
    nothing (it tests, stats and reads only). *)
Theorem waiting_task_keeps_its_status (depth : nat) (task : string) (w : world)
    (e : file_entry) (s : string) :
  let tf := task_file home task in
  let jf := task_path home task ".sh" in
  w_fs w !! tf = Some e ->
  read_status native (e_data e) = Ok s ->
  str_in s ["failed"; "completed"; "aborted"] = false ->
  w_fs w !! task_path home task ".pulse" = None ->
  w_fs w !! jf = None ->
  exists evs,
    probe (S depth) task None w
    = (Ok (Some (Report s [(tf, e_mtime e); (jf, 0)])), add_trace evs w).
Proof.
  intros tf jf Hf Hs Hin Hp Hj. eexists.
  rewrite (idle_probe_run depth task None w e s Hf Hs Hin Hp Hj) by discriminate.
  fold tf jf.
  erewrite try_except_ok.
  2:{ rewrite (bind_ok _ _ _ _ false) by reflexivity.
      erewrite bind_ok
        by (rewrite stat_mtime_run; cbn [w_fs add_trace]; rewrite Hf; reflexivity).
      unfold ret. rewrite add_trace_add_trace. reflexivity. }
  reflexivity.
Qed.

(** X17: a pending task that has not been picked up.  Given the hint of
    an earlier probe with status ['pending'] that recorded the mtime the
    record still has, the probe of a task without pulse file and job
    script returns the empty dictionary and changes nothing. *)
Theorem pending_hint_is_confirmed (depth : nat) (task : string) (w : world)
    (e : file_entry) (s : string) (h : report) :
  let tf := task_file home task in
  w_fs w !! tf = Some e ->
  read_status native (e_data e) = Ok s ->
  str_in s ["failed"; "completed"; "aborted"] = false ->
  w_fs w !! task_path home task ".pulse" = None ->
  w_fs w !! task_path home task ".sh" = None ->
  r_status h = "pending" ->
  files_get (r_files h) tf = Ok (e_mtime e) ->
  exists evs, probe (S depth) task (Some h) w = (Ok None, add_trace evs w).
Proof.
  intros tf Hf Hs Hin Hp Hj Hpend Hget. eexists.
  rewrite (idle_probe_run depth task (Some h) w e s Hf Hs Hin Hp Hj)
    by (intros ? [= <-]; rewrite Hpend; reflexivity).
  fold tf. rewrite Hpend. change (str_in "pending" ["new"; "pending"]) with true.
  cbv iota.
  erewrite try_except_ok.
  2:{ erewrite bind_ok.
      2:{ unfold lift. rewrite Hget.
          rewrite (bind_ok _ _ _ _ (e_mtime e)) by reflexivity.
          erewrite bind_ok
            by (rewrite stat_mtime_run; cbn [w_fs add_trace]; rewrite Hf; reflexivity).
          unfold ret. rewrite Z.eqb_refl, add_trace_add_trace. reflexivity. }
      reflexivity. }
  reflexivity.
Qed.

(** X18: a task with a fresh pulse is running.  The record is in a state
    that is not terminal and the pulse file is writable.  As the doubles
    of the interpreter decide them, the two tests of the code hold:
    [st_mtime] of the pulse file is at least [st_mtime] of the record
    minus 1, and the time elapsed since the pulse, [time.time()] minus
    [st_mtime] of the pulse file, is not below 0 and is below
    [monitor_interval] (5).  Without a hint [check_task] returns
    ['running'] with the mtimes of the record and of the pulse file as
    they were when it looked.  If the record already said [running]
    nothing is written; otherwise the status setter is called, and the
    record then holds [running] with [running_time] and [last_modified]
    at the time of the probe (so that the record's mtime is newer than the
    one reported).  The pulse file is not touched and there is no
    sleep. *)
Theorem fresh_pulse_means_running (depth : nat) (task : string) (w : world)
    (e p : file_entry) (h : TaskHeader) (s : string) :
  let tf := task_file home task in
  let pf := task_path home task ".pulse" in
  let now := float_bits (w_clock w) in
  w_fs w !! tf = Some e ->
  e_writable e = true ->
  header_of (e_data e) = Ok h ->
  is_double now ->
  read_status native (e_data e) = Ok s ->
  str_in s ["failed"; "completed"; "aborted"] = false ->
  w_fs w !! pf = Some p ->
  e_writable p = true ->
  fleb (fsub (of_mtime (e_mtime e)) (of_int 1)) (of_mtime (e_mtime p)) = true ->
  let elapsed := fsub (of_clock (w_clock w)) (of_mtime (e_mtime p)) in
  fltb elapsed (of_int 0) = false ->
  fltb elapsed (of_int monitor_interval) = true ->
  let r := probe (S depth) task None w in
  fst r = Ok (Some (Report "running" [(tf, e_mtime e); (pf, e_mtime p)]))
  /\ w_clock (snd r) = w_clock w
  /\ w_fs (snd r) !! pf = Some p
  /\ (s = "running" -> w_fs (snd r) = w_fs w)
  /\ (s <> "running" ->
       exists h',
         w_fs (snd r) !! tf
         = Some (FileEntry (header_bytes h' ++ drop (Z.to_nat header_size) (e_data e))
                   (w_clock w) true)
         /\ status h' = value running
         /\ running_time h' = now /\ last_modified h' = now
         /\ sizes h' = sizes h /\ tags h' = tags h).
Proof.
  intros tf pf now Hf Hw Hh Hnow Hs Hin Hp Hpw Hclose elapsed Hel0 Hel. cbv zeta.
  subst elapsed.
  set (rep := Report "running" [(tf, e_mtime e); (pf, e_mtime p)]).
  enough (exists w',
            probe (S depth) task None w = (Ok (Some rep), w')
            /\ w_clock w' = w_clock w
            /\ w_fs w' !! pf = Some p
            /\ (s = "running" -> w_fs w' = w_fs w)
            /\ (s <> "running" ->
                 exists h',
                   w_fs w' !! tf
                   = Some (FileEntry
                             (header_bytes h' ++ drop (Z.to_nat header_size) (e_data e))
                             (w_clock w) true)
                   /\ status h' = value running
                   /\ running_time h' = now /\ last_modified h' = now
                   /\ sizes h' = sizes h /\ tags h' = tags h))
    as (w' & E & HP) by (rewrite E; split; [reflexivity|exact HP]).
  assert (tf <> pf) as Hne.
  { intros E. apply task_path_inj in E. discriminate. }
  cbn [check_task hint_is_running]. fold tf pf.
  rewrite (bind_ok _ _ w w false) by reflexivity.
  rewrite (bind_ok _ _ _ _ _ (isfile_run tf _)).
  rewrite Hf, bool_decide_true by eauto. cbn [negb].
  erewrite bind_ok
    by (rewrite stat_mtime_run; cbn [w_fs add_trace]; rewrite Hf; reflexivity).
  rewrite add_trace_add_trace.
  erewrite bind_ok
    by (rewrite (get_status_run home native task _ e) by exact Hf; rewrite Hs; reflexivity).
  rewrite Hin. rewrite add_trace_add_trace.
  erewrite (bind_ok _ _ _ _ true).
  2:{ rewrite (bind_ok _ _ _ _ _ (isfile_run pf _)). cbn [w_fs add_trace].
      rewrite Hp, bool_decide_true by eauto.
      erewrite bind_ok
        by (rewrite stat_mtime_run; cbn [w_fs add_trace]; rewrite Hp; reflexivity).
      erewrite bind_ok
        by (rewrite stat_mtime_run; cbn [w_fs add_trace]; rewrite Hf; reflexivity).
      unfold ret. rewrite !add_trace_add_trace.
      rewrite Hclose. reflexivity. }
  cbv iota.
  set (w1 := add_trace _ w).
  set (w2 := add_trace [EvStat tf; EvStat pf; EvAccess pf; EvStat pf] w1).
  match goal with
  | |- context [try_except ?m ?retry w1] =>
    assert (m w1
            = (unless (String.eqb s "running")
                 (_set_status home float_bits task "running") ;;
               ret (Some rep)) w2) as Hinner;
      [|unfold try_except; rewrite Hinner; clear Hinner]
  end.
  { erewrite bind_ok
      by (rewrite stat_mtime_run; cbn [w1 w_fs add_trace]; rewrite Hf; reflexivity).
    erewrite bind_ok
      by (rewrite stat_mtime_run; cbn [w1 w_fs add_trace]; rewrite Hp; reflexivity).
    rewrite add_trace_add_trace.
    erewrite bind_ok
      by (rewrite access_w_run; cbn [w1 w_fs add_trace]; rewrite Hp, Hpw; reflexivity).
    cbn [negb]. rewrite add_trace_add_trace.
    erewrite bind_ok
      by (rewrite stat_mtime_run; cbn [w1 w_fs add_trace]; rewrite Hp; reflexivity).
    rewrite add_trace_add_trace.
    rewrite (bind_ok _ _ _ _ _ (time_run _)).
    cbv zeta. cbn [w1 w_clock add_trace].
    rewrite Hel0.
    rewrite (bind_ok _ _ _ _ tt) by reflexivity.
    rewrite Hel.
    reflexivity. }
  destruct (String.eqb_spec s "running") as [->|Hnr].
  - cbn [unless]. rewrite (bind_ok _ _ w2 w2 tt) by reflexivity.
    unfold ret. exists w2.
    split; [reflexivity|]. split; [reflexivity|]. split; [exact Hp|].
    split; [reflexivity|]. intros Hc. contradiction.
  - cbn [unless].
    assert (w_fs w2 !! tf = Some e) as Hf2 by exact Hf.
    assert (is_double (float_bits (w_clock w2))) as Hnow2 by exact Hnow.
    assert (running ∈ settable) as Hset.
    { unfold settable. apply list_elem_of_In. cbn. tauto. }
    destruct (set_status_accepted home float_bits w2 task e h running Hf2 Hw Hh Hnow2 Hset)
      as (h' & Hr & Hfs & Hwf & Hst & Ht & Hl & Hothers & Hv & Htg & Hsz).
    cbv zeta in *. cbn [name] in *. fold tf in Hfs.
    destruct (_set_status home float_bits task "running" w2) as [r3 w3] eqn:E3.
    cbn [fst snd] in *. subst r3.
    rewrite (bind_ok _ _ _ _ _ E3). unfold ret. exists w3.
    split; [reflexivity|].
    assert (w_clock w3 = w_clock w) as Hc3.
    { pose proof (f_equal snd E3) as E. cbn [snd] in E. rewrite <- E.
      unfold _set_status. rewrite (with_open_rw_run _ _ w2 e Hf2 Hw). reflexivity. }
    split; [exact Hc3|].
    split; [rewrite Hfs, lookup_insert_ne by exact Hne; exact Hp|].
    split; [intros Hc; contradiction|].
    intros _. exists h'.
    split; [rewrite Hfs; apply lookup_insert_eq|].
    split; [exact Hst|]. split; [exact Ht|]. split; [exact Hl|].
    split; [exact Hsz|exact Htg].
Qed.

Lemma not_a_companion (task ext : string) :
  ext ∉ companions ->
  forall ext', ext' ∈ companions -> task_path home task ext <> task_path home task ext'.
Proof.
  intros Hout ext' Hin E. apply task_path_inj in E. subst ext'. contradiction.
Qed.

Lemma record_is_no_companion (task : string) :
  forall ext, ext ∈ companions -> task_file home task <> task_path home task ext.
Proof.
  apply not_a_companion. unfold companions. intros Hin.
  apply list_elem_of_In in Hin. cbn in Hin.
  destruct Hin as [?|[?|[?|[?|[?|[]]]]]]; discriminate.
Qed.

Lemma not_terminal_not_aborted (s : string) :
  str_in s ["failed"; "completed"; "aborted"] = false -> String.eqb s "aborted" = false.
Proof.
  unfold str_in. cbn [existsb]. intros H.
  destruct (String.eqb s "failed"); [discriminate|].
  destruct (String.eqb s "completed"); [discriminate|].
  destruct (String.eqb s "aborted"); [discriminate|reflexivity].
Qed.

(** X19: a task whose pulse has stopped is aborted.  The record is in a
    state that is not terminal and the pulse file is writable.  As the
    doubles of the interpreter decide them, [st_mtime] of the pulse file
    is at least [st_mtime] of the record minus 1, and the time elapsed
    since the pulse, [time.time()] minus [st_mtime] of the pulse file,
    is not below 0, not below [monitor_interval] (5), and above twice
    [monitor_interval] (10).  Without a hint [check_task] removes the job
    script, the job id, the separate output files and the pulse file,
    sets the status of the record to [aborted] and returns ['aborted'],
    with the mtimes the record and the pulse file had when it looked; it
    does not sleep. *)
Theorem stopped_pulse_means_aborted (depth : nat) (task : string) (w : world)
    (e p : file_entry) (h : TaskHeader) (s : string) :
  let tf := task_file home task in
  let pf := task_path home task ".pulse" in
  let now := float_bits (w_clock w) in
  w_fs w !! tf = Some e ->
  e_writable e = true ->
  header_of (e_data e) = Ok h ->
  is_double now ->
  read_status native (e_data e) = Ok s ->
  str_in s ["failed"; "completed"; "aborted"] = false ->
  w_fs w !! pf = Some p ->
  e_writable p = true ->
  fleb (fsub (of_mtime (e_mtime e)) (of_int 1)) (of_mtime (e_mtime p)) = true ->
  let elapsed := fsub (of_clock (w_clock w)) (of_mtime (e_mtime p)) in
  fltb elapsed (of_int 0) = false ->
  fltb elapsed (of_int monitor_interval) = false ->
  fltb (of_int (2 * monitor_interval)) elapsed = true ->
  exists w' h',
    probe (S depth) task None w
    = (Ok (Some (Report "aborted" [(tf, e_mtime e); (pf, e_mtime p)])), w')
    /\ w_clock w' = w_clock w
    /\ (forall ext, ext ∈ companions -> w_fs w' !! task_path home task ext = None)
    /\ w_fs w' !! tf
       = Some (FileEntry (header_bytes h' ++ drop (Z.to_nat header_size) (e_data e))
                 (w_clock w) true)
    /\ status h' = value aborted
    /\ aborted_time h' = now /\ last_modified h' = now
    /\ sizes h' = sizes h /\ tags h' = tags h.
Proof.
  intros tf pf now Hf Hw Hh Hnow Hs Hin Hp Hpw Hclose elapsed Hel0 Hel5 Hel.
  subst elapsed.
  set (rep := Report "aborted" [(tf, e_mtime e); (pf, e_mtime p)]).
  pose proof (not_terminal_not_aborted s Hin) as Hna.
  cbn [check_task hint_is_running]. fold tf pf.
  rewrite (bind_ok _ _ w w false) by reflexivity.
  rewrite (bind_ok _ _ _ _ _ (isfile_run tf _)).
  rewrite Hf, bool_decide_true by eauto. cbn [negb].
  erewrite bind_ok
    by (rewrite stat_mtime_run; cbn [w_fs add_trace]; rewrite Hf; reflexivity).
  rewrite add_trace_add_trace.
  erewrite bind_ok
    by (rewrite (get_status_run home native task _ e) by exact Hf; rewrite Hs; reflexivity).
  rewrite Hin. rewrite add_trace_add_trace.
  erewrite (bind_ok _ _ _ _ true).
  2:{ rewrite (bind_ok _ _ _ _ _ (isfile_run pf _)). cbn [w_fs add_trace].
      rewrite Hp, bool_decide_true by eauto.
      erewrite bind_ok
        by (rewrite stat_mtime_run; cbn [w_fs add_trace]; rewrite Hp; reflexivity).
      erewrite bind_ok
        by (rewrite stat_mtime_run; cbn [w_fs add_trace]; rewrite Hf; reflexivity).
      unfold ret. rewrite !add_trace_add_trace.
      rewrite Hclose. reflexivity. }
  cbv iota.
  set (w1 := add_trace _ w).
  set (w2 := add_trace [EvStat tf; EvStat pf; EvAccess pf; EvStat pf; EvStat tf] w1).
  match goal with
  | |- context [try_except ?m ?retry w1] =>
    assert (m w1
            = (remove_task_files home task companions ;;
               unless (String.eqb s "aborted")
                 (_set_status home float_bits task "aborted") ;;
               ret (Some rep)) w2) as Hinner;
      [|unfold try_except; rewrite Hinner; clear Hinner]
  end.
  { erewrite bind_ok
      by (rewrite stat_mtime_run; cbn [w1 w_fs add_trace]; rewrite Hf; reflexivity).
    erewrite bind_ok
      by (rewrite stat_mtime_run; cbn [w1 w_fs add_trace]; rewrite Hp; reflexivity).
    rewrite add_trace_add_trace.
    erewrite bind_ok
      by (rewrite access_w_run; cbn [w1 w_fs add_trace]; rewrite Hp, Hpw; reflexivity).
    cbn [negb]. rewrite add_trace_add_trace.
    erewrite bind_ok
      by (rewrite stat_mtime_run; cbn [w1 w_fs add_trace]; rewrite Hp; reflexivity).
    rewrite add_trace_add_trace.
    rewrite (bind_ok _ _ _ _ _ (time_run _)).
    cbv zeta. cbn [w1 w_clock add_trace].
    rewrite Hel0.
    rewrite (bind_ok _ _ _ _ tt) by reflexivity.
    rewrite Hel5, Hel.
    erewrite (bind_ok _ _ _ _ false).
    2:{ erewrite bind_ok
          by (rewrite stat_mtime_run; cbn [w1 w_fs add_trace]; rewrite Hf; reflexivity).
        unfold ret. rewrite Z.eqb_refl. reflexivity. }
    rewrite add_trace_add_trace. reflexivity. }
  destruct (remove_task_files_run home task companions w2) as (evs & E3).
  cbn [w2 w1 w_fs w_clock w_heap w_log w_trace add_trace] in E3.
  rewrite (bind_ok _ _ _ _ _ E3).
  set (fs3 := without home (w_fs w) task companions) in *.
  set (w3 := mkWorld fs3 _ _ _ _).
  rewrite Hna. cbn [unless].
  pose proof (record_is_no_companion task) as Htf. fold tf in Htf.
  assert (w_fs w3 !! tf = Some e) as Hf3
    by (cbn [w3 w_fs]; unfold fs3; rewrite lookup_without_out by exact Htf; exact Hf).
  assert (is_double (float_bits (w_clock w3))) as Hnow3 by exact Hnow.
  assert (aborted ∈ settable) as Hset.
  { unfold settable. apply list_elem_of_In. cbn. tauto. }
  destruct (set_status_accepted home float_bits w3 task e h aborted Hf3 Hw Hh Hnow3 Hset)
    as (h' & Hr & Hfs & Hwf & Hst & Ht & Hl & Hothers & Hv & Htg & Hsz).
  cbv zeta in *. cbn [name] in *. fold tf in Hfs.
  destruct (_set_status home float_bits task "aborted" w3) as [r4 w4] eqn:E4.
  cbn [fst snd] in *. subst r4.
  rewrite (bind_ok _ _ _ _ _ E4). unfold ret. exists w4, h'.
  split; [reflexivity|].
  split.
  { pose proof (f_equal snd E4) as E. cbn [snd] in E. rewrite <- E.
    unfold _set_status. rewrite (with_open_rw_run _ _ w3 e Hf3 Hw). reflexivity. }
  split.
  { intros ext Hin'. rewrite Hfs, lookup_insert_ne by (apply Htf, Hin').
    cbn [w3 w_fs]. apply lookup_without_in, Hin'. }
  split; [rewrite Hfs; apply lookup_insert_eq|].
  split; [exact Hst|]. split; [exact Ht|]. split; [exact Hl|].
  split; [exact Hsz|exact Htg].
Qed.

End ProbeExtras.
(** ** [kill_task] *)

Section KillFacts.

Import TaskFile Probe Kill.

Variable home : string.
Variable native : byte_order.
Variable float_bits : Z -> Z.
Context {fl : float_ops}.

(** X20: [kill_task] leaves a completed task alone: where the status
    accessor returns ['completed'] it returns ['completed'], and no file
    is removed, changed or written. *)
Theorem kill_task_spares_completed (task : string) (w : world) (e : file_entry) :
  w_fs w !! task_file home task = Some e ->
  fst (_get_status home native task w) = Ok "completed" ->
  kill_task home native float_bits task w
  = (Ok "completed", add_trace [EvOpen (task_file home task) "rb"] w).
Proof.
  intros Hf Hs. rewrite (get_status_run home native task w e Hf) in Hs.
  cbn [fst] in Hs. unfold kill_task.
  erewrite bind_ok by (rewrite (get_status_run home native task w e Hf), Hs; reflexivity).
  reflexivity.
Qed.

Lemma not_a_job_file (task ext : string) :
  ext ∉ job_files ->
  forall ext', ext' ∈ job_files -> task_path home task ext <> task_path home task ext'.
Proof.
  intros Hout ext' Hin E. apply task_path_inj in E. subst ext'. contradiction.
Qed.

(** What [kill_task] leaves of the pulse file: its bytes and mtime, and
    no write permission. *)
Definition read_only (p : file_entry) : file_entry :=
  FileEntry (e_data p) (e_mtime p) false.

(** X21: [kill_task] on a task whose status reads as anything but
    ['completed'] (a failed or an aborted one too): it returns
    ['aborted']; the job script, the job id, and the separate stdout and
    stderr files are removed; the pulse file, where there is one, is kept
    with its bytes and mtime and made read-only; the record gets the
    status [aborted] with [aborted_time] and [last_modified] set to the
    time of the call, its other fields and its sections unchanged; and
    on a big-endian machine the status accessor then returns ['aborted']
    and the next probe reports ['aborted'] with the new mtime of the
    record, without touching the pulse file. *)
Theorem kill_task_aborts (depth : nat) (task : string) (w : world) (e : file_entry)
    (h : TaskHeader) (s : string) :
  w_fs w !! task_file home task = Some e ->
  e_writable e = true ->
  header_of (e_data e) = Ok h ->
  is_double (float_bits (w_clock w)) ->
  fst (_get_status home native task w) = Ok s ->
  s <> "completed" ->
  let r := kill_task home native float_bits task w in
  let now := float_bits (w_clock w) in
  exists h',
    fst r = Ok "aborted"
    /\ w_fs (snd r) !! task_file home task
       = Some (FileEntry (header_bytes h' ++ drop (Z.to_nat header_size) (e_data e))
                 (w_clock w) true)
    /\ status h' = value aborted /\ aborted_time h' = now /\ last_modified h' = now
    /\ (forall st, st <> aborted -> time_of st h' = time_of st h)
    /\ version h' = version h /\ tags h' = tags h /\ sizes h' = sizes h
    /\ (forall ext, ext ∈ job_files -> w_fs (snd r) !! task_path home task ext = None)
    /\ w_fs (snd r) !! task_path home task ".pulse"
       = read_only <$> (w_fs w !! task_path home task ".pulse")
    /\ fst (_get_status home BigEndian task (snd r)) = Ok "aborted"
    /\ exists evs,
         check_task home BigEndian float_bits (S depth) task None (snd r)
         = (Ok (Some (Report "aborted" [(task_file home task, w_clock w)])),
            add_trace evs (snd r)).
Proof.
  intros Hf Hw Hh Hnow Hs Hnc. cbv zeta.
  rewrite (get_status_run home native task w e Hf) in Hs. cbn [fst] in Hs.
  set (tf := task_file home task) in *.
  set (pf := task_path home task ".pulse").
  assert (forall ext, ext ∈ job_files -> tf <> task_path home task ext) as Htf.
  { apply not_a_job_file. unfold job_files. intros Hin.
    apply list_elem_of_In in Hin. cbn in Hin.
    destruct Hin as [?|[?|[?|[?|[]]]]]; discriminate. }
  assert (forall ext, ext ∈ job_files -> pf <> task_path home task ext) as Hpf.
  { apply not_a_job_file. unfold job_files. intros Hin.
    apply list_elem_of_In in Hin. cbn in Hin.
    destruct Hin as [?|[?|[?|[?|[]]]]]; discriminate. }
  assert (tf <> pf) as Hne.
  { intros E. apply task_path_inj in E. discriminate. }
  unfold kill_task.
  erewrite bind_ok by (rewrite (get_status_run home native task w e Hf), Hs; reflexivity).
  apply String.eqb_neq in Hnc. rewrite Hnc.
  set (w1 := add_trace _ w).
  destruct (remove_task_files_run home task job_files w1) as (evs & E1).
  rewrite (bind_ok _ _ _ _ _ E1).
  cbn [w1 w_fs w_clock w_heap w_log w_trace add_trace] in *.
  set (fs2 := without home (w_fs w) task job_files) in *.
  set (w2 := mkWorld fs2 _ _ _ _).
  fold pf.
  rewrite (bind_ok _ _ _ _ _ (isfile_run pf w2)).
  assert (fs2 !! tf = Some e) as Hf2
    by (unfold fs2; rewrite lookup_without_out by exact Htf; exact Hf).
  assert (fs2 !! pf = w_fs w !! pf) as Hp2
    by (unfold fs2; apply lookup_without_out, Hpf).
  assert (forall ext, ext ∈ job_files -> fs2 !! task_path home task ext = None) as Hj2
    by (intros ext Hin; apply lookup_without_in, Hin).
  assert (exists w3,
            (if bool_decide (is_Some (w_fs w2 !! pf))
             then chmod pf false else ret tt) (add_trace [EvIsFile pf] w2)
            = (Ok tt, w3)
            /\ w_clock w3 = w_clock w
            /\ w_fs w3 !! tf = Some e
            /\ w_fs w3 !! pf = read_only <$> (w_fs w !! pf)
            /\ (forall ext, ext ∈ job_files -> w_fs w3 !! task_path home task ext = None))
    as (w3 & E3 & Hc3 & Hf3 & Hp3 & Hj3).
  { unfold w2. cbn [w_fs]. rewrite Hp2.
    destruct (w_fs w !! pf) as [p|] eqn:Ep.
    - rewrite bool_decide_true by eauto.
      unfold chmod, bind, emit, modify, get, ret.
      cbn [w_fs w_clock w_heap w_log w_trace add_trace set_fs]. rewrite Hp2.
      eexists. split; [reflexivity|].
      cbn [w_fs w_clock w_heap w_log w_trace add_trace set_fs].
      split; [reflexivity|].
      split; [rewrite lookup_insert_ne by (intros E; apply Hne; symmetry; exact E);
              exact Hf2|].
      split; [rewrite lookup_insert_eq; reflexivity|].
      intros ext Hin. rewrite lookup_insert_ne by (apply Hpf, Hin). apply Hj2, Hin.
    - rewrite bool_decide_false by (intros [? ?]; discriminate).
      eexists. split; [reflexivity|].
      cbn [w_fs w_clock w_heap w_log w_trace add_trace set_fs].
      split; [reflexivity|]. split; [exact Hf2|].
      split; [rewrite Hp2; reflexivity|exact Hj2]. }
  rewrite (bind_ok _ _ _ _ _ E3).
  assert (is_double (float_bits (w_clock w3))) as Hnow3 by (rewrite Hc3; exact Hnow).
  assert (aborted ∈ settable) as Hset.
  { unfold settable. apply list_elem_of_In. cbn. tauto. }
  destruct (set_status_accepted home float_bits w3 task e h aborted Hf3 Hw Hh Hnow3 Hset)
    as (h' & Hr & Hfs & Hwf & Hst & Ht & Hl & Hothers & Hv & Htg & Hsz).
  cbv zeta in *. cbn [name] in *. fold tf in Hfs.
  destruct (_set_status home float_bits task "aborted" w3) as [r4 w4] eqn:E4.
  cbn [fst snd] in *. subst r4.
  rewrite (bind_ok _ _ _ _ _ E4). unfold ret. cbn [fst snd].
  exists h'.
  split; [reflexivity|].
  split; [rewrite Hfs, lookup_insert_eq, Hc3; reflexivity|].
  rewrite Hc3 in Ht, Hl.
  split; [exact Hst|]. split; [exact Ht|]. split; [exact Hl|].
  split; [exact Hothers|].
  do 3 (split; [assumption|]).
  split.
  { intros ext Hin. rewrite Hfs, lookup_insert_ne by (apply Htf, Hin). apply Hj3, Hin. }
  split.
  { rewrite Hfs, lookup_insert_ne by exact Hne. exact Hp3. }
  assert (read_status BigEndian
            (header_bytes h' ++ drop (Z.to_nat header_size) (e_data e))
          = Ok "aborted") as Hread.
  { apply (read_status_of_header BigEndian _ h' aborted); [|exact Hst].
    apply header_of_bytes, Hwf. }
  split.
  { erewrite get_status_run by (rewrite Hfs; apply lookup_insert_eq).
    exact Hread. }
  eexists.
  erewrite (terminal_probe_run home BigEndian float_bits depth task w4 _ "aborted")
    by first [rewrite Hfs; apply lookup_insert_eq|exact Hread|reflexivity].
  cbn [e_mtime]. rewrite Hc3. reflexivity.
Qed.

End KillFacts.

(** ** The probe of a queued and of a killed task *)

Section ProbeTransitions.

Import TaskFile Probe Kill.

Variable home : string.
Variable native : byte_order.
Variable float_bits : Z -> Z.
Context {fl : float_ops}.

Abbreviation probe := (check_task home native float_bits).

(** X22: a task with a job script is submitted.  The record is in a
    state that is not terminal, there is no pulse file, the job script
    [.sh] is not older than the record and the job id [.job_id] is not
    older than the script.  Without a hint [check_task] returns
    ['submitted'] with the mtime of the record, the mtime of the script,
    and the pulse file recorded absent; if the record did not say
    [submitted] the status setter is called first, so that the mtime
    reported is the time of the probe.  The report holds in the world the
    probe leaves: given back as a hint, it makes the next probe return
    the empty dictionary (mtimes are not 0). *)
Theorem queued_job_means_submitted (depth depth' : nat) (task : string) (w : world)
    (e j i : file_entry) (h : TaskHeader) (s : string) :
  let tf := task_file home task in
  let pf := task_path home task ".pulse" in
  let jf := task_path home task ".sh" in
  let now := float_bits (w_clock w) in
  let seen := if String.eqb s "submitted" then e_mtime e else w_clock w in
  let rep := Report "submitted" [(tf, seen); (jf, e_mtime j); (pf, 0)] in
  w_fs w !! tf = Some e ->
  e_writable e = true ->
  header_of (e_data e) = Ok h ->
  is_double now ->
  read_status native (e_data e) = Ok s ->
  str_in s ["failed"; "completed"; "aborted"] = false ->
  w_fs w !! pf = None ->
  w_fs w !! jf = Some j ->
  e_mtime e <= e_mtime j ->
  w_fs w !! task_path home task ".job_id" = Some i ->
  e_mtime j <= e_mtime i ->
  exists w',
    probe (S depth) task None w = (Ok (Some rep), w')
    /\ w_clock w' = w_clock w
    /\ (s = "submitted" -> w_fs w' = w_fs w)
    /\ (s <> "submitted" ->
        exists h',
          w_fs w' !! tf
          = Some (FileEntry (header_bytes h' ++ drop (Z.to_nat header_size) (e_data e))
                    (w_clock w) true)
          /\ status h' = value submitted
          /\ submitted_time h' = now /\ last_modified h' = now
          /\ sizes h' = sizes h /\ tags h' = tags h)
    /\ (seen <> 0 -> e_mtime j <> 0 ->
        fst (probe (S depth') task (Some rep) w') = Ok None).
Proof.
  intros tf pf jf now seen rep Hf Hw Hh Hnow Hs Hin Hp Hj Hje Hi Hij.
  set (jidf := task_path home task ".job_id") in *.
  assert (tf <> jf) as Hne by (intros E; apply task_path_inj in E; discriminate).
  assert (tf <> pf) as Hnp by (intros E; apply task_path_inj in E; discriminate).
  cbn [check_task hint_is_running]. fold tf pf jf jidf.
  rewrite (bind_ok _ _ w w false) by reflexivity.
  rewrite (bind_ok _ _ _ _ _ (isfile_run tf _)).
  rewrite Hf, bool_decide_true by eauto. cbn [negb].
  erewrite bind_ok
    by (rewrite stat_mtime_run; cbn [w_fs add_trace]; rewrite Hf; reflexivity).
  rewrite add_trace_add_trace.
  erewrite bind_ok
    by (rewrite (get_status_run home native task _ e) by exact Hf; rewrite Hs; reflexivity).
  rewrite Hin. rewrite add_trace_add_trace.
  erewrite (bind_ok _ _ _ _ false)
    by (rewrite (bind_ok _ _ _ _ _ (isfile_run pf _)); cbn [w_fs add_trace];
        rewrite Hp, bool_decide_false by (intros [? ?]; discriminate); reflexivity).
  rewrite add_trace_add_trace. cbv iota.
  erewrite (bind_ok _ _ _ _ true).
  2:{ rewrite (bind_ok _ _ _ _ _ (isfile_run jf _)). cbn [w_fs add_trace].
      rewrite Hj, bool_decide_true by eauto.
      erewrite bind_ok
        by (rewrite stat_mtime_run; cbn [w_fs add_trace]; rewrite Hj; reflexivity).
      erewrite bind_ok
        by (rewrite stat_mtime_run; cbn [w_fs add_trace]; rewrite Hf; reflexivity).
      assert ((e_mtime e <=? e_mtime j) = true) as -> by (apply Z.leb_le; exact Hje).
      rewrite (bind_ok _ _ _ _ _ (isfile_run jidf _)). cbn [w_fs add_trace].
      rewrite Hi, bool_decide_true by eauto.
      erewrite bind_ok
        by (rewrite stat_mtime_run; cbn [w_fs add_trace]; rewrite Hi; reflexivity).
      erewrite bind_ok
        by (rewrite stat_mtime_run; cbn [w_fs add_trace]; rewrite Hj; reflexivity).
      unfold ret. rewrite !add_trace_add_trace.
      assert ((e_mtime j <=? e_mtime i) = true) as -> by (apply Z.leb_le; exact Hij).
      reflexivity. }
  cbv iota. set (w1 := add_trace _ w).
  destruct (String.eqb_spec s "submitted") as [->|Hns].
  - cbn [unless].
    erewrite try_except_ok.
    2:{ rewrite (bind_ok _ _ w1 w1 tt) by reflexivity.
        erewrite bind_ok
          by (rewrite stat_mtime_run; cbn [w1 w_fs add_trace]; rewrite Hf; reflexivity).
        erewrite bind_ok
          by (rewrite stat_mtime_run; cbn [w1 w_fs add_trace]; rewrite Hj; reflexivity).
        unfold ret. rewrite add_trace_add_trace. reflexivity. }
    eexists. split; [reflexivity|].
    split; [reflexivity|]. split; [reflexivity|].
    split; [intros Hc; contradiction|].
    intros Hseen Hjm. apply reuse_run; [reflexivity|].
    cbn [r_files w_fs add_trace].
    apply List.Forall_cons.
    { right. cbn [fst snd]. split; [exact Hseen|]. exists e. split; [exact Hf|reflexivity]. }
    apply List.Forall_cons.
    { right. cbn [fst snd]. split; [exact Hjm|]. exists j. split; [exact Hj|reflexivity]. }
    apply List.Forall_cons; [|apply List.Forall_nil].
    left. cbn [fst snd]. split; [reflexivity|exact Hp].
  - cbn [unless].
    assert (w_fs w1 !! tf = Some e) as Hf1 by exact Hf.
    assert (is_double (float_bits (w_clock w1))) as Hnow1 by exact Hnow.
    assert (submitted ∈ settable) as Hset.
    { unfold settable. apply list_elem_of_In. cbn. tauto. }
    destruct (set_status_accepted home float_bits w1 task e h submitted Hf1 Hw Hh Hnow1 Hset)
      as (h' & Hr & Hfs & Hwf & Hst & Ht & Hl & Hothers & Hv & Htg & Hsz).
    cbv zeta in *. cbn [name] in *. fold tf in Hfs.
    destruct (_set_status home float_bits task "submitted" w1) as [r2 w2] eqn:E2.
    cbn [fst snd] in *. subst r2.
    assert (w_clock w2 = w_clock w) as Hc2.
    { pose proof (f_equal snd E2) as E. cbn [snd] in E. rewrite <- E.
      unfold _set_status. rewrite (with_open_rw_run _ _ w1 e Hf1 Hw). reflexivity. }
    assert (w_fs w2 !! tf
            = Some (FileEntry (header_bytes h' ++ drop (Z.to_nat header_size) (e_data e))
                      (w_clock w) true)) as Hf2
      by (rewrite Hfs; apply lookup_insert_eq).
    assert (w_fs w2 !! jf = Some j) as Hj2
      by (rewrite Hfs, lookup_insert_ne by exact Hne; exact Hj).
    assert (w_fs w2 !! pf = None) as Hp2
      by (rewrite Hfs, lookup_insert_ne by exact Hnp; exact Hp).
    erewrite try_except_ok.
    2:{ rewrite (bind_ok _ _ _ _ _ E2).
        erewrite bind_ok
          by (rewrite stat_mtime_run, Hf2; reflexivity).
        erewrite bind_ok
          by (rewrite stat_mtime_run; cbn [w_fs add_trace]; rewrite Hj2; reflexivity).
        unfold ret. rewrite add_trace_add_trace. reflexivity. }
    eexists. split; [reflexivity|].
    split; [exact Hc2|].
    split; [intros Hc; contradiction|].
    split.
    { intros _. exists h'. cbn [w_fs add_trace].
      split; [exact Hf2|].
      split; [exact Hst|]. split; [exact Ht|]. split; [exact Hl|].
      split; [exact Hsz|exact Htg]. }
    intros Hseen Hjm. apply reuse_run; [reflexivity|].
    cbn [r_files w_fs add_trace].
    apply List.Forall_cons.
    { right. cbn [fst snd]. split; [exact Hseen|]. eexists. split; [exact Hf2|reflexivity]. }
    apply List.Forall_cons.
    { right. cbn [fst snd]. split; [exact Hjm|]. exists j. split; [exact Hj2|reflexivity]. }
    apply List.Forall_cons; [|apply List.Forall_nil].
    left. cbn [fst snd]. split; [reflexivity|exact Hp2].
Qed.

(** X23: a read-only pulse file marks a killed task.  The record is in
    a state that is not terminal, the pulse file has lost its write
    permission and, as the doubles of the interpreter decide it,
    [st_mtime] of the pulse file is at least [st_mtime] of the record
    minus 1.  Without a hint [check_task] sets the status of the record
    to [aborted], removes the job script, the job id, the separate output
    files and the pulse file, and returns ['aborted'] with the new mtime
    of the record and the pulse file recorded absent, whatever the time
    elapsed since the pulse.  The report holds in the world the probe
    leaves. *)
Theorem read_only_pulse_means_aborted (depth depth' : nat) (task : string) (w : world)
    (e p : file_entry) (h : TaskHeader) (s : string) :
  let tf := task_file home task in
  let pf := task_path home task ".pulse" in
  let now := float_bits (w_clock w) in
  let rep := Report "aborted" [(tf, w_clock w); (pf, 0)] in
  w_fs w !! tf = Some e ->
  e_writable e = true ->
  header_of (e_data e) = Ok h ->
  is_double now ->
  read_status native (e_data e) = Ok s ->
  str_in s ["failed"; "completed"; "aborted"] = false ->
  w_fs w !! pf = Some p ->
  e_writable p = false ->
  fleb (fsub (of_mtime (e_mtime e)) (of_int 1)) (of_mtime (e_mtime p)) = true ->
  exists w' h',
    probe (S depth) task None w = (Ok (Some rep), w')
    /\ w_clock w' = w_clock w
    /\ (forall ext, ext ∈ companions -> w_fs w' !! task_path home task ext = None)
    /\ w_fs w' !! tf
       = Some (FileEntry (header_bytes h' ++ drop (Z.to_nat header_size) (e_data e))
                 (w_clock w) true)
    /\ status h' = value aborted
    /\ aborted_time h' = now /\ last_modified h' = now
    /\ sizes h' = sizes h /\ tags h' = tags h
    /\ (w_clock w <> 0 -> fst (probe (S depth') task (Some rep) w') = Ok None).
Proof.
  intros tf pf now rep Hf Hw Hh Hnow Hs Hin Hp Hpw Hclose.
  pose proof (not_terminal_not_aborted s Hin) as Hna.
  pose proof (record_is_no_companion home task) as Htf. fold tf in Htf.
  cbn [check_task hint_is_running]. fold tf pf.
  rewrite (bind_ok _ _ w w false) by reflexivity.
  rewrite (bind_ok _ _ _ _ _ (isfile_run tf _)).
  rewrite Hf, bool_decide_true by eauto. cbn [negb].
  erewrite bind_ok
    by (rewrite stat_mtime_run; cbn [w_fs add_trace]; rewrite Hf; reflexivity).
  rewrite add_trace_add_trace.
  erewrite bind_ok
    by (rewrite (get_status_run home native task _ e) by exact Hf; rewrite Hs; reflexivity).
  rewrite Hin. rewrite add_trace_add_trace.
  erewrite (bind_ok _ _ _ _ true).
  2:{ rewrite (bind_ok _ _ _ _ _ (isfile_run pf _)). cbn [w_fs add_trace].
      rewrite Hp, bool_decide_true by eauto.
      erewrite bind_ok
        by (rewrite stat_mtime_run; cbn [w_fs add_trace]; rewrite Hp; reflexivity).
      erewrite bind_ok
        by (rewrite stat_mtime_run; cbn [w_fs add_trace]; rewrite Hf; reflexivity).
      unfold ret. rewrite !add_trace_add_trace.
      rewrite Hclose. reflexivity. }
  cbv iota.
  set (w1 := add_trace _ w).
  set (w2 := add_trace [EvStat tf; EvStat pf; EvAccess pf] w1).
  match goal with
  | |- context [try_except ?m ?retry w1] =>
    assert (m w1
            = (unless (String.eqb s "aborted")
                 (_set_status home float_bits task "aborted") ;;
               remove_task_files home task companions ;;
               let* tm := stat_mtime tf in
               ret (Some (Report "aborted" [(tf, tm); (pf, 0)]))) w2) as Hinner;
      [|unfold try_except; rewrite Hinner; clear Hinner]
  end.
  { erewrite bind_ok
      by (rewrite stat_mtime_run; cbn [w1 w_fs add_trace]; rewrite Hf; reflexivity).
    erewrite bind_ok
      by (rewrite stat_mtime_run; cbn [w1 w_fs add_trace]; rewrite Hp; reflexivity).
    rewrite add_trace_add_trace.
    erewrite bind_ok
      by (rewrite access_w_run; cbn [w1 w_fs add_trace]; rewrite Hp, Hpw; reflexivity).
    cbn [negb]. rewrite add_trace_add_trace. reflexivity. }
  rewrite Hna. cbn [unless].
  assert (w_fs w2 !! tf = Some e) as Hf2 by exact Hf.
  assert (is_double (float_bits (w_clock w2))) as Hnow2 by exact Hnow.
  assert (aborted ∈ settable) as Hset.
  { unfold settable. apply list_elem_of_In. cbn. tauto. }
  destruct (set_status_accepted home float_bits w2 task e h aborted Hf2 Hw Hh Hnow2 Hset)
    as (h' & Hr & Hfs & Hwf & Hst & Ht & Hl & Hothers & Hv & Htg & Hsz).
  cbv zeta in *. cbn [name] in *. fold tf in Hfs.
  destruct (_set_status home float_bits task "aborted" w2) as [r3 w3] eqn:E3.
  cbn [fst snd] in *. subst r3.
  assert (w_clock w3 = w_clock w) as Hc3.
  { pose proof (f_equal snd E3) as E. cbn [snd] in E. rewrite <- E.
    unfold _set_status. rewrite (with_open_rw_run _ _ w2 e Hf2 Hw). reflexivity. }
  rewrite (bind_ok _ _ _ _ _ E3).
  destruct (remove_task_files_run home task companions w3) as (evs & E4).
  rewrite (bind_ok _ _ _ _ _ E4).
  set (fs4 := without home (w_fs w3) task companions) in *.
  assert (fs4 !! tf
          = Some (FileEntry (header_bytes h' ++ drop (Z.to_nat header_size) (e_data e))
                    (w_clock w) true)) as Hf4.
  { unfold fs4. rewrite lookup_without_out by exact Htf.
    rewrite Hfs. apply lookup_insert_eq. }
  assert (forall ext, ext ∈ companions -> fs4 !! task_path home task ext = None) as Hc4
    by (intros ext Hext; apply lookup_without_in, Hext).
  erewrite bind_ok
    by (rewrite stat_mtime_run; cbn [w_fs]; rewrite Hf4; reflexivity).
  unfold ret. cbn [e_mtime add_trace w_fs w_clock w_heap w_log w_trace].
  eexists. exists h'.
  split; [reflexivity|].
  cbn [w_fs w_clock].
  split; [exact Hc3|]. split; [exact Hc4|]. split; [exact Hf4|].
  split; [exact Hst|].
  split; [exact Ht|]. split; [exact Hl|].
  split; [exact Hsz|]. split; [exact Htg|].
  intros Hclock. apply reuse_run; [reflexivity|].
  cbn [r_files w_fs].
  apply List.Forall_cons.
  { right. cbn [fst snd]. split; [exact Hclock|].
    eexists. split; [exact Hf4|reflexivity]. }
  apply List.Forall_cons; [|apply List.Forall_nil].
  left. cbn [fst snd]. split; [reflexivity|].
  apply Hc4. apply list_elem_of_In. cbn. tauto.
Qed.

End ProbeTransitions.

(** * Further properties of master tasks *)

Section MasterExtras.

Import Master.

Variable expand_time : rtval -> Z.
Variable expand_size : rtval -> Z.
Variable format_HHMMSS : Z -> string.
Context {targets_ops : sos_targets_ops}.

Abbreviation push := (Master.push expand_time expand_size format_HHMMSS).
Abbreviation merge_key := (Master.merge_key expand_time expand_size format_HHMMSS).
Abbreviation merge_keys := (Master.merge_keys expand_time expand_size format_HHMMSS).

(** Two masters that differ in [sos_dict] at most. *)
Definition same_but_dict (m m' : MasterTaskParams) : Prop :=
  ID m' = ID m /\ name m' = name m /\ raw_dict m' = raw_dict m
  /\ num_workers m' = num_workers m /\ tags m' = tags m
  /\ task_stack m' = task_stack m.

Lemma same_but_dict_refl (m : MasterTaskParams) : same_but_dict m m.
Proof. repeat split. Qed.

Lemma same_but_dict_trans (m1 m2 m3 : MasterTaskParams) :
  same_but_dict m1 m2 -> same_but_dict m2 m3 -> same_but_dict m1 m3.
Proof.
  intros (A1 & A2 & A3 & A4 & A5 & A6) (B1 & B2 & B3 & B4 & B5 & B6).
  repeat split; congruence.
Qed.

Lemma same_but_dict_set (d : sos_dict_t) (m : MasterTaskParams) :
  same_but_dict m (set_sos_dict d m).
Proof. repeat split. Qed.

Lemma merge_key_any (params : TaskParams) (key : string) (m : MasterTaskParams) :
  same_but_dict m (snd (merge_key params key m)).
Proof.
  unfold Master.merge_key, bind, get, modify, raise, ret.
  destruct (task_stack m) as [|[fid first] rest]; [apply same_but_dict_refl|].
  destruct (negb _); [apply same_but_dict_refl|].
  destruct (runtime_get (tp_sos_dict first) key) as [|c|s];
    [apply same_but_dict_refl| |];
    (destruct (String.eqb key "walltime"); [apply same_but_dict_set|]);
    (destruct (String.eqb key "mem"); [apply same_but_dict_set|]);
    (destruct (String.eqb key "cores");
     [first [apply same_but_dict_set|apply same_but_dict_refl]|]);
    (destruct (String.eqb key "name");
     [apply same_but_dict_set|apply same_but_dict_refl]).
Qed.

Lemma merge_keys_any (params : TaskParams) (keys : list string) (m : MasterTaskParams) :
  same_but_dict m (snd (merge_keys params keys m)).
Proof.
  revert m. induction keys as [|key keys IH]; intros m; [apply same_but_dict_refl|].
  cbn [Master.merge_keys]. unfold bind.
  pose proof (merge_key_any params key m) as H1.
  destruct (merge_key params key m) as [[[]|e] m1]; cbn [snd] in *; [|exact H1].
  eapply same_but_dict_trans; [exact H1|apply IH].
Qed.

Lemma copy_keys_any (params : TaskParams) (keys : list string) (m : MasterTaskParams) :
  fst (copy_keys params keys m) = Ok tt
  /\ same_but_dict m (snd (copy_keys params keys m)).
Proof.
  revert m. induction keys as [|key keys IH]; intros m.
  - split; [reflexivity|apply same_but_dict_refl].
  - cbn [copy_keys]. unfold bind at 1.
    destruct (_runtime (tp_sos_dict params) !! key) as [[|c|s]|];
      unfold ret, modify; cbn [fst snd];
      destruct (IH m) as (A & B);
      try (split; [exact A|exact B]);
      destruct (IH (set_runtime key (VInt c) m)) as (A1 & B1) || idtac;
      destruct (IH (set_runtime key (VStr s) m)) as (A2 & B2) || idtac;
      (split; [assumption|]);
      (eapply same_but_dict_trans; [apply same_but_dict_set|eassumption]).
Qed.

(** X24: a push that raises leaves the batch as it was.  Whatever the
    exception (a resource that differs, a value of [cores] that is not a
    number, a parameter object without [tags]), the stack of sub-tasks,
    the tags, the ID, the name, [raw_dict] and [num_workers] of the
    master are unchanged; only [sos_dict] may already have been
    rewritten. *)
Theorem refused_push_keeps_the_batch (m : MasterTaskParams) (task_id : string)
    (params : TaskParams) (e : exn) :
  fst (push task_id params m) = Raise e ->
  same_but_dict m (snd (push task_id params m)).
Proof.
  destruct (push task_id params m) as [r m'] eqn:E. cbn [fst snd].
  intros ->. unfold Master.push, bind at 1, get in E.
  destruct (task_stack m) as [|[fid first] rest] eqn:Hstack.
  - destruct (copy_keys_any params first_keys m) as (A & B).
    destruct (copy_keys params first_keys m) as [r1 m1] eqn:E1.
    cbn [fst snd] in A, B. subst r1.
    unfold bind, modify, tags_of, ret, raise in E. rewrite E1 in E.
    destruct (tp_tags params) as [t|]; [discriminate E|].
    injection E as _ <-.
    eapply same_but_dict_trans; [exact B|apply same_but_dict_set].
  - pose proof (merge_keys_any params identity_keys m) as B.
    destruct (merge_keys params identity_keys m) as [[[]|e1] m1] eqn:E1;
      cbn [snd] in B; unfold bind, modify, tags_of, ret, raise in E; rewrite E1 in E.
    + destruct (tp_tags params) as [t|]; [discriminate E|].
      injection E as _ <-. exact B.
    + injection E as _ <-. exact B.
Qed.

(** The tags of the master after a push that returns. *)
Lemma push_tags (m : MasterTaskParams) (task_id : string) (params : TaskParams) :
  fst (push task_id params m) = Ok tt ->
  exists t,
    tp_tags params = Some t
    /\ tags (snd (push task_id params m))
       = sorted_set (match task_stack m with [] => t | _ => tags m ++ t end).
Proof.
  destruct (push task_id params m) as [r m'] eqn:E. cbn [fst snd].
  intros ->. unfold Master.push, bind at 1, get in E.
  destruct (task_stack m) as [|[fid first] rest] eqn:Hstack.
  - destruct (copy_keys_any params first_keys m) as (A & B).
    destruct (copy_keys params first_keys m) as [r1 m1] eqn:E1.
    cbn [fst snd] in A, B. subst r1.
    unfold bind, modify, tags_of, ret, raise in E. rewrite E1 in E.
    destruct (tp_tags params) as [t|]; [|discriminate E].
    injection E as <-. exists t. split; reflexivity.
  - pose proof (merge_keys_any params identity_keys m) as (_ & _ & _ & _ & B & _).
    destruct (merge_keys params identity_keys m) as [[[]|e1] m1] eqn:E1;
      cbn [snd] in B; unfold bind, modify, tags_of, ret, raise in E; rewrite E1 in E;
      [|discriminate E].
    destruct (tp_tags params) as [t|]; [|discriminate E].
    injection E as <-. exists t. split; [reflexivity|].
    cbn [tags set_tags set_sos_dict]. rewrite B. reflexivity.
Qed.

(** [a <= b] on tags. *)
Definition tag_le (a b : string) : Prop := String.leb a b = true.

Lemma elem_of_str_insert (s x : string) (l : list string) :
  x ∈ str_insert s l <-> x = s \/ x ∈ l.
Proof.
  induction l as [|t l IH]; cbn [str_insert].
  - rewrite list_elem_of_singleton, elem_of_nil. tauto.
  - destruct (String.leb s t).
    + apply elem_of_cons.
    + fold (str_insert s l). rewrite !elem_of_cons, IH. tauto.
Qed.

Lemma NoDup_str_insert (s : string) (l : list string) :
  s ∉ l -> NoDup l -> NoDup (str_insert s l).
Proof.
  induction l as [|t l IH]; cbn [str_insert]; intros Hs Hl.
  - apply NoDup_singleton.
  - destruct (String.leb s t).
    + apply NoDup_cons. split; assumption.
    + fold (str_insert s l). apply NoDup_cons in Hl as [Ht Hl].
      apply NoDup_cons. split.
      * rewrite elem_of_str_insert. intros [->|?]; [|contradiction].
        apply Hs, elem_of_cons. auto.
      * apply IH; [|exact Hl]. intros ?. apply Hs, elem_of_cons. auto.
Qed.

Lemma HdRel_str_insert (a s : string) (l : list string) :
  tag_le a s -> HdRel tag_le a l -> HdRel tag_le a (str_insert s l).
Proof.
  intros Has Hal. destruct l as [|t l]; cbn [str_insert].
  - constructor. exact Has.
  - destruct (String.leb s t); constructor; [exact Has|].
    inversion Hal. assumption.
Qed.

Lemma Sorted_str_insert (s : string) (l : list string) :
  Sorted tag_le l -> Sorted tag_le (str_insert s l).
Proof.
  induction l as [|t l IH]; cbn [str_insert]; intros Hl.
  - repeat constructor.
  - destruct (String.leb s t) eqn:E.
    + constructor; [exact Hl|]. constructor. exact E.
    + fold (str_insert s l). inversion Hl as [|? ? Hl' Hhd]; subst.
      constructor; [apply IH, Hl'|].
      apply HdRel_str_insert; [|exact Hhd].
      destruct (String.leb_total s t) as [Hst|Hts]; [congruence|exact Hts].
Qed.

Lemma sorted_set_spec (l : list string) :
  Sorted tag_le (sorted_set l) /\ NoDup (sorted_set l)
  /\ forall x, x ∈ sorted_set l <-> x ∈ l.
Proof.
  unfold sorted_set.
  assert (forall k : list string, NoDup k ->
            Sorted tag_le (foldr str_insert [] k) /\ NoDup (foldr str_insert [] k)
            /\ forall x, x ∈ foldr str_insert [] k <-> x ∈ k) as H.
  { induction k as [|a k IH]; intros Hk; cbn [foldr].
    - split; [constructor|]. split; [constructor|]. tauto.
    - apply NoDup_cons in Hk as [Ha Hk]. destruct (IH Hk) as (S1 & N1 & M1).
      split; [apply Sorted_str_insert, S1|].
      split; [apply NoDup_str_insert; [rewrite M1; exact Ha|exact N1]|].
      intros x. rewrite elem_of_str_insert, elem_of_cons, M1. tauto. }
  destruct (H (remove_dups l) (NoDup_remove_dups l)) as (S1 & N1 & M1).
  split; [exact S1|]. split; [exact N1|].
  intros x. rewrite M1. apply elem_of_remove_dups.
Qed.

(** X25: after every push that returns, the tags of the master are in
    ascending order and without repetition, and they are exactly the tags
    of the pushed sub-task together with, on a master that already held a
    sub-task, the tags it had.  (On the first push the tags the master
    had before are replaced.) *)
Theorem pushed_tags_are_sorted_and_unique (m : MasterTaskParams) (task_id : string)
    (params : TaskParams) :
  fst (push task_id params m) = Ok tt ->
  let tags' := tags (snd (push task_id params m)) in
  Sorted tag_le tags' /\ NoDup tags'
  /\ exists t,
       tp_tags params = Some t
       /\ forall x, x ∈ tags' <-> x ∈ t \/ (task_stack m <> [] /\ x ∈ tags m).
Proof.
  intros Hr. cbv zeta. destruct (push_tags m task_id params Hr) as (t & Ht & ->).
  destruct (sorted_set_spec (match task_stack m with [] => t | _ => tags m ++ t end))
    as (S1 & N1 & M1).
  split; [exact S1|]. split; [exact N1|].
  exists t. split; [exact Ht|]. intros x. rewrite M1.
  destruct (task_stack m) as [|a l].
  - split; [auto|]. intros [?|[? _]]; [assumption|contradiction].
  - rewrite elem_of_app. split.
    + intros [?|?]; [right; split; [discriminate|assumption]|left; assumption].
    + intros [?|[_ ?]]; auto.
Qed.

(** What [copy_keys] leaves under a key of [_runtime]. *)
Lemma copy_keys_lookup (params : TaskParams) (keys : list string)
    (m : MasterTaskParams) (key : string) :
  _runtime (sos_dict (snd (copy_keys params keys m))) !! key
  = match (if decide (key ∈ keys) then _runtime (tp_sos_dict params) !! key else None) with
    | Some VNone | None => _runtime (sos_dict m) !! key
    | Some v => Some v
    end.
Proof.
  revert m. induction keys as [|k keys IH]; intros m.
  - cbn [copy_keys]. rewrite decide_False by apply not_elem_of_nil. reflexivity.
  - cbn [copy_keys]. unfold bind at 1.
    assert (forall m1 : MasterTaskParams,
              (forall key', key' <> k ->
                 _runtime (sos_dict m1) !! key' = _runtime (sos_dict m) !! key') ->
              _runtime (sos_dict m1) !! k
              = match _runtime (tp_sos_dict params) !! k with
                | Some VNone | None => _runtime (sos_dict m) !! k
                | Some v => Some v
                end ->
              _runtime (sos_dict (snd (copy_keys params keys m1))) !! key
              = match (if decide (key ∈ k :: keys)
                       then _runtime (tp_sos_dict params) !! key else None) with
                | Some VNone | None => _runtime (sos_dict m) !! key
                | Some v => Some v
                end) as Hstep.
    { intros m1 Hother Hk. rewrite IH.
      destruct (decide (key = k)) as [->|Hne].
      - rewrite (decide_True (P := k ∈ k :: keys)) by (apply elem_of_cons; auto).
        rewrite Hk.
        destruct (decide (k ∈ keys)); [|reflexivity].
        destruct (_runtime (tp_sos_dict params) !! k) as [[|c|s]|]; reflexivity.
      - rewrite (Hother key Hne).
        destruct (decide (key ∈ keys)) as [Hin|Hout].
        + rewrite (decide_True (P := key ∈ k :: keys)) by (apply elem_of_cons; auto).
          reflexivity.
        + rewrite (decide_False (P := key ∈ k :: keys))
            by (rewrite elem_of_cons; tauto).
          reflexivity. }
    destruct (_runtime (tp_sos_dict params) !! k) as [[|c|s]|] eqn:Ek;
      unfold ret, modify; cbn [fst snd].
    + apply Hstep; [reflexivity..].
    + apply Hstep.
      * intros key' Hne. cbn. apply lookup_insert_ne. congruence.
      * cbn. apply lookup_insert_eq.
    + apply Hstep.
      * intros key' Hne. cbn. apply lookup_insert_ne. congruence.
      * cbn. apply lookup_insert_eq.
    + apply Hstep; [reflexivity..].
Qed.

(** X26: the first push.  On a master without sub-tasks, the push of a
    parameter object that has its [tags] returns; the master then holds
    that one sub-task, its ID and name are [M1_] followed by the task id,
    its tags are the sorted tags of the sub-task, its step name is the
    sub-task's, [raw_dict] is the new [sos_dict], and under each of the
    thirteen resource keys its [_runtime] holds the value the sub-task
    defines there; a key the sub-task leaves out or sets to [None], and
    every other key, keeps what the master had. *)
Theorem first_push_takes_over (m : MasterTaskParams) (task_id : string)
    (params : TaskParams) (t : list string) :
  task_stack m = [] ->
  tp_tags params = Some t ->
  let r := push task_id params m in
  fst r = Ok tt
  /\ task_stack (snd r) = [(task_id, params)]
  /\ ID (snd r) = "M1_" +:+ task_id
  /\ name (snd r) = "M1_" +:+ task_id
  /\ tags (snd r) = sorted_set t
  /\ step_name (sos_dict (snd r)) = step_name (tp_sos_dict params)
  /\ raw_dict (snd r) = sos_dict (snd r)
  /\ forall key,
       _runtime (sos_dict (snd r)) !! key
       = match (if decide (key ∈ first_keys)
                then _runtime (tp_sos_dict params) !! key else None) with
         | Some VNone | None => _runtime (sos_dict m) !! key
         | Some v => Some v
         end.
Proof.
  intros Hstack Ht. cbv zeta.
  destruct (copy_keys_any params first_keys m) as (A & B).
  pose proof (copy_keys_lookup params first_keys m) as L.
  destruct (copy_keys params first_keys m) as [r1 m1] eqn:E1.
  cbn [fst snd] in A, B, L. subst r1.
  destruct B as (_ & _ & _ & _ & _ & Hs1).
  assert (push task_id params m
          = (Ok tt,
             let d := sos_dict m1 in
             let p := tp_sos_dict params in
             let d' := mkDict (_runtime d) (step_name p)
                         (extend_targets (_input d) (_input p))
                         (extend_targets (_output d) (_output p))
                         (extend_targets (_depends d) (_depends p)) in
             mkMaster ("M1_" +:+ task_id) ("M1_" +:+ task_id) (global_def m1) (task m1)
               d' d' (num_workers m1) (sorted_set t) [(task_id, params)])) as E.
  { unfold Master.push, bind at 1, get. rewrite Hstack.
    unfold bind, modify, tags_of, ret. rewrite E1, Ht.
    cbn [sos_dict set_sos_dict set_step_name set_tags task_stack tags
         _runtime step_name _input _output _depends global_def task num_workers].
    rewrite Hs1, Hstack. reflexivity. }
  rewrite E. cbn [fst snd]. cbv zeta.
  cbn [task_stack ID name tags sos_dict raw_dict step_name _runtime].
  repeat (split; [reflexivity|]). exact L.
Qed.

(** The rows and columns [push] lays the sub-tasks out in, for a master
    of [workers] workers that holds [n] sub-tasks. *)
Definition rows (workers n : Z) : Z :=
  if workers <=? 1 then n
  else (n + 1) / workers + (if (n + 1) mod workers =? 0 then 0 else 1).

Definition columns (workers n : Z) : Z :=
  if workers =? 0 then 1
  else if 1 <? rows workers n then workers
  else n + 1.

Lemma merge_key_same (params first : TaskParams) (first_id : string)
    (rest : list (string * TaskParams)) (key : string) (m : MasterTaskParams) :
  task_stack m = (first_id, first) :: rest ->
  cores_is_int first ->
  runtime_get (tp_sos_dict first) key = runtime_get (tp_sos_dict params) key ->
  let n := Z.of_nat (length (task_stack m)) in
  let workers := num_workers m in
  exists m',
    merge_key params key m = (Ok tt, m')
    /\ same_but_dict m m'
    /\ (forall k, k <> key ->
          _runtime (sos_dict m') !! k = _runtime (sos_dict m) !! k)
    /\ (key = "walltime" ->
        runtime_get (tp_sos_dict first) "walltime" <> VNone ->
        _runtime (sos_dict m') !! "walltime"
        = Some (VStr (format_HHMMSS
                        (rows workers n
                         * expand_time (runtime_get (tp_sos_dict first) "walltime")))))
    /\ (key = "cores" ->
        forall c, runtime_get (tp_sos_dict first) "cores" = VInt c ->
          _runtime (sos_dict m') !! "cores"
          = Some (VInt (columns workers n * c + (if 0 <? workers then 1 else 0)))).
Proof.
  intros Hstack Hcores Heq. cbv zeta.
  unfold Master.merge_key, bind, get. rewrite Hstack, <- Heq.
  rewrite (proj2 (rtval_eqb_spec _ _) eq_refl). cbn [negb].
  fold (rows (num_workers m) (Z.of_nat (length ((first_id, first) :: rest)))).
  fold (columns (num_workers m) (Z.of_nat (length ((first_id, first) :: rest)))).
  assert (forall v : rtval,
            exists m',
              modify (set_runtime key v) m = (Ok tt, m')
              /\ same_but_dict m m'
              /\ (forall k, k <> key ->
                    _runtime (sos_dict m') !! k = _runtime (sos_dict m) !! k)
              /\ _runtime (sos_dict m') !! key = Some v) as Hset.
  { intros v. eexists. split; [reflexivity|].
    split; [apply same_but_dict_set|].
    split; [intros k Hk; cbn; apply lookup_insert_ne; congruence|].
    cbn. apply lookup_insert_eq. }
  assert (exists m',
            ret tt m = (Ok tt, m')
            /\ same_but_dict m m'
            /\ (forall k, k <> key ->
                  _runtime (sos_dict m') !! k = _runtime (sos_dict m) !! k)) as Hret.
  { exists m. split; [reflexivity|]. split; [apply same_but_dict_refl|]. auto. }
  destruct (runtime_get (tp_sos_dict first) key) as [|c|s] eqn:Ev.
  - destruct Hret as (m' & E & HB & HO). exists m'.
    split; [exact E|]. split; [exact HB|]. split; [exact HO|].
    split; [intros ->; rewrite Ev; congruence|].
    intros -> c Hc. rewrite Ev in Hc. discriminate.
  - destruct (String.eqb_spec key "walltime") as [->|N1].
    { destruct (Hset (VStr (format_HHMMSS
                (rows (num_workers m) (Z.of_nat (length ((first_id, first) :: rest)))
                 * expand_time (VInt c))))) as (m' & E & HB & HO & HK).
      exists m'. split; [exact E|]. split; [exact HB|]. split; [exact HO|].
      split; [intros _ _; rewrite Ev; exact HK|discriminate]. }
    destruct (String.eqb_spec key "mem") as [->|N2].
    { destruct (Hset (VInt
                (columns (num_workers m) (Z.of_nat (length ((first_id, first) :: rest)))
                 * expand_size (VInt c)
                 + (if 0 <? num_workers m then expand_size (VStr "100M") else 0))))
        as (m' & E & HB & HO & HK).
      exists m'. split; [exact E|]. split; [exact HB|]. split; [exact HO|].
      split; discriminate. }
    destruct (String.eqb_spec key "cores") as [->|N3].
    { destruct (Hset (VInt
                (columns (num_workers m) (Z.of_nat (length ((first_id, first) :: rest))) * c
                 + (if 0 <? num_workers m then 1 else 0))))
        as (m' & E & HB & HO & HK).
      exists m'. split; [exact E|]. split; [exact HB|]. split; [exact HO|].
      split; [discriminate|]. intros _ c' Hc. rewrite Ev in Hc.
      injection Hc as <-. exact HK. }
    destruct (String.eqb_spec key "name") as [->|N4].
    { destruct (Hset (VStr (format (VInt c) +:+ "_"
                +:+ pretty (Z.of_nat (length ((first_id, first) :: rest)) + 1))))
        as (m' & E & HB & HO & HK).
      exists m'. split; [exact E|]. split; [exact HB|]. split; [exact HO|].
      split; discriminate. }
    destruct Hret as (m' & E & HB & HO). exists m'.
    split; [exact E|]. split; [exact HB|]. split; [exact HO|].
    split; [intros ->; contradiction|intros ->; contradiction].
  - destruct (String.eqb_spec key "walltime") as [->|N1].
    { destruct (Hset (VStr (format_HHMMSS
                (rows (num_workers m) (Z.of_nat (length ((first_id, first) :: rest)))
                 * expand_time (VStr s))))) as (m' & E & HB & HO & HK).
      exists m'. split; [exact E|]. split; [exact HB|]. split; [exact HO|].
      split; [intros _ _; rewrite Ev; exact HK|discriminate]. }
    destruct (String.eqb_spec key "mem") as [->|N2].
    { destruct (Hset (VInt
                (columns (num_workers m) (Z.of_nat (length ((first_id, first) :: rest)))
                 * expand_size (VStr s)
                 + (if 0 <? num_workers m then expand_size (VStr "100M") else 0))))
        as (m' & E & HB & HO & HK).
      exists m'. split; [exact E|]. split; [exact HB|]. split; [exact HO|].
      split; discriminate. }
    destruct (String.eqb_spec key "cores") as [->|N3].
    { unfold cores_is_int in Hcores. rewrite Ev in Hcores. contradiction. }
    destruct (String.eqb_spec key "name") as [->|N4].
    { destruct (Hset (VStr (format (VStr s) +:+ "_"
                +:+ pretty (Z.of_nat (length ((first_id, first) :: rest)) + 1))))
        as (m' & E & HB & HO & HK).
      exists m'. split; [exact E|]. split; [exact HB|]. split; [exact HO|].
      split; discriminate. }
    destruct Hret as (m' & E & HB & HO). exists m'.
    split; [exact E|]. split; [exact HB|]. split; [exact HO|].
    split; [intros ->; contradiction|intros ->; contradiction].
Qed.

Lemma merge_keys_keep (params first : TaskParams) (first_id : string)
    (rest : list (string * TaskParams)) (keys : list string) (m : MasterTaskParams) :
  task_stack m = (first_id, first) :: rest ->
  cores_is_int first ->
  (forall key, key ∈ keys ->
     runtime_get (tp_sos_dict first) key = runtime_get (tp_sos_dict params) key) ->
  exists m',
    merge_keys params keys m = (Ok tt, m')
    /\ same_but_dict m m'
    /\ forall k, k ∉ keys -> _runtime (sos_dict m') !! k = _runtime (sos_dict m) !! k.
Proof.
  intros Hstack Hcores. revert m Hstack.
  induction keys as [|key keys IH]; intros m Hstack Hsame.
  - exists m. split; [reflexivity|]. split; [apply same_but_dict_refl|]. auto.
  - cbn [Master.merge_keys].
    destruct (merge_key_same params first first_id rest key m Hstack Hcores)
      as (m1 & E1 & B1 & O1 & _).
    { apply Hsame. apply elem_of_cons. auto. }
    rewrite (bind_ok _ _ _ _ _ E1).
    destruct (IH m1) as (m2 & E2 & B2 & O2).
    + destruct B1 as (_ & _ & _ & _ & _ & ->). exact Hstack.
    + intros k Hk. apply Hsame. apply elem_of_cons. auto.
    + exists m2. split; [exact E2|].
      split; [eapply same_but_dict_trans; eassumption|].
      intros k Hk. rewrite O2, O1; [reflexivity| |].
      * intros ->. apply Hk, elem_of_cons. auto.
      * intros ?. apply Hk, elem_of_cons. auto.
Qed.

Lemma rows_columns_spec (workers n : Z) :
  0 <= n ->
  (workers <= 1 -> rows workers n = n)
  /\ (workers = 0 -> columns workers n = 1)
  /\ (workers = 1 -> columns workers n = if 1 <? n then 1 else n + 1)
  /\ (2 <= workers ->
      (rows workers n - 1) * workers < n + 1 <= rows workers n * workers
      /\ columns workers n = Z.min workers (n + 1)).
Proof.
  intros Hn. unfold columns, rows. split; [|split; [|split]].
  - intros Hw. destruct (Z.leb_spec workers 1); [reflexivity|lia].
  - intros ->. reflexivity.
  - intros ->. reflexivity.
  - intros Hw. destruct (Z.leb_spec workers 1); [lia|].
    destruct (Z.eqb_spec workers 0); [lia|].
    pose proof (Z.div_mod (n + 1) workers ltac:(lia)) as Hdm.
    pose proof (Z.mod_pos_bound (n + 1) workers ltac:(lia)) as Hmod.
    set (q := (n + 1) / workers) in *. set (r := (n + 1) mod workers) in *.
    assert (0 <= q) as Hq by (apply Z.div_pos; lia).
    destruct (Z.eqb_spec r 0) as [Hr|Hr].
    + rewrite Z.add_0_r. split; [nia|].
      destruct (Z.ltb_spec 1 q); nia.
    + split; [nia|].
      destruct (Z.ltb_spec 1 (q + 1)); nia.
Qed.

(** X27: a later push sizes the batch.  On a master that holds [n]
    sub-tasks, the push of a sub-task with the same resources sets the
    walltime of the master to [rows] times the walltime of the first
    sub-task and its cores to [columns] times the cores of the first
    sub-task, plus one where the master has workers.  With two workers or
    more, [rows] is the least number of rows of [num_workers] sub-tasks
    that hold all [n + 1] of them, and [columns] is the number of workers
    that are used; with at most one worker, [rows] is [n], the number of
    sub-tasks before the push.  Without workers [columns] is 1; with one
    worker it is 2 on the second push (the row count 1 is not above 1)
    and 1 on every later one. *)
Theorem later_push_sizes_the_batch (m : MasterTaskParams) (task_id : string)
    (params first : TaskParams) (first_id : string)
    (rest : list (string * TaskParams)) (t : list string) (c : Z) :
  task_stack m = (first_id, first) :: rest ->
  same_identity first params ->
  tp_tags params = Some t ->
  runtime_get (tp_sos_dict first) "walltime" <> VNone ->
  runtime_get (tp_sos_dict first) "cores" = VInt c ->
  let n := Z.of_nat (length (task_stack m)) in
  let workers := num_workers m in
  let r := push task_id params m in
  exists nrow ncol,
    fst r = Ok tt
    /\ num_tasks (snd r) = S (num_tasks m)
    /\ _runtime (sos_dict (snd r)) !! "walltime"
       = Some (VStr (format_HHMMSS
                       (nrow * expand_time (runtime_get (tp_sos_dict first) "walltime"))))
    /\ _runtime (sos_dict (snd r)) !! "cores"
       = Some (VInt (ncol * c + (if 0 <? workers then 1 else 0)))
    /\ (workers <= 1 -> nrow = n)
    /\ (workers = 0 -> ncol = 1)
    /\ (workers = 1 -> ncol = if 1 <? n then 1 else n + 1)
    /\ (2 <= workers ->
        (nrow - 1) * workers < n + 1 <= nrow * workers
        /\ ncol = Z.min workers (n + 1)).
Proof.
  intros Hstack Hsame Ht Hwt Hc. cbv zeta.
  set (n := Z.of_nat (length (task_stack m))).
  set (workers := num_workers m).
  assert (cores_is_int first) as Hcores by (unfold cores_is_int; rewrite Hc; exact I).
  exists (rows workers n), (columns workers n).
  assert (forall key, key ∈ identity_keys ->
            runtime_get (tp_sos_dict first) key = runtime_get (tp_sos_dict params) key)
    as Hall by exact Hsame.
  assert (exists m4,
            merge_keys params identity_keys m = (Ok tt, m4)
            /\ same_but_dict m m4
            /\ _runtime (sos_dict m4) !! "walltime"
               = Some (VStr (format_HHMMSS
                               (rows workers n
                                * expand_time (runtime_get (tp_sos_dict first) "walltime"))))
            /\ _runtime (sos_dict m4) !! "cores"
               = Some (VInt (columns workers n * c + (if 0 <? workers then 1 else 0))))
    as (m4 & E4 & B4 & W4 & C4).
  { unfold identity_keys in *. cbn [Master.merge_keys].
    destruct (merge_key_same params first first_id rest "walltime" m Hstack Hcores)
      as (m1 & E1 & B1 & O1 & W1 & _).
    { apply Hall. apply list_elem_of_In. cbn. tauto. }
    rewrite (bind_ok _ _ _ _ _ E1).
    pose proof B1 as (_ & _ & _ & N1 & _ & S1).
    assert (task_stack m1 = (first_id, first) :: rest) as Hstack1 by congruence.
    destruct (merge_key_same params first first_id rest "max_walltime" m1 Hstack1 Hcores)
      as (m2 & E2 & B2 & O2 & _).
    { apply Hall. apply list_elem_of_In. cbn. tauto. }
    rewrite (bind_ok _ _ _ _ _ E2).
    pose proof B2 as (_ & _ & _ & N2 & _ & S2).
    assert (task_stack m2 = (first_id, first) :: rest) as Hstack2 by congruence.
    destruct (merge_key_same params first first_id rest "cores" m2 Hstack2 Hcores)
      as (m3 & E3 & B3 & O3 & _ & C3).
    { apply Hall. apply list_elem_of_In. cbn. tauto. }
    rewrite (bind_ok _ _ _ _ _ E3).
    pose proof B3 as (_ & _ & _ & N3 & _ & S3).
    assert (task_stack m3 = (first_id, first) :: rest) as Hstack3 by congruence.
    destruct (merge_keys_keep params first first_id rest
                ["max_cores"; "mem"; "max_mem"; "name"; "cur_dir"; "home_dir"]
                m3 Hstack3 Hcores) as (m4 & E4 & B4 & O4).
    { intros key Hk. apply Hall. apply elem_of_cons. right.
      apply elem_of_cons. right. apply elem_of_cons. right. exact Hk. }
    exists m4. split; [exact E4|].
    split.
    { eapply same_but_dict_trans; [exact B1|].
      eapply same_but_dict_trans; [exact B2|].
      eapply same_but_dict_trans; [exact B3|exact B4]. }
    split.
    - rewrite O4, O3, O2 by (first [discriminate
                                  |intros Hin; apply list_elem_of_In in Hin; cbn in Hin;
                                   intuition discriminate]).
      apply W1; [reflexivity|exact Hwt].
    - rewrite O4 by (intros Hin; apply list_elem_of_In in Hin; cbn in Hin;
                     intuition discriminate).
      rewrite (C3 eq_refl c Hc). rewrite N2, N1, S2, S1. reflexivity. }
  assert (push task_id params m
          = (Ok tt,
             let d := sos_dict m4 in
             let p := tp_sos_dict params in
             let d' := mkDict (_runtime d) (step_name d)
                         (extend_targets (_input d) (_input p))
                         (extend_targets (_output d) (_output p))
                         (extend_targets (_depends d) (_depends p)) in
             let stack := task_stack m4 ++ [(task_id, params)] in
             let id := "M" +:+ pretty (length stack) +:+ "_" +:+ first_id in
             mkMaster id id (global_def m4) (task m4) d' d' (num_workers m4)
               (sorted_set (tags m4 ++ t)) stack)) as E.
  { unfold Master.push, bind at 1, get. rewrite Hstack.
    unfold bind at 1. unfold bind at 1. rewrite E4.
    unfold tags_of. rewrite Ht.
    unfold bind, ret, modify.
    cbn [sos_dict set_sos_dict set_step_name set_tags task_stack tags
         _runtime step_name _input _output _depends global_def task num_workers].
    destruct B4 as (_ & _ & _ & _ & _ & S4). rewrite S4, Hstack. reflexivity. }
  rewrite E. cbn [fst snd]. cbv zeta.
  cbn [task_stack sos_dict _runtime num_tasks].
  split; [reflexivity|].
  split.
  { unfold num_tasks. cbn [task_stack].
    destruct B4 as (_ & _ & _ & _ & _ & ->).
    rewrite length_app. cbn [length]. lia. }
  split; [exact W4|]. split; [exact C4|].
  apply rows_columns_spec. unfold n. lia.
Qed.

End MasterExtras.

(** ** The further properties on the sample installation *)

Section RecordScenes.

Import TaskFile.

Ltac in_range := unfold is_double; vm_compute; split; [discriminate|reflexivity].
Ltac evaluated := vm_compute; reflexivity.
Ltac laid_out_here :=
  split; [vm_compute; reflexivity|split; vm_compute; reflexivity].

(** X1 on the header of the sample record, written into an empty file. *)
Lemma header_written_is_header_read_witness :
  fst ((_write_header Sample.header0 ;; _read_header) (fopen []))
  = Ok (stored Sample.header0).
Proof.
  refine (proj1 (header_written_is_header_read Sample.header0 (fopen []) _ _)).
  - unfold ints_fit, sizes.
    repeat (apply List.Forall_cons; [vm_compute; reflexivity|]). apply List.Forall_nil.
  - unfold times.
    repeat (apply List.Forall_cons; [in_range|]). apply List.Forall_nil.
Defined.

(** X2 on the sample record cut off after 100 bytes. *)
Lemma short_record_is_unreadable_witness :
  fst (_get_info Sample.home Sample.task Scene.cut_world) = Raise StructError.
Proof.
  refine (proj1 (short_record_is_unreadable Sample.home Sample.lzma_decompress
                   Sample.pickle_loads Scene.cut_world Sample.task
                   (FileEntry (take 100 Sample.record0) 100 true) _ _)).
  - evaluated.
  - evaluated.
Defined.

(** X3 where no record has been saved yet. *)
Lemma writers_need_the_record_witness :
  Forall (fun m : M world unit =>
            fst (m Sample.fresh_world) = Raise FileNotFoundError
            /\ w_fs (snd (m Sample.fresh_world)) = w_fs Sample.fresh_world)
    [update Sample.home Sample.float_bits Sample.lzma_compress Sample.pickle_dumps
       Sample.task ∅;
     reset Sample.home Sample.float_bits Sample.task;
     add_outputs Sample.home Sample.float_bits Sample.lzma_compress Sample.task;
     add_result Sample.home Sample.lzma_compress Sample.pickle_dumps_dict Sample.task
       (PDict []);
     add_signature Sample.home Sample.lzma_compress Sample.pickle_dumps_dict Sample.task
       (PDict []);
     _set_status Sample.home Sample.float_bits Sample.task "running";
     _set_tags Sample.home Sample.task [];
     add_tags Sample.home Sample.task []].
Proof.
  apply (writers_need_the_record Sample.home Sample.float_bits Sample.lzma_compress
           Sample.pickle_dumps Sample.pickle_dumps_dict Sample.fresh_world Sample.task
           ∅ (PDict []) (PDict []) "running" []).
  evaluated.
Defined.

(** X4 on the completed sample record, read on a little-endian machine. *)
Lemma status_is_read_in_native_order_witness :
  fst (_get_status Sample.home LittleEndian Sample.task Sample.world1)
  = status_as_read LittleEndian completed.
Proof.
  apply (status_is_read_in_native_order Sample.home LittleEndian Sample.world1
           Sample.task Sample.entry1 Sample.header1 completed).
  - evaluated.
  - evaluated.
  - reflexivity.
Defined.

(** X5: the new sample record is set to [running]. *)
Lemma status_set_is_status_read_witness :
  let r := _set_status Sample.home Sample.float_bits Sample.task "running"
             Sample.world0 in
  fst r = Ok tt
  /\ fst (_get_status Sample.home BigEndian Sample.task (snd r)) = Ok "running".
Proof.
  apply (status_set_is_status_read Sample.home Sample.float_bits Sample.world0
           Sample.task Sample.entry0 Sample.header0 running).
  - evaluated.
  - reflexivity.
  - evaluated.
  - in_range.
  - apply list_elem_of_In. cbn. tauto.
Defined.

(** X6: [save] of the sample object, and the status read back. *)
Lemma saved_record_reads_back_witness :
  let r := save Sample.home Sample.float_bits Sample.lzma_compress Sample.pickle_dumps
             Sample.task Sample.params_ref Sample.fresh_world in
  fst r = Ok tt
  /\ fst (_get_status Sample.home LittleEndian Sample.task (snd r)) = Ok "new".
Proof.
  pose proof (saved_record_reads_back Sample.home Sample.float_bits Sample.lzma_compress
                Sample.lzma_decompress Sample.pickle_dumps Sample.pickle_loads
                LittleEndian Sample.fresh_world Sample.task Sample.params_ref
                Sample.params_obj
                (PList [PStr (Unicode.of_string "b"); PStr (Unicode.of_string "a")])
                (map byte_of_Z
                   (Unicode.ljust 128 (Unicode.of_string "a b")))) as H.
  destruct H as (H1 & _ & H3 & _).
  - evaluated.
  - evaluated.
  - evaluated.
  - evaluated.
  - in_range.
  - vm_compute. discriminate.
  - split; [exact H1|exact H3].
Defined.

(** X7: [reset] of the completed sample record. *)
Lemma reset_drops_the_outputs_witness :
  let r := reset Sample.home Sample.float_bits Sample.task Sample.world1 in
  fst (_get_params Sample.home Sample.lzma_decompress Sample.pickle_loads Sample.task
         (snd r))
  = fst (_get_params Sample.home Sample.lzma_decompress Sample.pickle_loads Sample.task
           Sample.world1)
  /\ has_sections Sample.home (snd r) Sample.task
     = [Ok false; Ok false; Ok false; Ok false].
Proof.
  destruct (reset_drops_the_outputs Sample.home Sample.float_bits Sample.lzma_decompress
              Sample.pickle_loads BigEndian Sample.world1 Sample.task Sample.entry1
              Sample.header1) as (_ & H2 & H3 & _).
  - evaluated.
  - reflexivity.
  - evaluated.
  - in_range.
  - vm_compute. discriminate.
  - vm_compute. discriminate.
  - split; [exact H2|exact H3].
Defined.

(** X8: a result added to the new sample record. *)
Lemma added_result_is_read_witness :
  let r := add_result Sample.home Sample.lzma_compress Sample.pickle_dumps_dict
             Sample.task (PDict [("ret_code", PInt 0)]) Sample.world0 in
  fst r = Ok tt /\ fst (has_result Sample.home Sample.task (snd r)) = Ok true.
Proof.
  destruct (added_result_is_read Sample.home Sample.lzma_compress Sample.lzma_decompress
              Sample.pickle_dumps_dict Sample.pickle_loads Sample.world0 Sample.task
              (PDict [("ret_code", PInt 0)]) Sample.entry0 Sample.header0
              Sample.params_block [] [] [] []) as (H1 & H2 & _).
  - evaluated.
  - reflexivity.
  - laid_out_here.
  - vm_compute. discriminate.
  - split; [evaluated|vm_compute; discriminate].
  - evaluated.
  - split; [exact H1|exact H2].
Defined.

(** X10: [add_outputs] on the completed sample record. *)
Lemma add_outputs_keeps_a_stale_header_witness :
  fst (has_result Sample.home Sample.task
         (snd (add_outputs Sample.home Sample.float_bits Sample.lzma_compress
                 Sample.task Sample.world1)))
  = Ok true.
Proof.
  destruct (add_outputs_keeps_a_stale_header Sample.home Sample.float_bits
              Sample.lzma_compress Sample.lzma_decompress Sample.pickle_loads
              Sample.world1 Sample.task Sample.entry1 Sample.header1
              Sample.params_block [] [] [] Sample.result_block [])
    as (data' & h' & H).
  - evaluated.
  - reflexivity.
  - laid_out_here.
  - discriminate.
  - in_range.
  - vm_compute. discriminate.
  - vm_compute. discriminate.
  - vm_compute. discriminate.
  - apply H.
Defined.

(** X11: a tag added to the sample record, whose tag field is blank. *)
Lemma add_tags_sets_both_witness :
  add_tags Sample.home Sample.task [Unicode.of_string "a"] Sample.world0
  = _set_tags Sample.home Sample.task ([Unicode.of_string "a"] ++ Unicode.split [])
      Sample.world0.
Proof.
  pose proof (add_tags_sets_both Sample.home Sample.world0 Sample.task Sample.entry0
                [Unicode.of_string "a"]) as H.
  change (fst (_get_tags Sample.home Sample.task Sample.world0))
    with (@Ok Unicode.pystr []) in H.
  apply H; [evaluated|reflexivity].
Defined.

(** X28: the tags setter and getter on the sample record, with two
    ASCII tags. *)
Lemma ascii_tags_round_trip_witness :
  tags_contract Sample.home Sample.world0 Sample.task Sample.entry0 Sample.header0
    [Unicode.of_string "b"; Unicode.of_string "a"].
Proof.
  apply (ascii_tags_round_trip Sample.home Sample.world0 Sample.task Sample.entry0
           Sample.header0 [Unicode.of_string "b"; Unicode.of_string "a"]).
  - evaluated.
  - reflexivity.
  - evaluated.
  - repeat (apply List.Forall_cons;
            [split; [discriminate|];
             repeat (apply List.Forall_cons; [vm_compute; repeat split; discriminate|]);
             apply List.Forall_nil|]).
    apply List.Forall_nil.
  - vm_compute. lia.
Defined.

(** X9: the outputs of the finished job are added and read. *)
Lemma added_outputs_are_read_witness :
  let r := add_outputs Sample.home Sample.float_bits Sample.lzma_compress Sample.task
             Scene.finished_job_world in
  fst r = Ok tt
  /\ fst (_get_stdout Sample.home Sample.lzma_decompress Sample.task (snd r))
     = Ok (Unicode.of_string "ok" ++ [10])
  /\ fst (_get_stderr Sample.home Sample.lzma_decompress Sample.task (snd r)) = Ok [].
Proof.
  destruct (added_outputs_are_read Sample.home Sample.float_bits Sample.lzma_compress
              Sample.lzma_decompress Sample.pickle_loads Scene.finished_job_world
              Sample.task Sample.entry0 Scene.out_entry Sample.header0
              Sample.params_block (Unicode.of_string "ok" ++ [10]))
    as (H1 & _ & H3 & _ & H5 & _).
  - evaluated.
  - reflexivity.
  - laid_out_here.
  - evaluated.
  - evaluated.
  - vm_compute. discriminate.
  - evaluated.
  - evaluated.
  - vm_compute. discriminate.
  - vm_compute. discriminate.
  - split; [exact H1|]. split; [exact H3|exact H5].
Defined.

End RecordScenes.

Section ProbeScenes.

Import TaskFile Probe Kill.

#[local] Existing Instance Sample.exact_floats.

Ltac in_range := unfold is_double; vm_compute; split; [discriminate|reflexivity].
Ltac evaluated := vm_compute; reflexivity.

(** X20: the completed sample task is not killed. *)
Lemma kill_task_spares_completed_witness :
  kill_task Sample.home BigEndian Sample.float_bits Sample.task Sample.world1
  = (Ok "completed", add_trace [EvOpen Scene.record_file "rb"] Sample.world1).
Proof.
  apply (kill_task_spares_completed Sample.home BigEndian Sample.float_bits Sample.task
           Sample.world1 Sample.entry1).
  - evaluated.
  - evaluated.
Defined.

(** X21: the new sample task is killed, and probed afterwards. *)
Lemma kill_task_aborts_witness :
  let r := kill_task Sample.home BigEndian Sample.float_bits Sample.task
             Sample.world0 in
  fst r = Ok "aborted"
  /\ fst (_get_status Sample.home BigEndian Sample.task (snd r)) = Ok "aborted"
  /\ fst (check_task Sample.home BigEndian Sample.float_bits 1 Sample.task None (snd r))
     = Ok (Some (Report "aborted" [(Scene.record_file, 200)])).
Proof.
  destruct (kill_task_aborts Sample.home BigEndian Sample.float_bits 0 Sample.task
              Sample.world0 Sample.entry0 Sample.header0 "new")
    as (h' & H1 & _ & _ & _ & _ & _ & _ & _ & _ & _ & _ & H12 & evs & H13).
  - evaluated.
  - reflexivity.
  - evaluated.
  - in_range.
  - evaluated.
  - discriminate.
  - split; [exact H1|]. split; [exact H12|]. cbv zeta in H13. rewrite H13. reflexivity.
Defined.

(** X14: a probe where no record has been saved. *)
Lemma missing_record_is_reported_witness :
  exists evs,
    check_task Sample.home Sample.native Sample.float_bits 1 Sample.task None
      Sample.fresh_world
    = (Ok (Some (Report "missing" [(Scene.record_file, 0)])),
       add_trace (evs ++ [EvIsFile Scene.record_file]) Sample.fresh_world)
    /\ Forall (hint_event (hint_files None)) evs.
Proof.
  apply (missing_record_is_reported Sample.home Sample.native Sample.float_bits 0
           Sample.task None Sample.fresh_world).
  - evaluated.
  - exact I.
Defined.

(** X15: the completed sample task, probed twice. *)
Lemma settled_report_is_reused_witness :
  exists rep,
    fst (check_task Sample.home Sample.native Sample.float_bits 1 Sample.task None
           Sample.world1) = Ok (Some rep)
    /\ fst (check_task Sample.home Sample.native Sample.float_bits 1 Sample.task
              (Some rep)
              (snd (check_task Sample.home Sample.native Sample.float_bits 1
                      Sample.task None Sample.world1))) = Ok None.
Proof.
  apply (settled_report_is_reused Sample.home Sample.native Sample.float_bits 0 0
           Sample.task Sample.world1).
  unfold settled.
  replace (w_fs Sample.world1 !! task_file Sample.home Sample.task)
    with (Some Sample.entry1) by evaluated.
  split; [vm_compute; discriminate|].
  exists "completed". split; evaluated.
Defined.

(** X16: the new sample task, with no pulse file and no job script. *)
Lemma waiting_task_keeps_its_status_witness :
  exists evs,
    check_task Sample.home Sample.native Sample.float_bits 1 Sample.task None
      Sample.world0
    = (Ok (Some (Report "new" [(Scene.record_file, 100);
                               (task_path Sample.home Sample.task ".sh", 0)])),
       add_trace evs Sample.world0).
Proof.
  apply (waiting_task_keeps_its_status Sample.home Sample.native Sample.float_bits 0
           Sample.task Sample.world0 Sample.entry0 "new").
  - evaluated.
  - evaluated.
  - reflexivity.
  - evaluated.
  - evaluated.
Defined.

(** X17: the same task, probed with the hint of a pending task. *)
Lemma pending_hint_is_confirmed_witness :
  exists evs,
    check_task Sample.home Sample.native Sample.float_bits 1 Sample.task
      (Some Scene.pending_hint) Sample.world0
    = (Ok None, add_trace evs Sample.world0).
Proof.
  apply (pending_hint_is_confirmed Sample.home Sample.native Sample.float_bits 0
           Sample.task Sample.world0 Sample.entry0 "new" Scene.pending_hint).
  - evaluated.
  - evaluated.
  - reflexivity.
  - evaluated.
  - evaluated.
  - reflexivity.
  - evaluated.
Defined.

(** X18: the sample task two nanoseconds after its pulse. *)
Lemma fresh_pulse_means_running_witness :
  let r := check_task Sample.home Sample.native Sample.float_bits 1 Sample.task None
             Scene.fresh_pulse_world in
  fst r = Ok (Some (Report "running" [(Scene.record_file, 100); (Scene.pulse_file, 198)]))
  /\ w_clock (snd r) = 200.
Proof.
  destruct (fresh_pulse_means_running Sample.home Sample.native Sample.float_bits 0
              Sample.task Scene.fresh_pulse_world Sample.entry0 Scene.pulse_entry
              Sample.header0 "new") as (H1 & H2 & _).
  - evaluated.
  - reflexivity.
  - evaluated.
  - in_range.
  - evaluated.
  - reflexivity.
  - evaluated.
  - reflexivity.
  - evaluated.
  - evaluated.
  - evaluated.
  - split; [exact H1|exact H2].
Defined.

(** X19: the sample task eleven seconds after its pulse. *)
Lemma stopped_pulse_means_aborted_witness :
  exists w',
    check_task Sample.home Sample.native Sample.float_bits 1 Sample.task None
      Scene.stopped_pulse_world
    = (Ok (Some (Report "aborted" [(Scene.record_file, 100); (Scene.pulse_file, 198)])),
       w')
    /\ w_fs w' !! Scene.pulse_file = None.
Proof.
  destruct (stopped_pulse_means_aborted Sample.home Sample.native Sample.float_bits 0
              Sample.task Scene.stopped_pulse_world Sample.entry0 Scene.pulse_entry
              Sample.header0 "new") as (w' & h' & H1 & _ & H3 & _).
  - evaluated.
  - reflexivity.
  - evaluated.
  - in_range.
  - evaluated.
  - reflexivity.
  - evaluated.
  - reflexivity.
  - evaluated.
  - evaluated.
  - evaluated.
  - evaluated.
  - exists w'. split; [exact H1|].
    apply (H3 ".pulse"). apply list_elem_of_In. cbn. tauto.
Defined.

(** X22: the sample task with a job script and a job id. *)
Lemma queued_job_means_submitted_witness :
  exists w',
    check_task Sample.home Sample.native Sample.float_bits 1 Sample.task None
      Scene.queued_world
    = (Ok (Some (Report "submitted"
                   [(Scene.record_file, 200); (Scene.script_file, 110);
                    (Scene.pulse_file, 0)])), w')
    /\ w_clock w' = 200.
Proof.
  destruct (queued_job_means_submitted Sample.home Sample.native Sample.float_bits 0 0
              Sample.task Scene.queued_world Sample.entry0 Scene.script_entry
              Scene.job_id_entry Sample.header0 "new")
    as (w' & H1 & H2 & _).
  - evaluated.
  - reflexivity.
  - evaluated.
  - in_range.
  - evaluated.
  - reflexivity.
  - evaluated.
  - evaluated.
  - vm_compute. discriminate.
  - evaluated.
  - vm_compute. discriminate.
  - exists w'. split; [exact H1|exact H2].
Defined.

(** X23: the sample task whose pulse file is read-only. *)
Lemma read_only_pulse_means_aborted_witness :
  exists w',
    check_task Sample.home Sample.native Sample.float_bits 1 Sample.task None
      Scene.killed_world
    = (Ok (Some (Report "aborted" [(Scene.record_file, 200); (Scene.pulse_file, 0)])),
       w')
    /\ w_fs w' !! Scene.pulse_file = None.
Proof.
  destruct (read_only_pulse_means_aborted Sample.home Sample.native Sample.float_bits
              0 0 Sample.task Scene.killed_world Sample.entry0 Scene.killed_pulse_entry
              Sample.header0 "new") as (w' & h' & H1 & _ & H3 & _).
  - evaluated.
  - reflexivity.
  - evaluated.
  - in_range.
  - evaluated.
  - reflexivity.
  - evaluated.
  - reflexivity.
  - evaluated.
  - exists w'. split; [exact H1|].
    apply (H3 ".pulse"). apply list_elem_of_In. cbn. tauto.
Defined.

End ProbeScenes.

Section MasterScenes.

Import Master.

#[local] Existing Instance Sample.plain_targets.

Ltac evaluated := vm_compute; reflexivity.

(** X24: the four-core sub-task is refused by the master of a two-core
    one. *)
Lemma refused_push_keeps_the_batch_witness :
  same_but_dict master1
    (snd (push Sample.expand_time Sample.expand_size Sample.format_HHMMSS
            "t2" Scene.four_core_task master1)).
Proof.
  apply (refused_push_keeps_the_batch Sample.expand_time Sample.expand_size
           Sample.format_HHMMSS master1 "t2" Scene.four_core_task
           (ValueError "All tasks should have the same resource cores")).
  evaluated.
Defined.

(** X25: a second two-core sub-task, with another tag. *)
Lemma pushed_tags_are_sorted_and_unique_witness :
  let tags' := tags (snd (push Sample.expand_time Sample.expand_size
                            Sample.format_HHMMSS "t2"
                            (two_core_task one_hour ["b"]) master1)) in
  Sorted tag_le tags' /\ NoDup tags'.
Proof.
  destruct (pushed_tags_are_sorted_and_unique Sample.expand_time Sample.expand_size
              Sample.format_HHMMSS master1 "t2" (two_core_task one_hour ["b"]))
    as (H1 & H2 & _).
  - evaluated.
  - split; [exact H1|exact H2].
Defined.

(** X26: the first push into a master of two workers. *)
Lemma first_push_takes_over_witness :
  let r := push Sample.expand_time Sample.expand_size Sample.format_HHMMSS
             "t1" (two_core_task one_hour ["a"]) (init 2) in
  fst r = Ok tt /\ ID (snd r) = "M1_t1".
Proof.
  destruct (first_push_takes_over Sample.expand_time Sample.expand_size
              Sample.format_HHMMSS (init 2) "t1" (two_core_task one_hour ["a"]) ["a"])
    as (H1 & _ & H3 & _).
  - reflexivity.
  - reflexivity.
  - split; [exact H1|exact H3].
Defined.

(** X27: the second push into that master. *)
Lemma later_push_sizes_the_batch_witness :
  let r := push Sample.expand_time Sample.expand_size Sample.format_HHMMSS
             "t2" (two_core_task one_hour ["b"]) master1 in
  fst r = Ok tt /\ num_tasks (snd r) = 2%nat.
Proof.
  destruct (later_push_sizes_the_batch Sample.expand_time Sample.expand_size
              Sample.format_HHMMSS master1 "t2" (two_core_task one_hour ["b"])
              (two_core_task one_hour ["a"]) "t1" [] ["b"] 2)
    as (nrow & ncol & H1 & H2 & _).
  - evaluated.
  - intros key _. reflexivity.
  - reflexivity.
  - vm_compute. discriminate.
  - evaluated.
  - split; [exact H1|]. rewrite H2. evaluated.
Defined.

End MasterScenes.
